(** * GreenCart Logistics: the delivery simulation engine

    A shallow embedding of the simulation controller
    (runSimulation, performDeliverySimulation, findOptimalDriver,
    calculateDriverScore, simulateDelivery, calculateDriverEfficiency)
    and of the model methods it calls (Driver.getFatigueFactor,
    Route.calculateFuelCost, Route.getTrafficMultiplier,
    Route.getEstimatedTime, Order.isLate, Order.calculateDeliveryBonus),
    followed by the properties of the engine.

    JavaScript numbers are idealised as exact rationals ([Q]); equality of
    computed numbers is therefore [==] ([Qeq]).  Dates are their
    [getTime()] value in milliseconds.  The database behind the Mongoose
    models is a pair of collections, and a populated [assignedRoute] is the
    route record itself. *)

From Stdlib Require Import QArith Qround Qminmax ZArith List String Bool.
From Stdlib Require Import Lia Lqa Permutation Sorted.
Import ListNotations.
Open Scope Q_scope.

(** ** JavaScript primitives used by the controller *)

Module JS.

(** [Math.round]: nearest integer, halves towards +infinity. *)
Definition Math_round (x : Q) : Q := inject_Z (Qfloor (x + (1#2))).

Definition Math_ceil (x : Q) : Q := inject_Z (Qceiling x).

Definition Math_max (x y : Q) : Q := Qmax x y.

Definition Math_min (x y : Q) : Q := Qmin x y.

(** The relational operators on numbers. *)
Definition ltb (x y : Q) : bool := negb (Qle_bool y x).
Definition leb (x y : Q) : bool := Qle_bool x y.
Definition gtb (x y : Q) : bool := ltb y x.
Definition geb (x y : Q) : bool := leb y x.

(** [v || d] for a number [v]: zero is falsy. *)
Definition or_default (v : option Q) (d : Q) : Q :=
  match v with
  | Some q => if Qeq_bool q 0 then d else q
  | None => d
  end.

(** The fragment of JavaScript values that the [+=] accumulations of the
    simulation loop can meet.  Strings and objects carry no payload: only
    their kind matters to [+]. *)
Inductive value : Type :=
| Num (q : Q)
| NaN
| Undefined
| Bool (b : bool)
| Str
| Obj.

(** [a + b].  With a string or an object operand the result is a string
    (concatenation); otherwise both operands go through ToNumber, where
    [undefined] becomes [NaN]. *)
Definition add (a b : value) : value :=
  match a, b with
  | Str, _ | _, Str | Obj, _ | _, Obj => Str
  | Num x, Num y => Num (x + y)
  | Num x, Bool c => Num (x + (if c then 1 else 0))
  | Bool c, Num y => Num ((if c then 1 else 0) + y)
  | Bool c, Bool d => Num ((if c then 1 else 0) + (if d then 1 else 0))
  | _, _ => NaN
  end.

(** [Math.round] on a value: ToNumber first. *)
Definition Math_round_value (v : value) : value :=
  match v with
  | Num q => Num (Math_round q)
  | Bool c => Num (if c then 1 else 0)
  | _ => NaN
  end.

Definition is_number (v : value) : bool :=
  match v with
  | Num _ => true
  | _ => false
  end.

End JS.

(** ** models/Driver.js *)

Module Driver.

Record t : Type := mk {
  _id : nat;
  name : string;
  currentShiftHours : Q;
  hourlyRate : Q;
  status : string;
  rating : Q
}.

(** Fatigue factor based on the current shift hours of the record. *)
Definition getFatigueFactor (this : t) : Q :=
  if JS.leb (currentShiftHours this) 4 then 1.0
  else if JS.leb (currentShiftHours this) 8 then 1.1
  else if JS.leb (currentShiftHours this) 12 then 1.3
  else 1.5.

End Driver.

(** ** models/Route.js *)

Module Route.

Record t : Type := mk {
  routeId : string;
  distance : Q;
  trafficLevel : string;
  baseTime : Q;
  fuelCostPerKm : Q;
  tollCharges : Q;
  totalCompletions : Q
}.

Definition calculateFuelCost (this : t) : Q :=
  distance this * fuelCostPerKm this + tollCharges this.

(** The lookup table of [getTrafficMultiplier]. *)
Definition multipliers (level : string) : option Q :=
  if String.eqb level "Low" then Some 1.0
  else if String.eqb level "Medium" then Some 1.2
  else if String.eqb level "High" then Some 1.5
  else None.

Definition getTrafficMultiplier (this : t) : Q :=
  JS.or_default (multipliers (trafficLevel this)) 1.0.

Definition getEstimatedTime (this : t) (driverFatigueFactor : Q) : Q :=
  JS.Math_round (baseTime this * getTrafficMultiplier this * driverFatigueFactor).

End Route.

(** ** models/Order.js *)

Module Order.

Record t : Type := mk {
  orderId : string;
  valueRs : Q;
  assignedRoute : option Route.t;        (* populated reference, or null *)
  deliveryTimestamp : option Q;          (* Date, default null *)
  scheduledDeliveryTime : option Q;      (* Date *)
  status : string;
  priority : string;
  isHighValue : bool
}.

Definition isLate (this : t) : bool :=
  match deliveryTimestamp this, scheduledDeliveryTime this with
  | Some delivered, Some scheduled => JS.gtb delivered scheduled
  | _, _ => false
  end.

(** Delivery bonus or penalty. *)
Definition calculateDeliveryBonus (this : t) : Q :=
  let bonus := 0 in
  (* High-value order bonus *)
  let bonus := if isHighValue this then bonus + valueRs this * 0.02 else bonus in
  (* On-time delivery bonus *)
  let bonus :=
    if String.eqb (status this) "delivered" && negb (isLate this)
    then bonus + 100 else bonus in
  (* Late delivery penalty *)
  let bonus :=
    if String.eqb (status this) "delivered" && isLate this
    then
      match deliveryTimestamp this, scheduledDeliveryTime this with
      | Some delivered, Some scheduled =>
          let hoursLate := JS.Math_ceil ((delivered - scheduled) / (1000 * 60 * 60)) in
          bonus - hoursLate * 50
      | _, _ => bonus (* not reached: isLate is false without both dates *)
      end
    else bonus in
  JS.Math_max bonus (-500).

End Order.

(** ** [Array.prototype.sort]

    The sort is stable (ECMAScript 2019).  With a consistent comparator the
    result of a stable sort does not depend on the algorithm of the engine
    ([Array_sort_unique] below); it is computed here by insertion, an
    element moving behind exactly those elements that the comparator puts
    strictly before it.  With a comparator that is not consistent the
    language leaves the order to the engine, and only the fact that the
    result is a permutation of the input carries over. *)

Section ArraySort.

Context {A : Type}.
Variable compareFn : A -> A -> Q.

Fixpoint sort_insert (a : A) (sorted : list A) : list A :=
  match sorted with
  | [] => [a]
  | b :: rest =>
      if JS.gtb (compareFn a b) 0 then b :: sort_insert a rest
      else a :: sorted
  end.

Fixpoint Array_sort (l : list A) : list A :=
  match l with
  | [] => []
  | a :: rest => sort_insert a (Array_sort rest)
  end.

End ArraySort.

(** Two elements that the comparator does not order: each may come first. *)
Definition tiedWith {A : Type} (compareFn : A -> A -> Q) (a x : A) : bool :=
  JS.leb (compareFn a x) 0 && JS.leb (compareFn x a) 0.

(** Writing element [i] of an array. *)
Fixpoint Array_set {A : Type} (l : list A) (i : nat) (x : A) : list A :=
  match l, i with
  | [], _ => []
  | _ :: rest, O => x :: rest
  | y :: rest, S j => y :: Array_set rest j x
  end.

Definition number_of_nat (n : nat) : Q := inject_Z (Z.of_nat n).

(** ** controllers/simulationController.js: records *)

(** The object literal returned by [simulateDelivery]. *)
Module DeliveryResult.

Record t : Type := mk {
  orderId : string;
  driverId : nat;
  driverName : string;
  routeId : string;
  distance : Q;
  timeSpent : Q;
  fuelCost : Q;
  driverEarnings : Q;
  deliveryBonus : Q;
  profit : Q;
  isOnTime : bool;
  scheduledTime : option Q;     (* None: Invalid Date *)
  actualDeliveryTime : Q;
  fatigueFactor : Q;
  trafficMultiplier : Q
}.

(** Property read [this[key]]: a key the literal does not define reads as
    [undefined]. *)
Definition get (this : t) (key : string) : JS.value :=
  if String.eqb key "orderId" then JS.Str
  else if String.eqb key "driverId" then JS.Obj
  else if String.eqb key "driverName" then JS.Str
  else if String.eqb key "routeId" then JS.Str
  else if String.eqb key "distance" then JS.Num (distance this)
  else if String.eqb key "timeSpent" then JS.Num (timeSpent this)
  else if String.eqb key "fuelCost" then JS.Num (fuelCost this)
  else if String.eqb key "driverEarnings" then JS.Num (driverEarnings this)
  else if String.eqb key "deliveryBonus" then JS.Num (deliveryBonus this)
  else if String.eqb key "profit" then JS.Num (profit this)
  else if String.eqb key "isOnTime" then JS.Bool (isOnTime this)
  else if String.eqb key "scheduledTime" then JS.Obj
  else if String.eqb key "actualDeliveryTime" then JS.Obj
  else if String.eqb key "fatigueFactor" then JS.Num (fatigueFactor this)
  else if String.eqb key "trafficMultiplier" then JS.Num (trafficMultiplier this)
  else JS.Undefined.

End DeliveryResult.

(** The per-run record created for each driver by [drivers.map], as a
    value: [driver] is the driver record seen through the reference that the
    object holds (the objects themselves are in [Store] below). *)
Module DriverState.

Record t : Type := mk {
  driver : Driver.t;
  currentHours : Q;
  assignedOrders : list DeliveryResult.t;
  totalEarnings : JS.value;
  totalDistance : Q;
  currentTime : Q
}.

Definition init (simulationStartTime : Q) (d : Driver.t) : t :=
  {| driver := d;
     currentHours := Driver.currentShiftHours d;
     assignedOrders := [];
     totalEarnings := JS.Num 0;
     totalDistance := 0;
     currentTime := simulationStartTime |}.

End DriverState.

Module Performance.

Record t : Type := mk {
  driverId : nat;
  driverName : string;
  ordersCompleted : nat;
  totalEarnings : JS.value;
  totalDistance : Q;
  hoursWorked : Q;
  efficiency : Q;
  onTimeRate : Q
}.

End Performance.

Module OptimizationDetails.

Record t : Type := mk {
  totalDistance : Q;
  totalTime : Q;
  averageUtilization : Q
}.

End OptimizationDetails.

Module Results.

Record t : Type := mk {
  totalProfit : Q;
  totalFuelCost : Q;
  totalOrders : nat;
  onTimeDeliveries : nat;
  lateDeliveries : nat;
  driversUsed : nat;
  efficiencyScore : Q;
  driverPerformance : list Performance.t;
  orderResults : list DeliveryResult.t;
  optimizationDetails : OptimizationDetails.t
}.

Definition empty : t :=
  {| totalProfit := 0;
     totalFuelCost := 0;
     totalOrders := 0;
     onTimeDeliveries := 0;
     lateDeliveries := 0;
     driversUsed := 0;
     efficiencyScore := 0;
     driverPerformance := [];
     orderResults := [];
     optimizationDetails :=
       {| OptimizationDetails.totalDistance := 0;
          OptimizationDetails.totalTime := 0;
          OptimizationDetails.averageUtilization := 0 |} |}.

End Results.

(** ** controllers/simulationController.js: the engine *)

(** Suitability score of a driver for an order. *)
Definition calculateDriverScore
  (driverState : DriverState.t) (order : Order.t) (route : Route.t) : Q :=
  let driver := DriverState.driver driverState in
  let score := 0 in
  (* Base score from driver rating *)
  let score := score + Driver.rating driver * 20 in
  (* Penalty for fatigue *)
  let fatigueFactor := Driver.getFatigueFactor driver in
  let score := score - (fatigueFactor - 1) * 30 in
  (* Bonus for less current workload *)
  let score := score + (8 - DriverState.currentHours driverState) * 5 in
  (* Bonus for route familiarity *)
  let score := score + JS.Math_min (Route.totalCompletions route * 0.1) 10 in
  (* Penalty for high-value orders if driver rating is low *)
  if Order.isHighValue order && JS.ltb (Driver.rating driver) 4.5
  then score - 20
  else score.

(** The body of the [for] loop of [findOptimalDriver], from array position
    [index] on.  A driver state is referred to by its position in the
    [driverStates] array together with its contents at the time of the scan. *)
Fixpoint findOptimalDriver_from
  (driverStates : list DriverState.t) (index : nat) (order : Order.t)
  (maxHoursPerDriver : Q)
  (bestDriver : option (nat * DriverState.t)) (bestScore : Q)
  : option (nat * DriverState.t) :=
  match driverStates with
  | [] => bestDriver
  | driverState :: rest =>
      match Order.assignedRoute order with
      | None => (* if (!route) continue *)
          findOptimalDriver_from rest (S index) order maxHoursPerDriver bestDriver bestScore
      | Some route =>
          let estimatedTime :=
            Route.getEstimatedTime route
              (Driver.getFatigueFactor (DriverState.driver driverState)) / 60 in
          if JS.gtb (DriverState.currentHours driverState + estimatedTime) maxHoursPerDriver
          then findOptimalDriver_from rest (S index) order maxHoursPerDriver bestDriver bestScore
          else
            let score := calculateDriverScore driverState order route in
            if JS.gtb score bestScore
            then findOptimalDriver_from rest (S index) order maxHoursPerDriver
                   (Some (index, driverState)) score
            else findOptimalDriver_from rest (S index) order maxHoursPerDriver
                   bestDriver bestScore
      end
  end.

Definition findOptimalDriver
  (driverStates : list DriverState.t) (order : Order.t) (maxHoursPerDriver : Q)
  : option (nat * DriverState.t) :=
  findOptimalDriver_from driverStates 0 order maxHoursPerDriver None (-1).

(** Simulation of one delivery.  [None] is the TypeError raised by reading
    [route.baseTime] on an order whose [assignedRoute] is null. *)
Definition simulateDelivery
  (driverState : DriverState.t) (order : Order.t) (simulationStartTime : Q)
  : option DeliveryResult.t :=
  let driver := DriverState.driver driverState in
  match Order.assignedRoute order with
  | None => None
  | Some route =>
      (* Delivery time with fatigue and traffic *)
      let fatigueFactor := Driver.getFatigueFactor driver in
      let baseTime := Route.baseTime route in
      let trafficMultiplier := Route.getTrafficMultiplier route in
      let actualTime := JS.Math_round (baseTime * trafficMultiplier * fatigueFactor) in
      (* Costs and earnings *)
      let fuelCost := Route.calculateFuelCost route in
      let driverEarnings := (actualTime / 60) * Driver.hourlyRate driver in
      let deliveryBonus := Order.calculateDeliveryBonus order in
      (* On time? *)
      let scheduledTime := Order.scheduledDeliveryTime order in
      let deliveryTime := DriverState.currentTime driverState + actualTime * 60 * 1000 in
      let isOnTime :=
        match scheduledTime with
        | Some scheduled => JS.leb deliveryTime scheduled
        | None => false (* comparison with an Invalid Date *)
        end in
      (* Profit *)
      let revenue := Order.valueRs order * 0.1 in
      let totalCosts := fuelCost + driverEarnings in
      let profit := revenue - totalCosts + deliveryBonus in
      Some
        {| DeliveryResult.orderId := Order.orderId order;
           DeliveryResult.driverId := Driver._id driver;
           DeliveryResult.driverName := Driver.name driver;
           DeliveryResult.routeId := Route.routeId route;
           DeliveryResult.distance := Route.distance route;
           DeliveryResult.timeSpent := actualTime;
           DeliveryResult.fuelCost := JS.Math_round fuelCost;
           DeliveryResult.driverEarnings := JS.Math_round driverEarnings;
           DeliveryResult.deliveryBonus := JS.Math_round deliveryBonus;
           DeliveryResult.profit := JS.Math_round profit;
           DeliveryResult.isOnTime := isOnTime;
           DeliveryResult.scheduledTime := scheduledTime;
           DeliveryResult.actualDeliveryTime := deliveryTime;
           DeliveryResult.fatigueFactor := JS.Math_round (fatigueFactor * 100) / 100;
           DeliveryResult.trafficMultiplier := JS.Math_round (trafficMultiplier * 100) / 100 |}
  end.

Definition calculateDriverEfficiency (driverState : DriverState.t) : Q :=
  match DriverState.assignedOrders driverState with
  | [] => 0
  | _ =>
      let totalRevenue :=
        fold_left (fun sum order => sum + DeliveryResult.profit order)
          (DriverState.assignedOrders driverState) 0 in
      let totalTime := DriverState.currentHours driverState in
      let efficiency := if JS.gtb totalTime 0 then totalRevenue / totalTime else 0 in
      JS.Math_round (efficiency * 100) / 100
  end.

(** A value read from the priority table: one of its four numbers, or a
    member that the object literal inherits from [Object.prototype] (a
    function, or the prototype itself under [__proto__]), named by its key. *)
Inductive TableValue : Type :=
| Weight (w : Q)
| Inherited (key : string).

(** The property names that every object literal inherits. *)
Definition objectPrototypeKeys : list string :=
  ["constructor"; "hasOwnProperty"; "isPrototypeOf"; "propertyIsEnumerable";
   "toLocaleString"; "toString"; "valueOf"; "__proto__"; "__defineGetter__";
   "__defineSetter__"; "__lookupGetter__"; "__lookupSetter__"]%string.

Definition inheritedKey (key : string) : bool :=
  existsb (String.eqb key) objectPrototypeKeys.

(** [priorityWeight[priority]] on the object literal
    [{ urgent: 4, high: 3, medium: 2, low: 1 }]; [None] is [undefined]. *)
Definition priorityWeight (priority : string) : option TableValue :=
  if String.eqb priority "urgent" then Some (Weight 4)
  else if String.eqb priority "high" then Some (Weight 3)
  else if String.eqb priority "medium" then Some (Weight 2)
  else if String.eqb priority "low" then Some (Weight 1)
  else if inheritedKey priority then Some (Inherited priority)
  else None.

(** [priorityWeight[o.priority] || 2]: the four numbers and the inherited
    members are all truthy, only [undefined] gives way to the default. *)
Definition orderPriority (o : Order.t) : TableValue :=
  match priorityWeight (Order.priority o) with
  | Some v => v
  | None => Weight 2
  end.

(** [a !== b]: numbers differ by value, objects by identity, and a number is
    never an object. *)
Definition strictNotEqual (a b : TableValue) : bool :=
  match a, b with
  | Weight x, Weight y => negb (Qeq_bool x y)
  | Inherited k, Inherited k' => negb (String.eqb k k')
  | _, _ => true
  end.

(** [b - a]; [None] is NaN, the difference when either side is an object. *)
Definition minus (b a : TableValue) : option Q :=
  match b, a with
  | Weight y, Weight x => Some (y - x)
  | _, _ => None
  end.

(** The comparator passed to [orders.sort]; [None] is NaN. *)
Definition orderComparator (a b : Order.t) : option Q :=
  let aPriority := orderPriority a in
  let bPriority := orderPriority b in
  if strictNotEqual aPriority bPriority then minus bPriority aPriority
  else Some (Order.valueRs b - Order.valueRs a).

(** The comparator as [Array.prototype.sort] reads it: a result that is NaN
    counts as +0. *)
Definition compareOrders (a b : Order.t) : Q :=
  match orderComparator a b with
  | Some v => v
  | None => 0
  end.

(** The state the assignment loop works on: the driver states, which it
    mutates in place, and the [results] object. *)
Record LoopState : Type := mkLoopState {
  driverStates : list DriverState.t;
  results : Results.t
}.

(** The updates of the selected driver state:
    [assignedOrders.push], [totalEarnings +=], [totalDistance +=],
    [currentHours +=] and the new [currentTime]. *)
Definition assignDelivery
  (bestDriver : DriverState.t) (deliveryResult : DeliveryResult.t) : DriverState.t :=
  {| DriverState.driver := DriverState.driver bestDriver;
     DriverState.currentHours :=
       DriverState.currentHours bestDriver
       + DeliveryResult.timeSpent deliveryResult / 60;
     DriverState.assignedOrders :=
       DriverState.assignedOrders bestDriver ++ [deliveryResult];
     DriverState.totalEarnings :=
       JS.add (DriverState.totalEarnings bestDriver)
              (DeliveryResult.get deliveryResult "earnings");
     DriverState.totalDistance :=
       DriverState.totalDistance bestDriver
       + DeliveryResult.distance deliveryResult;
     DriverState.currentTime :=
       DriverState.currentTime bestDriver
       + DeliveryResult.timeSpent deliveryResult * 60 * 1000 |}.

(** The updates of [results] for one delivery. *)
Definition recordDelivery (r : Results.t) (deliveryResult : DeliveryResult.t)
  : Results.t :=
  let od := Results.optimizationDetails r in
  {| Results.totalProfit :=
       Results.totalProfit r + DeliveryResult.profit deliveryResult;
     Results.totalFuelCost :=
       Results.totalFuelCost r + DeliveryResult.fuelCost deliveryResult;
     Results.totalOrders := S (Results.totalOrders r);
     Results.onTimeDeliveries :=
       if DeliveryResult.isOnTime deliveryResult
       then S (Results.onTimeDeliveries r)
       else Results.onTimeDeliveries r;
     Results.lateDeliveries :=
       if DeliveryResult.isOnTime deliveryResult
       then Results.lateDeliveries r
       else S (Results.lateDeliveries r);
     Results.driversUsed := Results.driversUsed r;
     Results.efficiencyScore := Results.efficiencyScore r;
     Results.driverPerformance := Results.driverPerformance r;
     Results.orderResults := Results.orderResults r ++ [deliveryResult];
     Results.optimizationDetails :=
       {| OptimizationDetails.totalDistance :=
            OptimizationDetails.totalDistance od
            + DeliveryResult.distance deliveryResult;
          OptimizationDetails.totalTime :=
            OptimizationDetails.totalTime od
            + DeliveryResult.timeSpent deliveryResult;
          OptimizationDetails.averageUtilization :=
            OptimizationDetails.averageUtilization od |} |}.

(** One iteration of [for (const order of sortedOrders)].  [None]: an
    exception escapes. *)
Definition assignOrder
  (maxHoursPerDriver simulationStartTime : Q) (st : LoopState) (order : Order.t)
  : option LoopState :=
  match findOptimalDriver (driverStates st) order maxHoursPerDriver with
  | None => Some st
  | Some (i, bestDriver) =>
      match simulateDelivery bestDriver order simulationStartTime with
      | None => None
      | Some deliveryResult =>
          Some
            {| driverStates :=
                 Array_set (driverStates st) i
                   (assignDelivery bestDriver deliveryResult);
               results := recordDelivery (results st) deliveryResult |}
      end
  end.

Fixpoint assignOrders
  (maxHoursPerDriver simulationStartTime : Q) (orders : list Order.t) (st : LoopState)
  : option LoopState :=
  match orders with
  | [] => Some st
  | order :: rest =>
      match assignOrder maxHoursPerDriver simulationStartTime st order with
      | None => None
      | Some st' => assignOrders maxHoursPerDriver simulationStartTime rest st'
      end
  end.

(** The performance entry pushed for a driver state with assigned orders. *)
Definition driverPerformanceOf (driverState : DriverState.t) : Performance.t :=
  let assigned := DriverState.assignedOrders driverState in
  {| Performance.driverId := Driver._id (DriverState.driver driverState);
     Performance.driverName := Driver.name (DriverState.driver driverState);
     Performance.ordersCompleted := List.length assigned;
     Performance.totalEarnings :=
       JS.Math_round_value (DriverState.totalEarnings driverState);
     Performance.totalDistance :=
       JS.Math_round (DriverState.totalDistance driverState * 100) / 100;
     Performance.hoursWorked :=
       JS.Math_round (DriverState.currentHours driverState * 100) / 100;
     Performance.efficiency := calculateDriverEfficiency driverState;
     Performance.onTimeRate :=
       (number_of_nat (List.length (filter DeliveryResult.isOnTime assigned))
        / number_of_nat (List.length assigned)) * 100 |}.

Definition hasAssignedOrders (ds : DriverState.t) : bool :=
  Nat.ltb 0 (List.length (DriverState.assignedOrders ds)).

(** Everything after the assignment loop: driver performance, efficiency
    score and the final rounding.  (A division by zero, which JavaScript
    answers with NaN or Infinity, can only come from an empty [orders]
    array, which [runSimulation] rejects; in [Q] it yields 0.) *)
Definition finalizeResults
  (orders : list Order.t) (maxHoursPerDriver : Q) (st : LoopState) : Results.t :=
  let r := results st in
  let od := Results.optimizationDetails r in
  let driversUsed := List.length (filter hasAssignedOrders (driverStates st)) in
  let driverPerformance :=
    Results.driverPerformance r
    ++ map driverPerformanceOf (filter hasAssignedOrders (driverStates st)) in
  let totalPossibleOrders := List.length orders in
  let completionRate :=
    (number_of_nat (Results.totalOrders r) / number_of_nat totalPossibleOrders) * 100 in
  let onTimeRate :=
    if Nat.ltb 0 (Results.totalOrders r)
    then (number_of_nat (Results.onTimeDeliveries r)
          / number_of_nat (Results.totalOrders r)) * 100
    else 0 in
  let utilizationRate :=
    if Nat.ltb 0 driversUsed
    then (OptimizationDetails.totalTime od
          / (number_of_nat driversUsed * maxHoursPerDriver * 60)) * 100
    else 0 in
  {| Results.totalProfit := JS.Math_round (Results.totalProfit r);
     Results.totalFuelCost := JS.Math_round (Results.totalFuelCost r);
     Results.totalOrders := Results.totalOrders r;
     Results.onTimeDeliveries := Results.onTimeDeliveries r;
     Results.lateDeliveries := Results.lateDeliveries r;
     Results.driversUsed := driversUsed;
     Results.efficiencyScore :=
       JS.Math_round
         ((completionRate * 0.4 + onTimeRate * 0.4 + utilizationRate * 0.2) * 100) / 100;
     Results.driverPerformance := driverPerformance;
     Results.orderResults := Results.orderResults r;
     Results.optimizationDetails :=
       {| OptimizationDetails.totalDistance := OptimizationDetails.totalDistance od;
          OptimizationDetails.totalTime := OptimizationDetails.totalTime od;
          OptimizationDetails.averageUtilization :=
            JS.Math_round (utilizationRate * 100) / 100 |} |}.

(** [new Date(startTime || Date.now())]; [now] is the clock reading. *)
Definition simulationStart (startTime : option Q) (now : Q) : Q :=
  JS.or_default startTime now.

Definition initialLoopState (simulationStartTime : Q) (drivers : list Driver.t)
  : LoopState :=
  {| driverStates := map (DriverState.init simulationStartTime) drivers;
     results := Results.empty |}.

(** [performDeliverySimulation] up to the end of the assignment loop: the
    driver states and the running [results]. *)
Definition simulationLoop
  (drivers : list Driver.t) (orders : list Order.t) (maxHoursPerDriver : Q)
  (startTime : option Q) (now : Q) : option LoopState :=
  let simulationStartTime := simulationStart startTime now in
  let sortedOrders := Array_sort compareOrders orders in
  assignOrders maxHoursPerDriver simulationStartTime sortedOrders
    (initialLoopState simulationStartTime drivers).

(** Core simulation logic.  [None]: an exception escapes. *)
Definition performDeliverySimulation
  (drivers : list Driver.t) (orders : list Order.t) (maxHoursPerDriver : Q)
  (startTime : option Q) (now : Q) : option Results.t :=
  match simulationLoop drivers orders maxHoursPerDriver startTime now with
  | None => None
  | Some st => Some (finalizeResults orders maxHoursPerDriver st)
  end.

(** ** The run over a store of objects

    In the source the driver states do not contain driver records: each
    holds a reference to the driver document that the caller passed in, and
    the loop mutates driver-state objects through references.  The
    definitions above work on the values seen through those references.
    Here the same run is written over an explicit store, in which driver
    documents and driver-state objects live side by side and are reached by
    address. *)

Module Store.

Record StateRecord : Type := mkStateRecord {
  driver : nat;                          (* reference to a driver document *)
  currentHours : Q;
  assignedOrders : list DeliveryResult.t;
  totalEarnings : JS.value;
  totalDistance : Q;
  currentTime : Q
}.

Inductive Object : Type :=
| DriverDocument (d : Driver.t)
| DriverStateObject (s : StateRecord).

(** The store: the object at address [a] is element [a]. *)
Definition t : Type := list Object.

(** The driver document behind a reference. *)
Definition document (h : t) (ref : nat) : option Driver.t :=
  match nth_error h ref with
  | Some (DriverDocument d) => Some d
  | _ => None
  end.

(** What is seen through a driver-state record: its own fields, and the
    driver document behind its [driver] reference. *)
Definition view (h : t) (s : StateRecord) : option DriverState.t :=
  match document h (driver s) with
  | Some d =>
      Some {| DriverState.driver := d;
              DriverState.currentHours := currentHours s;
              DriverState.assignedOrders := assignedOrders s;
              DriverState.totalEarnings := totalEarnings s;
              DriverState.totalDistance := totalDistance s;
              DriverState.currentTime := currentTime s |}
  | None => None
  end.

(** Reading through a reference to a driver state. *)
Definition read (h : t) (ref : nat) : option DriverState.t :=
  match nth_error h ref with
  | Some (DriverStateObject s) => view h s
  | _ => None
  end.

Fixpoint readAll (h : t) (refs : list nat) : option (list DriverState.t) :=
  match refs with
  | [] => Some []
  | ref :: rest =>
      match read h ref, readAll h rest with
      | Some ds, Some l => Some (ds :: l)
      | _, _ => None
      end
  end.

Fixpoint documents (h : t) (refs : list nat) : option (list Driver.t) :=
  match refs with
  | [] => Some []
  | ref :: rest =>
      match document h ref, documents h rest with
      | Some d, Some l => Some (d :: l)
      | _, _ => None
      end
  end.

(** The assignments of the loop body to the driver state behind [ref]:
    [assignedOrders], [totalEarnings], [totalDistance], [currentHours] and
    [currentTime] get the values of [ds]; the [driver] reference is not
    assigned. *)
Definition write (h : t) (ref : nat) (ds : DriverState.t) : t :=
  match nth_error h ref with
  | Some (DriverStateObject s) =>
      Array_set h ref
        (DriverStateObject
           {| driver := driver s;
              currentHours := DriverState.currentHours ds;
              assignedOrders := DriverState.assignedOrders ds;
              totalEarnings := DriverState.totalEarnings ds;
              totalDistance := DriverState.totalDistance ds;
              currentTime := DriverState.currentTime ds |})
  | _ => h
  end.

(** [drivers.map((driver) => ({ driver: driver, currentHours:
    driver.currentShiftHours, ... }))]: one new object per element of the
    array of references, allocated at the end of the store. *)
Fixpoint createDriverStates (h : t) (drivers : list nat) (simulationStartTime : Q)
  : option (t * list nat) :=
  match drivers with
  | [] => Some (h, [])
  | driverRef :: rest =>
      match document h driverRef with
      | None => None
      | Some d =>
          let object :=
            DriverStateObject
              {| driver := driverRef;
                 currentHours := Driver.currentShiftHours d;
                 assignedOrders := [];
                 totalEarnings := JS.Num 0;
                 totalDistance := 0;
                 currentTime := simulationStartTime |} in
          match createDriverStates (h ++ [object]) rest simulationStartTime with
          | None => None
          | Some (h', refs) => Some (h', List.length h :: refs)
          end
      end
  end.

(** One iteration of the assignment loop: [findOptimalDriver] scans the
    driver states through their references and yields one of the
    references, through which the loop body then writes. *)
Definition assignOrder
  (maxHoursPerDriver simulationStartTime : Q) (driverStates : list nat)
  (hr : t * Results.t) (order : Order.t) : option (t * Results.t) :=
  let (h, r) := hr in
  match readAll h driverStates with
  | None => None
  | Some seen =>
      match findOptimalDriver seen order maxHoursPerDriver with
      | None => Some (h, r)
      | Some (i, seenBest) =>
          match nth_error driverStates i,
                simulateDelivery seenBest order simulationStartTime with
          | Some bestDriver, Some deliveryResult =>
              Some (write h bestDriver (assignDelivery seenBest deliveryResult),
                    recordDelivery r deliveryResult)
          | _, _ => None
          end
      end
  end.

Fixpoint assignOrders
  (maxHoursPerDriver simulationStartTime : Q) (driverStates : list nat)
  (orders : list Order.t) (hr : t * Results.t) : option (t * Results.t) :=
  match orders with
  | [] => Some hr
  | order :: rest =>
      match assignOrder maxHoursPerDriver simulationStartTime driverStates hr order with
      | None => None
      | Some hr' =>
          assignOrders maxHoursPerDriver simulationStartTime driverStates rest hr'
      end
  end.

(** [performDeliverySimulation] up to the end of the assignment loop, on
    the store [h] and the array [drivers] of references to driver
    documents: the store it leaves, the references to the driver states it
    created, and the running results. *)
Definition simulationLoop
  (h : t) (drivers : list nat) (orders : list Order.t) (maxHoursPerDriver : Q)
  (startTime : option Q) (now : Q) : option (t * list nat * Results.t) :=
  let simulationStartTime := simulationStart startTime now in
  match createDriverStates h drivers simulationStartTime with
  | None => None
  | Some (h1, driverStates) =>
      let sortedOrders := Array_sort compareOrders orders in
      match assignOrders maxHoursPerDriver simulationStartTime driverStates
              sortedOrders (h1, Results.empty) with
      | None => None
      | Some (h2, r) => Some (h2, driverStates, r)
      end
  end.

(** The driver states of [dss] are what is seen through the records
    [cells], which sit in the store right after the objects of [h0]. *)
Definition represents (h0 h : t) (refs : list nat) (dss : list DriverState.t) : Prop :=
  exists cells,
    h = h0 ++ map DriverStateObject cells /\
    refs = seq (List.length h0) (List.length cells) /\
    Forall2 (fun s ds => view h0 s = Some ds) cells dss.

End Store.

(** ** controllers/simulationController.js: the request handlers *)

(** The collections behind [Driver.find] and [Order.find]. *)
Record Database : Type := mkDatabase {
  driverCollection : list Driver.t;
  orderCollection : list Order.t
}.

(** What lies outside the controller during one request: the database, the
    clock, and whether a query rejects (the awaited promise throws). *)
Record World : Type := mkWorld {
  db : Database;
  now : Q;
  driverQueryFails : bool;
  orderQueryFails : bool
}.

(** [req.body]. *)
Record Body : Type := mkBody {
  numberOfDrivers : option Q;
  startTime : option Q;
  maxHoursPerDriver : option Q
}.

(** The cached value of [simulationResults]. *)
Record CachedResults : Type := mkCached {
  cachedResults : Results.t;
  timestamp : Q;
  parameters : Body
}.

(** The module-level variables [simulationInProgress], [simulationResults]. *)
Record ModuleState : Type := mkModuleState {
  simulationInProgress : bool;
  simulationResults : option CachedResults
}.

Definition initialModuleState : ModuleState :=
  {| simulationInProgress := false; simulationResults := None |}.

Record Response : Type := mkResponse {
  statusCode : nat;
  status : string;
  message : string;
  data : option CachedResults
}.

(** [.sort({ currentShiftHours: 1, rating: -1 })]. *)
Definition compareDrivers (a b : Driver.t) : Q :=
  if negb (Qeq_bool (Driver.currentShiftHours a) (Driver.currentShiftHours b))
  then Driver.currentShiftHours a - Driver.currentShiftHours b
  else Driver.rating b - Driver.rating a.

(** [Driver.find({ status: "active" }).sort(...).limit(numberOfDrivers)];
    [None] when the query rejects. *)
Definition findActiveDrivers (w : World) (limit : Q) : option (list Driver.t) :=
  if driverQueryFails w then None
  else
    Some (firstn (Z.to_nat (Qfloor limit))
            (Array_sort compareDrivers
               (filter (fun d => String.eqb (Driver.status d) "active")
                  (driverCollection (db w))))).

(** [Order.find({ status: "pending" }).populate("assignedRoute")]. *)
Definition findPendingOrders (w : World) : option (list Order.t) :=
  if orderQueryFails w then None
  else
    Some (filter (fun o => String.eqb (Order.status o) "pending")
            (orderCollection (db w))).

Definition errorResponse (code : nat) (msg : string) : Response :=
  {| statusCode := code; status := "error"; message := msg; data := None |}.

(** The guard [!v || v < lo || v > hi] on a body field: [None] when the
    guard fires, the number otherwise. *)
Definition withinRange (v : option Q) (lo hi : Q) : option Q :=
  match v with
  | None => None
  | Some q => if Qeq_bool q 0 || JS.ltb q lo || JS.gtb q hi then None else Some q
  end.

(** The [catch] block. *)
Definition simulationFailed (st : ModuleState) : Response * ModuleState :=
  (errorResponse 500 "Simulation failed",
   {| simulationInProgress := false; simulationResults := simulationResults st |}).

(** [runSimulation] up to its first [await]: the validation of the input,
    the check of the flag, and the setting of the flag.  Either a response
    is sent at once, or the call goes on with the validated numbers. *)
Definition runSimulation_enter (st : ModuleState) (body : Body)
  : (Response + Q * Q) * ModuleState :=
  (* Validate input *)
  match withinRange (numberOfDrivers body) 1 50 with
  | None => (inl (errorResponse 400 "Number of drivers must be between 1 and 50"), st)
  | Some numberOfDrivers =>
  match withinRange (maxHoursPerDriver body) 1 24 with
  | None => (inl (errorResponse 400 "Max hours per driver must be between 1 and 24"), st)
  | Some maxHoursPerDriver =>
  (* Check if simulation is already running *)
  if simulationInProgress st
  then (inl (errorResponse 409
               "Simulation is already in progress. Please wait for it to complete."),
        st)
  else
    (inr (numberOfDrivers, maxHoursPerDriver),
     {| simulationInProgress := true;
        simulationResults := simulationResults st |})
  end
  end.

(** [runSimulation] from its first [await] on: the queries, the
    preconditions, the simulation, the caching of the results and the
    clearing of the flag; [st] is the module state when the call goes on. *)
Definition runSimulation_resume
  (st : ModuleState) (body : Body) (numberOfDrivers maxHoursPerDriver : Q) (w : World)
  : Response * ModuleState :=
  match findActiveDrivers w numberOfDrivers with
  | None => simulationFailed st
  | Some availableDrivers =>
      match findPendingOrders w with
      | None => simulationFailed st
      | Some pendingOrders =>
          if Nat.eqb (List.length availableDrivers) 0
          then (errorResponse 400 "No active drivers available for simulation",
                {| simulationInProgress := false;
                   simulationResults := simulationResults st |})
          else if Nat.eqb (List.length pendingOrders) 0
          then (errorResponse 400 "No pending orders available for simulation",
                {| simulationInProgress := false;
                   simulationResults := simulationResults st |})
          else
            match performDeliverySimulation availableDrivers pendingOrders
                    maxHoursPerDriver (startTime body) (now w) with
            | None => simulationFailed st
            | Some results =>
                let cached :=
                  {| cachedResults := results;
                     timestamp := now w;
                     parameters := body |} in
                ({| statusCode := 200;
                    status := "success";
                    message := "Simulation completed successfully";
                    data := Some cached |},
                 {| simulationInProgress := false;
                    simulationResults := Some cached |})
            end
      end
  end.

(** [runSimulation], run from start to end with no other call in between:
    the response sent and the module state left behind. *)
Definition runSimulation (st : ModuleState) (body : Body) (w : World)
  : Response * ModuleState :=
  match runSimulation_enter st body with
  | (inl response, st') => (response, st')
  | (inr (numberOfDrivers, maxHoursPerDriver), st') =>
      runSimulation_resume st' body numberOfDrivers maxHoursPerDriver w
  end.

(** [getSimulationStatus]: the [data] of its response. *)
Definition getSimulationStatus (st : ModuleState) : bool * option CachedResults :=
  (simulationInProgress st, simulationResults st).

(** Requests served one after the other: the module state after each. *)
Fixpoint serve (st : ModuleState) (requests : list (Body * World))
  : list ModuleState :=
  match requests with
  | [] => []
  | (body, w) :: rest =>
      let st' := snd (runSimulation st body w) in
      st' :: serve st' rest
  end.

(** Requests that overlap.  A call that has set the flag is suspended at
    an [await] while other calls are served; it goes on later, in a world
    that may have changed. *)
Record Suspended : Type := mkSuspended {
  suspendedBody : Body;
  suspendedDrivers : Q;
  suspendedHours : Q
}.

Record Server : Type := mkServer {
  moduleState : ModuleState;
  suspended : list Suspended
}.

Definition initialServer : Server :=
  {| moduleState := initialModuleState; suspended := [] |}.

Inductive serverStep : Server -> Server -> Prop :=
| request_answered s body response st' :
    runSimulation_enter (moduleState s) body = (inl response, st') ->
    serverStep s {| moduleState := st'; suspended := suspended s |}
| request_suspended s body n m st' :
    runSimulation_enter (moduleState s) body = (inr (n, m), st') ->
    serverStep s
      {| moduleState := st';
         suspended :=
           {| suspendedBody := body; suspendedDrivers := n; suspendedHours := m |}
           :: suspended s |}
| run_resumed s before r after w response st' :
    suspended s = before ++ r :: after ->
    runSimulation_resume (moduleState s) (suspendedBody r)
      (suspendedDrivers r) (suspendedHours r) w = (response, st') ->
    serverStep s {| moduleState := st'; suspended := before ++ after |}.

Inductive reachable : Server -> Prop :=
| reachable_initial : reachable initialServer
| reachable_step s s' : reachable s -> serverStep s s' -> reachable s'.

(** ** Vocabulary of the properties *)

(** The hour-budget test that [findOptimalDriver] applies to a driver state:
    the negation of its second [continue] condition. *)
Definition withinBudget
  (driverState : DriverState.t) (route : Route.t) (maxHoursPerDriver : Q) : bool :=
  negb (JS.gtb
          (DriverState.currentHours driverState
           + Route.getEstimatedTime route
               (Driver.getFatigueFactor (DriverState.driver driverState)) / 60)
          maxHoursPerDriver).

(** Hours added to a driver by a list of delivery results. *)
Definition hoursOf (assigned : list DeliveryResult.t) : Q :=
  fold_right (fun r acc => DeliveryResult.timeSpent r / 60 + acc) 0 assigned.

(** The cumulative hours of a driver state are what the driver record
    started the run with, plus the hours of the deliveries assigned so far. *)
Definition hoursAccounted (ds : DriverState.t) : Prop :=
  DriverState.currentHours ds
  == Driver.currentShiftHours (DriverState.driver ds)
     + hoursOf (DriverState.assignedOrders ds).

(** A driver state that received an assignment is within the hour budget. *)
Definition withinMaxHours (maxHoursPerDriver : Q) (ds : DriverState.t) : Prop :=
  DriverState.assignedOrders ds <> [] ->
  DriverState.currentHours ds <= maxHoursPerDriver.

(** The two ways an iteration can go: the order is dropped and nothing
    changes, or a driver state within budget is picked, the delivery is
    simulated and both the driver state and the results are updated. *)
Inductive iteration (maxHours start : Q) (st : LoopState) (order : Order.t)
  : LoopState -> Prop :=
| iteration_dropped :
    findOptimalDriver (driverStates st) order maxHours = None ->
    iteration maxHours start st order st
| iteration_assigned i ds route r :
    findOptimalDriver (driverStates st) order maxHours = Some (i, ds) ->
    nth_error (driverStates st) i = Some ds ->
    Order.assignedRoute order = Some route ->
    withinBudget ds route maxHours = true ->
    simulateDelivery ds order start = Some r ->
    DeliveryResult.timeSpent r
    = Route.getEstimatedTime route (Driver.getFatigueFactor (DriverState.driver ds)) ->
    iteration maxHours start st order
      {| driverStates := Array_set (driverStates st) i (assignDelivery ds r);
         results := recordDelivery (results st) r |}.

(** The step function of the specification: 1.0 up to 4 hours, 1.1 up to 8,
    1.3 up to 12, else 1.5, as a function of a number of hours. *)
Definition spec_fatigueFactor (hours : Q) : Q :=
  if JS.leb hours 4 then 1.0
  else if JS.leb hours 8 then 1.1
  else if JS.leb hours 12 then 1.3
  else 1.5.

(** [Math.round(x * 100) / 100] *)
Definition round2 (x : Q) : Q := JS.Math_round (x * 100) / 100.

(** Full-precision profit and fuel cost of a delivery, before the rounding
    in the object that [simulateDelivery] returns. *)
Definition exactFuelCost (order : Order.t) : Q :=
  match Order.assignedRoute order with
  | Some route => Route.calculateFuelCost route
  | None => 0
  end.

Definition exactDriverEarnings (driver : Driver.t) (order : Order.t) : Q :=
  match Order.assignedRoute order with
  | Some route =>
      (Route.getEstimatedTime route (Driver.getFatigueFactor driver) / 60)
      * Driver.hourlyRate driver
  | None => 0
  end.

Definition exactProfit (driver : Driver.t) (order : Order.t) : Q :=
  Order.valueRs order * 0.1
  - (exactFuelCost order + exactDriverEarnings driver order)
  + Order.calculateDeliveryBonus order.

(** Sum of a numeric field over delivery results. *)
Definition sumOf (field : DeliveryResult.t -> Q) (l : list DeliveryResult.t) : Q :=
  fold_right (fun r acc => field r + acc) 0 l.

(** A number that is a whole number. *)
Definition isInteger (x : Q) : Prop := exists z : Z, x == inject_Z z.

(** Both parameter guards of [runSimulation] let the body through. *)
Definition validParameters (body : Body) : bool :=
  match withinRange (numberOfDrivers body) 1 50,
        withinRange (maxHoursPerDriver body) 1 24 with
  | Some _, Some _ => true
  | _, _ => false
  end.

(** The priority weight of the specification: urgent 4, high 3, medium 2,
    low 1, and 2 for any other priority string. *)
Definition weightOf (o : Order.t) : Q :=
  if String.eqb (Order.priority o) "urgent" then 4
  else if String.eqb (Order.priority o) "high" then 3
  else if String.eqb (Order.priority o) "medium" then 2
  else if String.eqb (Order.priority o) "low" then 1
  else 2.

(** The order of the specification as a comparator: by weight descending,
    then by value descending. *)
Definition compareByWeight (a b : Order.t) : Q :=
  if negb (Qeq_bool (weightOf a) (weightOf b)) then weightOf b - weightOf a
  else Order.valueRs b - Order.valueRs a.

(** [a] may be processed before [b]: higher priority weight first, and
    among equal weights the higher value first. *)
Definition processedBefore (a b : Order.t) : Prop :=
  weightOf b < weightOf a \/
  (weightOf a == weightOf b /\ Order.valueRs b <= Order.valueRs a).

(** [x] has the priority weight and the value of [o]. *)
Definition sameKey (o x : Order.t) : bool :=
  Qeq_bool (weightOf x) (weightOf o)
  && Qeq_bool (Order.valueRs x) (Order.valueRs o).

(** The priority of the order is not the name of an inherited member: it is
    one of the four priorities of the table or a string that the table does
    not know at all. *)
Definition plainPriority (o : Order.t) : Prop :=
  inheritedKey (Order.priority o) = false.

(** ** Sample data *)

Definition sampleDriver : Driver.t :=
  {| Driver._id := 1; Driver.name := "Asha"; Driver.currentShiftHours := 2;
     Driver.hourlyRate := 150; Driver.status := "active"; Driver.rating := 4.8 |}.

Definition sampleRoute : Route.t :=
  {| Route.routeId := "RT001"; Route.distance := 15.5; Route.trafficLevel := "High";
     Route.baseTime := 45; Route.fuelCostPerKm := 8.5; Route.tollCharges := 25;
     Route.totalCompletions := 0 |}.

Definition sampleOrder : Order.t :=
  {| Order.orderId := "ORD001"; Order.valueRs := 15000;
     Order.assignedRoute := Some sampleRoute;
     Order.deliveryTimestamp := None;
     Order.scheduledDeliveryTime := Some 86400000;
     Order.status := "pending"; Order.priority := "medium";
     Order.isHighValue := true |}.

(** A driver three and a half hours into the shift, and two orders on a
    one-hour route. *)
Definition freshDriver : Driver.t :=
  {| Driver._id := 2; Driver.name := "Bala"; Driver.currentShiftHours := 3.5;
     Driver.hourlyRate := 120; Driver.status := "active"; Driver.rating := 4.6 |}.

Definition hourRoute : Route.t :=
  {| Route.routeId := "RT002"; Route.distance := 10.5; Route.trafficLevel := "Low";
     Route.baseTime := 60; Route.fuelCostPerKm := 8.5; Route.tollCharges := 0;
     Route.totalCompletions := 0 |}.

Definition hourOrder (id : string) : Order.t :=
  {| Order.orderId := id; Order.valueRs := 5000;
     Order.assignedRoute := Some hourRoute;
     Order.deliveryTimestamp := None;
     Order.scheduledDeliveryTime := Some 86400000;
     Order.status := "pending"; Order.priority := "medium";
     Order.isHighValue := false |}.

(** A low-rated driver thirteen hours into the shift. *)
Definition tiredDriver : Driver.t :=
  {| Driver._id := 3; Driver.name := "Chitra"; Driver.currentShiftHours := 13;
     Driver.hourlyRate := 100; Driver.status := "active"; Driver.rating := 1 |}.

(** An order on the one-hour route whose commission is not a whole number of
    rupees. *)
Definition oddOrder (id : string) : Order.t :=
  {| Order.orderId := id; Order.valueRs := 5005;
     Order.assignedRoute := Some hourRoute;
     Order.deliveryTimestamp := None;
     Order.scheduledDeliveryTime := Some 86400000;
     Order.status := "pending"; Order.priority := "medium";
     Order.isHighValue := false |}.

Definition orderWith (id priority : string) (value : Q) : Order.t :=
  {| Order.orderId := id; Order.valueRs := value;
     Order.assignedRoute := Some hourRoute;
     Order.deliveryTimestamp := None;
     Order.scheduledDeliveryTime := Some 86400000;
     Order.status := "pending"; Order.priority := priority;
     Order.isHighValue := JS.geb value 10000 |}.



(** A module state in which a run is in progress, a body with an
    out-of-range driver count, a body within range, and a world with one
    active driver and one pending order. *)
Definition busyState : ModuleState :=
  {| simulationInProgress := true; simulationResults := None |}.

Definition badBody : Body :=
  {| numberOfDrivers := Some 0; startTime := None; maxHoursPerDriver := Some 8 |}.

Definition goodBody : Body :=
  {| numberOfDrivers := Some 5; startTime := None; maxHoursPerDriver := Some 8 |}.

Definition sampleWorld : World :=
  {| db := {| driverCollection := [sampleDriver]; orderCollection := [sampleOrder] |};
     now := 0;
     driverQueryFails := false;
     orderQueryFails := false |}.



(** ** Further methods of the models

    The records [Driver.t], [Route.t] and [Order.t] hold the fields that the
    simulation reads.  The methods below also use [maxHoursPerDay],
    [averageCompletionTime] and [actualDeliveryTime], which are kept beside
    those records. *)

Module DriverDoc.

Record t : Type := mk {
  fields : Driver.t;
  maxHoursPerDay : Q
}.

(** [canWorkMoreHours(additionalHours = 0)] *)
Definition canWorkMoreHours (this : t) (additionalHours : option Q) : bool :=
  let additionalHours :=
    match additionalHours with
    | Some h => h
    | None => 0
    end in
  JS.leb (Driver.currentShiftHours (fields this) + additionalHours)
         (maxHoursPerDay this).

(** [resetShiftHours]: the document that is saved. *)
Definition resetShiftHours (this : t) : t :=
  {| fields :=
       {| Driver._id := Driver._id (fields this);
          Driver.name := Driver.name (fields this);
          Driver.currentShiftHours := 0;
          Driver.hourlyRate := Driver.hourlyRate (fields this);
          Driver.status := Driver.status (fields this);
          Driver.rating := Driver.rating (fields this) |};
     maxHoursPerDay := maxHoursPerDay this |}.

End DriverDoc.

Module RouteDoc.

Record t : Type := mk {
  fields : Route.t;
  averageCompletionTime : Q
}.

(** [updateAverageTime(actualTime)]: the document that is saved. *)
Definition updateAverageTime (this : t) (actualTime : Q) : t :=
  let totalTime :=
    averageCompletionTime this * Route.totalCompletions (fields this) + actualTime in
  let totalCompletions := Route.totalCompletions (fields this) + 1 in
  {| fields :=
       {| Route.routeId := Route.routeId (fields this);
          Route.distance := Route.distance (fields this);
          Route.trafficLevel := Route.trafficLevel (fields this);
          Route.baseTime := Route.baseTime (fields this);
          Route.fuelCostPerKm := Route.fuelCostPerKm (fields this);
          Route.tollCharges := Route.tollCharges (fields this);
          Route.totalCompletions := totalCompletions |};
     averageCompletionTime := JS.Math_round (totalTime / totalCompletions) |}.

End RouteDoc.

Module OrderDoc.

Record t : Type := mk {
  fields : Order.t;
  actualDeliveryTime : option Q        (* minutes taken, default null *)
}.

(** [markAsDelivered(actualTimeMinutes)] at clock reading [now]: the
    document that is saved. *)
Definition markAsDelivered (this : t) (actualTimeMinutes : option Q) (now : Q) : t :=
  {| fields :=
       {| Order.orderId := Order.orderId (fields this);
          Order.valueRs := Order.valueRs (fields this);
          Order.assignedRoute := Order.assignedRoute (fields this);
          Order.deliveryTimestamp := Some now;
          Order.scheduledDeliveryTime := Order.scheduledDeliveryTime (fields this);
          Order.status := "delivered";
          Order.priority := Order.priority (fields this);
          Order.isHighValue := Order.isHighValue (fields this) |};
     actualDeliveryTime := actualTimeMinutes |}.

End OrderDoc.

(** A number from a request body used as a condition: absent and zero are
    falsy. *)
Definition truthy (v : option Q) : bool :=
  match v with
  | Some q => negb (Qeq_bool q 0)
  | None => false
  end.

(** The share of the value that a high-value order earns as a bonus. *)
Definition highValueShare (o : Order.t) : Q :=
  if Order.isHighValue o then Order.valueRs o * 0.02 else 0.

(** Hours between the scheduled time and the delivery, as
    [calculateDeliveryBonus] counts them. *)
Definition hoursLate (delivered scheduled : Q) : Q :=
  JS.Math_ceil ((delivered - scheduled) / (1000 * 60 * 60)).

(** An order in progress, due at clock reading 7200000 (two hours). *)
Definition movingOrder : OrderDoc.t :=
  {| OrderDoc.fields :=
       {| Order.orderId := "ORD501"; Order.valueRs := 15000;
          Order.assignedRoute := Some sampleRoute;
          Order.deliveryTimestamp := None;
          Order.scheduledDeliveryTime := Some 7200000;
          Order.status := "in-progress"; Order.priority := "high";
          Order.isHighValue := true |};
     OrderDoc.actualDeliveryTime := None |}.

(** ** controllers/orderController.js: [markAsDelivered]

    The handler is given what its two lookups find: the order document for
    [req.params.id] and the route document of that order.  At most one of
    its database operations rejects; the [catch] block then answers 500, and
    what was saved before stays saved. *)

Inductive DeliveryFault : Type :=
| NoFault
| OrderLookupFails
| OrderSaveFails
| FeedbackSaveFails
| RouteLookupFails
| RouteSaveFails
| PopulateFails.

Record DeliveryReply : Type := mkDeliveryReply {
  replyCode : nat;
  replyMessage : string;
  replyBonus : option Q        (* data.deliveryBonus *)
}.

(** The reply, and the two documents as the database holds them after the
    call. *)
Record DeliveryOutcome : Type := mkDeliveryOutcome {
  reply : DeliveryReply;
  orderAfter : option OrderDoc.t;
  routeAfter : option RouteDoc.t
}.

Definition deliveryFailed (order : option OrderDoc.t) (route : option RouteDoc.t)
  : DeliveryOutcome :=
  {| reply := {| replyCode := 500;
                 replyMessage := "Failed to mark order as delivered";
                 replyBonus := None |};
     orderAfter := order;
     routeAfter := route |}.

Definition isFault (fault expected : DeliveryFault) : bool :=
  match fault, expected with
  | OrderLookupFails, OrderLookupFails
  | OrderSaveFails, OrderSaveFails
  | FeedbackSaveFails, FeedbackSaveFails
  | RouteLookupFails, RouteLookupFails
  | RouteSaveFails, RouteSaveFails
  | PopulateFails, PopulateFails => true
  | _, _ => false
  end.

Definition hasRoute (o : OrderDoc.t) : bool :=
  match Order.assignedRoute (OrderDoc.fields o) with
  | Some _ => true
  | None => false
  end.

Definition markAsDeliveredHandler
  (found : option OrderDoc.t) (actualTimeMinutes : option Q) (feedback : bool)
  (routeFound : option RouteDoc.t) (now : Q) (fault : DeliveryFault)
  : DeliveryOutcome :=
  if isFault fault OrderLookupFails then deliveryFailed found routeFound
  else
  match found with
  | None =>
      {| reply := {| replyCode := 404; replyMessage := "Order not found";
                     replyBonus := None |};
         orderAfter := found; routeAfter := routeFound |}
  | Some order =>
      if negb (String.eqb (Order.status (OrderDoc.fields order)) "in-progress")
      then
        {| reply := {| replyCode := 400;
                       replyMessage := "Order must be in progress to mark as delivered";
                       replyBonus := None |};
           orderAfter := found; routeAfter := routeFound |}
      else
      (* Mark as delivered *)
      if isFault fault OrderSaveFails then deliveryFailed found routeFound
      else
      let order := OrderDoc.markAsDelivered order actualTimeMinutes now in
      (* Add feedback if provided *)
      if feedback && isFault fault FeedbackSaveFails
      then deliveryFailed (Some order) routeFound
      else
      (* Update route average time *)
      let routeUpdate : option (option RouteDoc.t) :=
        if hasRoute order && truthy actualTimeMinutes
        then
          if isFault fault RouteLookupFails then None
          else
            match routeFound with
            | Some route =>
                if isFault fault RouteSaveFails then None
                else
                  match actualTimeMinutes with
                  | Some minutes => Some (Some (RouteDoc.updateAverageTime route minutes))
                  | None => Some routeFound
                  end
            | None => Some routeFound
            end
        else Some routeFound in
      match routeUpdate with
      | None => deliveryFailed (Some order) routeFound
      | Some route =>
          if isFault fault PopulateFails then deliveryFailed (Some order) route
          else
            {| reply :=
                 {| replyCode := 200;
                    replyMessage := "Order marked as delivered successfully";
                    replyBonus :=
                      Some (Order.calculateDeliveryBonus (OrderDoc.fields order)) |};
               orderAfter := Some order;
               routeAfter := route |}
      end
  end.

(** ** Vocabulary of the further properties *)

(** The results [rs] are the simulations, in queue order, of some of the
    orders of the queue [os]: an order gives one result at most, and only if
    it has a route. *)
Inductive simulatedFrom (start : Q) : list Order.t -> list DeliveryResult.t -> Prop :=
| simulated_none : simulatedFrom start [] []
| simulated_dropped o os rs :
    simulatedFrom start os rs -> simulatedFrom start (o :: os) rs
| simulated_assigned o os r rs ds route :
    Order.assignedRoute o = Some route ->
    simulateDelivery ds o start = Some r ->
    simulatedFrom start os rs ->
    simulatedFrom start (o :: os) (r :: rs).

(** Number of deliveries assigned to the driver states. *)
Definition assignedCount (dss : list DriverState.t) : nat :=
  list_sum (map (fun ds => List.length (DriverState.assignedOrders ds)) dss).

(** Minutes of delivery assigned to the driver states. *)
Definition assignedMinutes (dss : list DriverState.t) : Q :=
  fold_right
    (fun ds acc => sumOf DeliveryResult.timeSpent (DriverState.assignedOrders ds) + acc)
    0 dss.

(** The deliveries [rs] of one driver follow one another from the time [t]
    on: each one ends [timeSpent] minutes after the end of the one before. *)
Fixpoint backToBack (t : Q) (rs : list DeliveryResult.t) : Prop :=
  match rs with
  | [] => True
  | r :: rest =>
      DeliveryResult.actualDeliveryTime r
      == t + DeliveryResult.timeSpent r * 60 * 1000 /\
      backToBack (DeliveryResult.actualDeliveryTime r) rest
  end.

(** The part of the driver score that does not depend on the order or the
    route: rating and current workload. *)
Definition baseScore (ds : DriverState.t) : Q :=
  Driver.rating (DriverState.driver ds) * 20 + (8 - DriverState.currentHours ds) * 5.

(** ** controllers/dashboardController.js *)

Module Dashboard.

Record KPI : Type := mkKPI {
  value : Q;
  trend : Q;
  label : string;
  format : string
}.

Record KPIs : Type := mkKPIs {
  totalProfit : KPI;
  efficiencyScore : KPI;
  onTimeDeliveries : KPI;
  lateDeliveries : KPI
}.

Record Summary : Type := mkSummary {
  totalOrders : nat;
  deliveredOrders : nat;
  onTimeRate : Q;
  totalFuelCost : Q
}.

(** The [data] of the response, without the echoed [timeRange]. *)
Record t : Type := mk {
  kpis : KPIs;
  summary : Summary
}.

End Dashboard.

Definition isDelivered (order : OrderDoc.t) : bool :=
  String.eqb (Order.status (OrderDoc.fields order)) "delivered".

Definition docIsLate (order : OrderDoc.t) : bool :=
  Order.isLate (OrderDoc.fields order).

(** The three amounts computed for a delivered order in the profit loops
    of [getDashboardKPIs]. *)
Definition orderRevenue (order : OrderDoc.t) : Q :=
  Order.valueRs (OrderDoc.fields order) * 0.1.

Definition orderFuelCost (order : OrderDoc.t) : Q :=
  match Order.assignedRoute (OrderDoc.fields order) with
  | Some route => Route.calculateFuelCost route
  | None => 0
  end.

Definition orderDriverCost (order : OrderDoc.t) : Q :=
  match OrderDoc.actualDeliveryTime order with
  | Some minutes => if Qeq_bool minutes 0 then 0 else (minutes / 60) * 150
  | None => 0
  end.

(** [getDashboardKPIs], from the results of its two queries on: [orders]
    are the orders of the period asked for, [prevOrders] those of the period
    before it. *)
Definition getDashboardKPIs (orders prevOrders : list OrderDoc.t) : Dashboard.t :=
  (* Calculate KPIs *)
  let totalOrders := List.length orders in
  let deliveredOrders := filter isDelivered orders in
  let lateOrders :=
    filter (fun order =>
              String.eqb (Order.status (OrderDoc.fields order)) "late" || docIsLate order)
      orders in
  let onTimeOrders := filter (fun order => negb (docIsLate order)) deliveredOrders in
  (* Calculate total profit (simplified) *)
  let totalProfit :=
    fold_left
      (fun totalProfit order =>
         totalProfit
         + (orderRevenue order - orderFuelCost order - orderDriverCost order
            + Order.calculateDeliveryBonus (OrderDoc.fields order)))
      deliveredOrders 0 in
  let totalFuelCost :=
    fold_left (fun totalFuelCost order => totalFuelCost + orderFuelCost order)
      deliveredOrders 0 in
  (* Calculate efficiency score *)
  let onTimeRate :=
    if Nat.ltb 0 totalOrders
    then (number_of_nat (List.length onTimeOrders) / number_of_nat totalOrders) * 100
    else 0 in
  let completionRate :=
    if Nat.ltb 0 totalOrders
    then (number_of_nat (List.length deliveredOrders) / number_of_nat totalOrders) * 100
    else 0 in
  let efficiencyScore := onTimeRate * 0.6 + completionRate * 0.4 in
  (* Previous period, for the trends *)
  let prevDeliveredOrders := filter isDelivered prevOrders in
  let prevTotalProfit :=
    fold_left
      (fun prevTotalProfit order =>
         prevTotalProfit
         + (orderRevenue order - orderFuelCost order - orderDriverCost order
            + Order.calculateDeliveryBonus (OrderDoc.fields order)))
      prevDeliveredOrders 0 in
  let profitTrend :=
    if JS.gtb prevTotalProfit 0
    then ((totalProfit - prevTotalProfit) / prevTotalProfit) * 100
    else 0 in
  let prevOnTimeRate :=
    if Nat.ltb 0 (List.length prevOrders)
    then (number_of_nat
            (List.length (filter (fun o => negb (docIsLate o)) prevOrders))
          / number_of_nat (List.length prevOrders)) * 100
    else 0 in
  let onTimeTrend :=
    if JS.gtb prevOnTimeRate 0
    then ((onTimeRate - prevOnTimeRate) / prevOnTimeRate) * 100
    else 0 in
  {| Dashboard.kpis :=
       {| Dashboard.totalProfit :=
            {| Dashboard.value := JS.Math_round totalProfit;
               Dashboard.trend := JS.Math_round (profitTrend * 100) / 100;
               Dashboard.label := "Total Profit";
               Dashboard.format := "currency" |};
          Dashboard.efficiencyScore :=
            {| Dashboard.value := JS.Math_round (efficiencyScore * 100) / 100;
               Dashboard.trend := JS.Math_round (onTimeTrend * 100) / 100;
               Dashboard.label := "Efficiency Score";
               Dashboard.format := "percentage" |};
          Dashboard.onTimeDeliveries :=
            {| Dashboard.value := number_of_nat (List.length onTimeOrders);
               Dashboard.trend :=
                 number_of_nat (List.length onTimeOrders)
                 - number_of_nat
                     (List.length (filter (fun o => negb (docIsLate o)) prevOrders));
               Dashboard.label := "On-time Deliveries";
               Dashboard.format := "number" |};
          Dashboard.lateDeliveries :=
            {| Dashboard.value := number_of_nat (List.length lateOrders);
               Dashboard.trend :=
                 number_of_nat (List.length lateOrders)
                 - number_of_nat (List.length (filter docIsLate prevOrders));
               Dashboard.label := "Late Deliveries";
               Dashboard.format := "number" |} |};
     Dashboard.summary :=
       {| Dashboard.totalOrders := totalOrders;
          Dashboard.deliveredOrders := List.length deliveredOrders;
          Dashboard.onTimeRate := JS.Math_round (onTimeRate * 100) / 100;
          Dashboard.totalFuelCost := JS.Math_round totalFuelCost |} |}.

(** * Properties *)

(** ** Comparisons and rounding *)

Lemma leb_true_iff (x y : Q) : JS.leb x y = true <-> x <= y.
Proof. unfold JS.leb. apply Qle_bool_iff. Qed.

Lemma leb_false_iff (x y : Q) : JS.leb x y = false <-> y < x.
Proof.
  unfold JS.leb. split; intro H.
  - apply Qnot_le_lt. intro Hle. apply Qle_bool_iff in Hle. congruence.
  - destruct (Qle_bool x y) eqn:E; [|reflexivity].
    apply Qle_bool_iff in E. exfalso. lra.
Qed.

Lemma gtb_true_iff (x y : Q) : JS.gtb x y = true <-> y < x.
Proof.
  unfold JS.gtb, JS.ltb. rewrite negb_true_iff. apply leb_false_iff.
Qed.

Lemma gtb_false_iff (x y : Q) : JS.gtb x y = false <-> x <= y.
Proof.
  unfold JS.gtb, JS.ltb. rewrite negb_false_iff. apply leb_true_iff.
Qed.

Lemma ltb_true_iff (x y : Q) : JS.ltb x y = true <-> x < y.
Proof. apply (gtb_true_iff y x). Qed.

Lemma Math_round_integer (z : Z) : JS.Math_round (inject_Z z) = inject_Z z.
Proof.
  unfold JS.Math_round. f_equal.
  assert (Hlo : (z <= Qfloor (inject_Z z + (1#2)))%Z).
  { rewrite <- (Qfloor_Z z) at 1. apply Qfloor_resp_le. lra. }
  assert (Hhi : (Qfloor (inject_Z z + (1#2)) < z + 1)%Z).
  { rewrite Zlt_Qlt. eapply Qle_lt_trans; [apply Qfloor_le|].
    rewrite inject_Z_plus. change (inject_Z 1) with 1. lra. }
  lia.
Qed.

Lemma Math_round_nonneg x : 0 <= x -> 0 <= JS.Math_round x.
Proof.
  intros Hx. unfold JS.Math_round.
  assert (H : (Qfloor 0 <= Qfloor (x + (1#2)))%Z) by (apply Qfloor_resp_le; lra).
  change (Qfloor 0) with 0%Z in H.
  change 0 with (inject_Z 0). now rewrite <- Zle_Qle.
Qed.

Lemma Math_round_comp x y : x == y -> JS.Math_round x = JS.Math_round y.
Proof.
  intros H. unfold JS.Math_round. f_equal. apply Qfloor_comp. now rewrite H.
Qed.

(** ** Arrays *)

Lemma Array_set_Forall {A : Type} (P : A -> Prop) (l : list A) (i : nat) (x : A) :
  Forall P l -> P x -> Forall P (Array_set l i x).
Proof.
  intros Hl Hx. revert i.
  induction Hl as [|y l Hy Hl IH]; intros i; simpl.
  - constructor.
  - destruct i; constructor; auto.
Qed.

Lemma Array_set_length {A : Type} (l : list A) (i : nat) (x : A) :
  List.length (Array_set l i x) = List.length l.
Proof.
  revert i. induction l as [|y l IH]; intros [|i]; simpl; auto.
Qed.

Lemma Array_set_nth_same {A : Type} (l : list A) (i : nat) (x y : A) :
  nth_error l i = Some y -> nth_error (Array_set l i x) i = Some x.
Proof.
  revert i. induction l as [|z l IH]; intros [|i]; simpl; intros H;
    try discriminate; auto.
Qed.

Lemma Array_set_nth_other {A : Type} (l : list A) (i j : nat) (x : A) :
  i <> j -> nth_error (Array_set l i x) j = nth_error l j.
Proof.
  revert i j. induction l as [|z l IH]; intros [|i] [|j] Hij; simpl; auto.
  congruence.
Qed.

Lemma Array_set_map {A B : Type} (f : A -> B) (l : list A) (i : nat) (x y : A) :
  nth_error l i = Some y -> f x = f y -> map f (Array_set l i x) = map f l.
Proof.
  revert i. induction l as [|z l IH]; intros [|i]; simpl; intros H Hf;
    try discriminate; auto.
  - injection H as ->. now rewrite Hf.
  - f_equal. eauto.
Qed.

(** ** [findOptimalDriver] *)

Lemma findOptimalDriver_from_no_route l index order maxHours best bestScore :
  Order.assignedRoute order = None ->
  findOptimalDriver_from l index order maxHours best bestScore = best.
Proof.
  intros Hr. revert index.
  induction l as [|d l IH]; intros index; simpl; [reflexivity|].
  rewrite Hr. apply IH.
Qed.

(** What the scan returns, for an order with a route: either nothing beats
    the incoming best score, or the first of the highest scorers within
    budget, whose score is above the incoming best score. *)
Lemma findOptimalDriver_from_spec l : forall index order route maxHours best bestScore,
  Order.assignedRoute order = Some route ->
  (findOptimalDriver_from l index order maxHours best bestScore = best /\
   forall j ds, nth_error l j = Some ds -> withinBudget ds route maxHours = true ->
                calculateDriverScore ds order route <= bestScore)
  \/
  (exists j ds,
     findOptimalDriver_from l index order maxHours best bestScore
       = Some ((index + j)%nat, ds) /\
     nth_error l j = Some ds /\
     withinBudget ds route maxHours = true /\
     bestScore < calculateDriverScore ds order route /\
     (forall j' ds', nth_error l j' = Some ds' ->
        withinBudget ds' route maxHours = true ->
        calculateDriverScore ds' order route <= calculateDriverScore ds order route) /\
     (forall j' ds', (j' < j)%nat -> nth_error l j' = Some ds' ->
        withinBudget ds' route maxHours = true ->
        calculateDriverScore ds' order route < calculateDriverScore ds order route)).
Proof.
  induction l as [|d l IH]; intros index order route maxHours best bestScore Hr.
  - left. split; [reflexivity|]. intros [|j] ds H; discriminate.
  - simpl. rewrite Hr.
    destruct (JS.gtb (DriverState.currentHours d + _) maxHours) eqn:Hbudget.
    + (* over budget: skipped *)
      assert (Hd : withinBudget d route maxHours = false)
        by (unfold withinBudget; now rewrite Hbudget).
      destruct (IH (S index) order route maxHours best bestScore Hr)
        as [[Heq Hall]|(j & ds & Heq & Hnth & Hb & Hs & Hmax & Hfirst)].
      * left. split; [exact Heq|].
        intros [|j] ds Hnth Hb; simpl in Hnth.
        -- injection Hnth as <-. congruence.
        -- eauto.
      * right. exists (S j), ds. rewrite Heq.
        replace (index + S j)%nat with (S index + j)%nat by lia.
        repeat split; auto.
        -- intros [|j'] ds' Hnth' Hb'; simpl in Hnth'.
           ++ injection Hnth' as <-. congruence.
           ++ eauto.
        -- intros [|j'] ds' Hlt Hnth' Hb'; simpl in Hnth'.
           ++ injection Hnth' as <-. congruence.
           ++ apply (Hfirst j'); auto. lia.
    + assert (Hd : withinBudget d route maxHours = true)
        by (unfold withinBudget; now rewrite Hbudget).
      destruct (JS.gtb (calculateDriverScore d order route) bestScore) eqn:Hscore.
      * (* new best *)
        apply gtb_true_iff in Hscore.
        destruct (IH (S index) order route maxHours (Some (index, d))
                    (calculateDriverScore d order route) Hr)
          as [[Heq Hall]|(j & ds & Heq & Hnth & Hb & Hs & Hmax & Hfirst)].
        -- right. exists 0%nat, d. rewrite Heq, Nat.add_0_r.
           repeat split; auto.
           ++ intros [|j'] ds' Hnth' Hb'; simpl in Hnth'.
              ** injection Hnth' as <-. lra.
              ** eauto.
           ++ intros j' ds' Hlt. lia.
        -- right. exists (S j), ds. rewrite Heq.
           replace (index + S j)%nat with (S index + j)%nat by lia.
           repeat split; auto.
           ++ lra.
           ++ intros [|j'] ds' Hnth' Hb'; simpl in Hnth'.
              ** injection Hnth' as <-. lra.
              ** eauto.
           ++ intros [|j'] ds' Hlt Hnth' Hb'; simpl in Hnth'.
              ** injection Hnth' as <-. lra.
              ** apply (Hfirst j'); auto. lia.
      * (* not better than the best so far *)
        apply gtb_false_iff in Hscore.
        destruct (IH (S index) order route maxHours best bestScore Hr)
          as [[Heq Hall]|(j & ds & Heq & Hnth & Hb & Hs & Hmax & Hfirst)].
        -- left. split; [exact Heq|].
           intros [|j] ds Hnth Hb; simpl in Hnth.
           ++ injection Hnth as <-. exact Hscore.
           ++ eauto.
        -- right. exists (S j), ds. rewrite Heq.
           replace (index + S j)%nat with (S index + j)%nat by lia.
           repeat split; auto.
           ++ intros [|j'] ds' Hnth' Hb'; simpl in Hnth'.
              ** injection Hnth' as <-. lra.
              ** eauto.
           ++ intros [|j'] ds' Hlt Hnth' Hb'; simpl in Hnth'.
              ** injection Hnth' as <-. lra.
              ** apply (Hfirst j'); auto. lia.
Qed.

(** A driver state returned by [findOptimalDriver] sits at the returned
    position, belongs to an order with a route, and is within budget. *)
Lemma findOptimalDriver_Some l order maxHours i ds :
  findOptimalDriver l order maxHours = Some (i, ds) ->
  nth_error l i = Some ds /\
  exists route, Order.assignedRoute order = Some route /\
                withinBudget ds route maxHours = true /\
                -1 < calculateDriverScore ds order route.
Proof.
  unfold findOptimalDriver. intros H.
  destruct (Order.assignedRoute order) as [route|] eqn:Hr.
  - destruct (findOptimalDriver_from_spec l 0 order route maxHours None (-1) Hr)
      as [[Heq _]|(j & ds' & Heq & Hnth & Hb & Hs & _)].
    + congruence.
    + rewrite Heq in H. injection H as <- <-. simpl. eauto.
  - rewrite findOptimalDriver_from_no_route in H by assumption. discriminate.
Qed.

Lemma withinBudget_true_iff ds route maxHours :
  withinBudget ds route maxHours = true <->
  DriverState.currentHours ds
  + Route.getEstimatedTime route
      (Driver.getFatigueFactor (DriverState.driver ds)) / 60 <= maxHours.
Proof.
  unfold withinBudget. rewrite negb_true_iff. apply gtb_false_iff.
Qed.

(** ** One iteration of the assignment loop *)

Lemma simulateDelivery_route ds order start route :
  Order.assignedRoute order = Some route ->
  exists r, simulateDelivery ds order start = Some r /\
            DeliveryResult.timeSpent r
            = Route.getEstimatedTime route
                (Driver.getFatigueFactor (DriverState.driver ds)).
Proof.
  intros Hr. unfold simulateDelivery. rewrite Hr. eexists. split; reflexivity.
Qed.

Lemma simulateDelivery_amounts ds order start r :
  simulateDelivery ds order start = Some r ->
  DeliveryResult.deliveryBonus r = JS.Math_round (Order.calculateDeliveryBonus order) /\
  DeliveryResult.profit r = JS.Math_round (exactProfit (DriverState.driver ds) order) /\
  DeliveryResult.fuelCost r = JS.Math_round (exactFuelCost order).
Proof.
  unfold simulateDelivery, exactProfit, exactFuelCost, exactDriverEarnings.
  destruct (Order.assignedRoute order) as [route|]; [|discriminate].
  intros H. injection H as <-. simpl. repeat split.
Qed.

Lemma assignOrder_iteration maxHours start st order :
  exists st', assignOrder maxHours start st order = Some st' /\
              iteration maxHours start st order st'.
Proof.
  unfold assignOrder.
  destruct (findOptimalDriver (driverStates st) order maxHours) as [[i ds]|] eqn:Hfind.
  - destruct (findOptimalDriver_Some _ _ _ _ _ Hfind)
      as (Hnth & route & Hr & Hb & _).
    destruct (simulateDelivery_route ds order start route Hr) as (r & Hsim & Ht).
    rewrite Hsim. eexists. split; [reflexivity|].
    eapply iteration_assigned; eauto.
  - exists st. split; [reflexivity|]. now constructor.
Qed.

(** The assignment loop always runs to its end, and every property that
    holds initially and is kept by each iteration holds of its outcome. *)
Lemma assignOrders_invariant maxHours start (P : LoopState -> Prop) :
  (forall st order st', P st -> iteration maxHours start st order st' -> P st') ->
  forall orders st, P st ->
  exists st', assignOrders maxHours start orders st = Some st' /\ P st'.
Proof.
  intros Hstep. induction orders as [|order orders IH]; intros st HP; simpl.
  - eauto.
  - destruct (assignOrder_iteration maxHours start st order) as (st1 & -> & Hit).
    apply IH. eauto.
Qed.

(** ** The hour budget *)

Lemma hoursOf_app l r :
  hoursOf (l ++ [r]) == hoursOf l + DeliveryResult.timeSpent r / 60.
Proof.
  induction l as [|x l IH]; simpl.
  - lra.
  - rewrite IH. lra.
Qed.

Lemma Forall_nth_error {A : Type} (P : A -> Prop) (l : list A) (i : nat) (x : A) :
  Forall P l -> nth_error l i = Some x -> P x.
Proof.
  intros Hl Hnth. rewrite Forall_forall in Hl. apply Hl.
  eapply nth_error_In; eauto.
Qed.

Lemma initial_hours start maxHours drivers :
  Forall (fun ds => hoursAccounted ds /\ withinMaxHours maxHours ds)
    (driverStates (initialLoopState start drivers)).
Proof.
  simpl. apply Forall_forall. intros ds Hin.
  apply in_map_iff in Hin. destruct Hin as (d & <- & _).
  split.
  - unfold hoursAccounted. simpl. lra.
  - intros Hne. now contradiction Hne.
Qed.

Lemma iteration_hours maxHours start st order st' :
  Forall (fun ds => hoursAccounted ds /\ withinMaxHours maxHours ds) (driverStates st) ->
  iteration maxHours start st order st' ->
  Forall (fun ds => hoursAccounted ds /\ withinMaxHours maxHours ds) (driverStates st').
Proof.
  intros Hinv Hit.
  destruct Hit as [Hnone | i ds route r Hfind Hnth Hr Hb Hsim Ht]; [exact Hinv|].
  simpl. apply Array_set_Forall; [exact Hinv|].
  destruct (Forall_nth_error _ _ _ _ Hinv Hnth) as [Hacc _].
  apply withinBudget_true_iff in Hb.
  split.
  - unfold hoursAccounted in *. simpl. rewrite hoursOf_app, Hacc. lra.
  - intros _. simpl. rewrite Ht. exact Hb.
Qed.

(** C1. After any number [k] of processed orders of the sorted queue (so
    after every assignment), the loop has not failed and every driver state
    has [currentHours] equal to the driver's [currentShiftHours] plus
    [timeSpent/60] of each order assigned to it, and every driver state with
    an assignment has [currentHours <= maxHoursPerDriver].  Moreover a
    driver state that [findOptimalDriver] returns for a further order is one
    for which [currentHours] plus the estimated delivery time stays within
    [maxHoursPerDriver]: the others are skipped. *)
Theorem C1_assigned_hours_within_max :
  forall drivers orders maxHoursPerDriver startTime now k,
  exists st,
    assignOrders maxHoursPerDriver (simulationStart startTime now)
      (firstn k (Array_sort compareOrders orders))
      (initialLoopState (simulationStart startTime now) drivers) = Some st /\
    Forall (fun ds => hoursAccounted ds /\ withinMaxHours maxHoursPerDriver ds)
      (driverStates st) /\
    (forall order i ds,
       findOptimalDriver (driverStates st) order maxHoursPerDriver = Some (i, ds) ->
       nth_error (driverStates st) i = Some ds /\
       exists route,
         Order.assignedRoute order = Some route /\
         DriverState.currentHours ds
         + Route.getEstimatedTime route
             (Driver.getFatigueFactor (DriverState.driver ds)) / 60
         <= maxHoursPerDriver).
Proof.
  intros drivers orders maxHours startTime now k.
  destruct (assignOrders_invariant maxHours (simulationStart startTime now)
              (fun st => Forall (fun ds => hoursAccounted ds /\ withinMaxHours maxHours ds)
                           (driverStates st))
              (iteration_hours maxHours (simulationStart startTime now))
              (firstn k (Array_sort compareOrders orders))
              (initialLoopState (simulationStart startTime now) drivers)
              (initial_hours _ _ _))
    as (st & Hrun & Hinv).
  exists st. split; [exact Hrun|]. split; [exact Hinv|].
  intros order i ds Hfind.
  destruct (findOptimalDriver_Some _ _ _ _ _ Hfind) as (Hnth & route & Hr & Hb & _).
  split; [exact Hnth|]. exists route. split; [exact Hr|].
  now apply withinBudget_true_iff.
Qed.

Lemma C1_assigned_hours_within_max_witness :
  exists st,
    assignOrders 8 (simulationStart None 0)
      (firstn 1 (Array_sort compareOrders [sampleOrder]))
      (initialLoopState (simulationStart None 0) [sampleDriver]) = Some st /\
    Forall (fun ds => hoursAccounted ds /\ withinMaxHours 8 ds) (driverStates st) /\
    (forall order i ds,
       findOptimalDriver (driverStates st) order 8 = Some (i, ds) ->
       nth_error (driverStates st) i = Some ds /\
       exists route,
         Order.assignedRoute order = Some route /\
         DriverState.currentHours ds
         + Route.getEstimatedTime route
             (Driver.getFatigueFactor (DriverState.driver ds)) / 60
         <= 8).
Proof.
  exact (C1_assigned_hours_within_max [sampleDriver] [sampleOrder] 8 None 0 1%nat).
Defined.

(** ** The whole assignment loop *)

Lemma simulationLoop_invariant drivers orders maxHours startTime now
  (P : LoopState -> Prop) :
  P (initialLoopState (simulationStart startTime now) drivers) ->
  (forall st order st',
     P st -> iteration maxHours (simulationStart startTime now) st order st' -> P st') ->
  exists st, simulationLoop drivers orders maxHours startTime now = Some st /\ P st.
Proof.
  intros Hinit Hstep. unfold simulationLoop.
  apply assignOrders_invariant; assumption.
Qed.

(** [performDeliverySimulation] never throws. *)
Lemma performDeliverySimulation_total drivers orders maxHours startTime now :
  exists st,
    simulationLoop drivers orders maxHours startTime now = Some st /\
    performDeliverySimulation drivers orders maxHours startTime now
    = Some (finalizeResults orders maxHours st).
Proof.
  destruct (simulationLoop_invariant drivers orders maxHours startTime now
              (fun _ => True) I (fun _ _ _ _ _ => I)) as (st & Hst & _).
  exists st. split; [exact Hst|].
  unfold performDeliverySimulation. now rewrite Hst.
Qed.

(** ** The driver records *)

Lemma iteration_drivers maxHours start st order st' :
  iteration maxHours start st order st' ->
  map DriverState.driver (driverStates st') = map DriverState.driver (driverStates st).
Proof.
  intros [Hnone | i ds route r Hfind Hnth Hr Hb Hsim Ht]; [reflexivity|].
  simpl. eapply Array_set_map; eauto.
Qed.

Lemma initial_drivers start drivers :
  map DriverState.driver (driverStates (initialLoopState start drivers)) = drivers.
Proof.
  simpl. rewrite map_map. simpl. apply map_id.
Qed.

Lemma simulationLoop_drivers drivers orders maxHours startTime now :
  exists st,
    simulationLoop drivers orders maxHours startTime now = Some st /\
    map DriverState.driver (driverStates st) = drivers.
Proof.
  apply simulationLoop_invariant.
  - apply initial_drivers.
  - intros st order st' Hst Hit. rewrite (iteration_drivers _ _ _ _ _ Hit). exact Hst.
Qed.

(** An iteration writes to one driver state at most, and never to its
    [driver] field. *)
Lemma iteration_frame maxHours start st order st' :
  iteration maxHours start st order st' ->
  st' = st \/
  exists i ds r,
    nth_error (driverStates st) i = Some ds /\
    nth_error (driverStates st') i = Some (assignDelivery ds r) /\
    DriverState.driver (assignDelivery ds r) = DriverState.driver ds /\
    (forall j, j <> i -> nth_error (driverStates st') j = nth_error (driverStates st) j).
Proof.
  intros [Hnone | i ds route r Hfind Hnth Hr Hb Hsim Ht]; [now left|].
  right. exists i, ds, r. simpl. repeat split.
  - exact Hnth.
  - eapply Array_set_nth_same; eauto.
  - intros j Hj. apply Array_set_nth_other. congruence.
Qed.

(** ** The run over the store *)

Lemma nth_error_app_plus {A : Type} (l1 l2 : list A) (i : nat) :
  nth_error (l1 ++ l2) (List.length l1 + i) = nth_error l2 i.
Proof.
  induction l1 as [|x l1 IH]; simpl; auto.
Qed.

Lemma nth_error_app_below {A : Type} (l1 l2 : list A) (i : nat) (x : A) :
  nth_error l1 i = Some x -> nth_error (l1 ++ l2) i = Some x.
Proof.
  revert i. induction l1 as [|y l1 IH]; intros [|i] H; simpl in *;
    try discriminate; auto.
Qed.

Lemma nth_error_seq_Some (start len i ref : nat) :
  nth_error (seq start len) i = Some ref -> ref = (start + i)%nat.
Proof.
  revert start i. induction len as [|len IH]; intros start [|i] H; simpl in H;
    try discriminate.
  - injection H as <-. lia.
  - apply IH in H. lia.
Qed.

Lemma nth_error_seq_below (start len i : nat) :
  (i < len)%nat -> nth_error (seq start len) i = Some (start + i)%nat.
Proof.
  revert start i. induction len as [|len IH]; intros start [|i] H; simpl;
    try lia.
  - f_equal. lia.
  - rewrite IH by lia. f_equal. lia.
Qed.

Lemma Array_set_app_plus {A : Type} (l1 l2 : list A) (i : nat) (x : A) :
  Array_set (l1 ++ l2) (List.length l1 + i) x = l1 ++ Array_set l2 i x.
Proof.
  induction l1 as [|y l1 IH]; simpl; [reflexivity|]. now rewrite IH.
Qed.

Lemma Array_set_map_image {A B : Type} (f : A -> B) (l : list A) (i : nat) (x : A) :
  Array_set (map f l) i (f x) = map f (Array_set l i x).
Proof.
  revert i. induction l as [|y l IH]; intros [|i]; simpl; try reflexivity.
  now rewrite IH.
Qed.

Lemma Forall2_Array_set {A B : Type} (R : A -> B -> Prop) l1 l2 i x y :
  Forall2 R l1 l2 -> R x y -> Forall2 R (Array_set l1 i x) (Array_set l2 i y).
Proof.
  intros H Hxy. revert i.
  induction H as [|a b l1 l2 Hab H IH]; intros [|i]; simpl; constructor; auto.
Qed.

Lemma Forall2_nth_error_r {A B : Type} (R : A -> B -> Prop) l1 l2 i y :
  Forall2 R l1 l2 -> nth_error l2 i = Some y ->
  exists x, nth_error l1 i = Some x /\ R x y.
Proof.
  intros H. revert i.
  induction H as [|a b l1 l2 Hab H IH]; intros [|i] Hi; simpl in *;
    try discriminate.
  - injection Hi as <-. eauto.
  - eauto.
Qed.

Lemma document_app h ext ref d :
  Store.document h ref = Some d -> Store.document (h ++ ext) ref = Some d.
Proof.
  unfold Store.document. intros H.
  destruct (nth_error h ref) as [obj|] eqn:Hnth; [|discriminate].
  now rewrite (nth_error_app_below _ ext _ _ Hnth).
Qed.

Lemma view_app h ext s ds :
  Store.view h s = Some ds -> Store.view (h ++ ext) s = Some ds.
Proof.
  unfold Store.view. intros H.
  destruct (Store.document h (Store.driver s)) as [d|] eqn:Hd; [|discriminate].
  now rewrite (document_app _ ext _ _ Hd).
Qed.

Lemma readAll_cells h0 cells dss :
  Forall2 (fun s ds => Store.view h0 s = Some ds) cells dss ->
  forall pre,
    Store.readAll (h0 ++ map Store.DriverStateObject (pre ++ cells))
      (seq (List.length h0 + List.length pre) (List.length cells))
    = Some dss.
Proof.
  induction 1 as [|s ds cells dss Hs H IH]; intros pre; [reflexivity|].
  simpl seq. simpl Store.readAll.
  assert (Hread : Store.read (h0 ++ map Store.DriverStateObject (pre ++ s :: cells))
                    (List.length h0 + List.length pre) = Some ds).
  { unfold Store.read. rewrite nth_error_app_plus, map_app.
    rewrite <- (length_map Store.DriverStateObject pre) at 1.
    rewrite <- (Nat.add_0_r (List.length (map Store.DriverStateObject pre))).
    rewrite nth_error_app_plus. simpl. now apply view_app. }
  rewrite Hread.
  specialize (IH (pre ++ [s])).
  rewrite <- app_assoc in IH. simpl in IH.
  rewrite length_app in IH. simpl in IH.
  replace (List.length h0 + (List.length pre + 1))%nat
    with (S (List.length h0 + List.length pre)) in IH by lia.
  now rewrite IH.
Qed.

Lemma represents_readAll h0 h refs dss :
  Store.represents h0 h refs dss -> Store.readAll h refs = Some dss.
Proof.
  intros (cells & -> & -> & Hcells).
  pose proof (readAll_cells h0 cells dss Hcells []) as H.
  simpl in H. now rewrite Nat.add_0_r in H.
Qed.

(** All objects that were in the store before the driver states were
    created are still there, unchanged. *)
Lemma represents_frame h0 h refs dss :
  Store.represents h0 h refs dss ->
  forall a obj, nth_error h0 a = Some obj -> nth_error h a = Some obj.
Proof.
  intros (cells & -> & _ & _) a obj H. now apply nth_error_app_below.
Qed.

Lemma represents_write h0 h refs dss i ref ds ds' :
  Store.represents h0 h refs dss ->
  nth_error refs i = Some ref ->
  nth_error dss i = Some ds ->
  DriverState.driver ds' = DriverState.driver ds ->
  Store.represents h0 (Store.write h ref ds') refs (Array_set dss i ds').
Proof.
  intros (cells & -> & -> & Hcells) Href Hds Hdrv.
  apply nth_error_seq_Some in Href. subst ref.
  destruct (Forall2_nth_error_r _ _ _ _ _ Hcells Hds) as (s & Hs & Hview).
  unfold Store.write. rewrite nth_error_app_plus.
  rewrite (map_nth_error Store.DriverStateObject _ _ Hs).
  rewrite Array_set_app_plus, Array_set_map_image.
  eexists. split; [reflexivity|]. split.
  - now rewrite Array_set_length.
  - apply Forall2_Array_set; [exact Hcells|].
    unfold Store.view in *. simpl.
    destruct (Store.document h0 (Store.driver s)) as [d|]; [|discriminate].
    injection Hview as <-. simpl in Hdrv. rewrite <- Hdrv.
    now destruct ds'.
Qed.

Lemma createDriverStates_cells h0 start : forall drivers ds pre,
  Store.documents h0 drivers = Some ds ->
  exists cells,
    Store.createDriverStates (h0 ++ map Store.DriverStateObject pre) drivers start
    = Some (h0 ++ map Store.DriverStateObject (pre ++ cells),
            seq (List.length h0 + List.length pre) (List.length cells)) /\
    Forall2 (fun s d => Store.view h0 s = Some (DriverState.init start d)) cells ds.
Proof.
  induction drivers as [|ref drivers IH]; intros ds pre Hdocs; simpl in Hdocs.
  - injection Hdocs as <-. exists []. simpl. rewrite app_nil_r. split; constructor.
  - destruct (Store.document h0 ref) as [d|] eqn:Hd; [|discriminate].
    destruct (Store.documents h0 drivers) as [ds'|] eqn:Hds; [|discriminate].
    injection Hdocs as <-.
    simpl. rewrite (document_app _ _ _ _ Hd).
    set (s := {| Store.driver := ref;
                 Store.currentHours := Driver.currentShiftHours d;
                 Store.assignedOrders := [];
                 Store.totalEarnings := JS.Num 0;
                 Store.totalDistance := 0;
                 Store.currentTime := start |}).
    destruct (IH ds' (pre ++ [s]) eq_refl) as (cells & Hcreate & Hcells).
    rewrite map_app, app_assoc in Hcreate. simpl in Hcreate.
    rewrite Hcreate.
    exists (s :: cells). split.
    + rewrite <- app_assoc. simpl. f_equal. f_equal.
      rewrite !length_app, length_map. simpl.
      replace (List.length h0 + (List.length pre + 1))%nat
        with (S (List.length h0 + List.length pre)) by lia.
      reflexivity.
    + constructor; [|exact Hcells].
      unfold Store.view. simpl. now rewrite Hd.
Qed.

Lemma createDriverStates_represents h0 start drivers ds :
  Store.documents h0 drivers = Some ds ->
  exists h refs,
    Store.createDriverStates h0 drivers start = Some (h, refs) /\
    Store.represents h0 h refs (driverStates (initialLoopState start ds)).
Proof.
  intros Hdocs.
  destruct (createDriverStates_cells h0 start drivers ds [] Hdocs)
    as (cells & Hcreate & Hcells).
  simpl in Hcreate. rewrite app_nil_r, Nat.add_0_r in Hcreate.
  eexists. eexists. split; [exact Hcreate|].
  exists cells. split; [reflexivity|]. split; [reflexivity|].
  simpl. clear Hcreate Hdocs. induction Hcells; simpl; constructor; auto.
Qed.

Lemma represents_length h0 h refs dss :
  Store.represents h0 h refs dss -> List.length refs = List.length dss.
Proof.
  intros (cells & _ & -> & Hcells). rewrite length_seq.
  induction Hcells; simpl; auto.
Qed.

(** An iteration on the store does what the iteration on values does. *)
Lemma store_assignOrder_refines maxHours start h0 h refs st order :
  Store.represents h0 h refs (driverStates st) ->
  exists h' st',
    Store.assignOrder maxHours start refs (h, results st) order
    = Some (h', results st') /\
    assignOrder maxHours start st order = Some st' /\
    Store.represents h0 h' refs (driverStates st').
Proof.
  intros Hrep. unfold Store.assignOrder, assignOrder.
  rewrite (represents_readAll _ _ _ _ Hrep).
  destruct (findOptimalDriver (driverStates st) order maxHours) as [[i ds]|] eqn:Hfind.
  - destruct (findOptimalDriver_Some _ _ _ _ _ Hfind) as (Hnth & route & Hr & _).
    destruct (simulateDelivery_route ds order start route Hr) as (r & Hsim & _).
    rewrite Hsim.
    assert (Hi : (i < List.length refs)%nat).
    { rewrite (represents_length _ _ _ _ Hrep). apply nth_error_Some. congruence. }
    destruct (nth_error refs i) as [ref|] eqn:Href;
      [|apply nth_error_None in Href; lia].
    eexists.
    exists {| driverStates := Array_set (driverStates st) i (assignDelivery ds r);
              results := recordDelivery (results st) r |}.
    split; [reflexivity|]. split; [reflexivity|].
    simpl. eapply represents_write; eauto.
  - exists h, st. destruct st. auto.
Qed.

Lemma store_assignOrders_refines maxHours start h0 refs orders : forall h st,
  Store.represents h0 h refs (driverStates st) ->
  exists h' st',
    Store.assignOrders maxHours start refs orders (h, results st)
    = Some (h', results st') /\
    assignOrders maxHours start orders st = Some st' /\
    Store.represents h0 h' refs (driverStates st').
Proof.
  induction orders as [|order orders IH]; intros h st Hrep;
    cbn [Store.assignOrders assignOrders].
  - exists h, st. auto.
  - destruct (store_assignOrder_refines maxHours start h0 h refs st order Hrep)
      as (h1 & st1 & -> & -> & Hrep1).
    apply IH. exact Hrep1.
Qed.

(** The run on the store and the run on values agree, and the run on the
    store leaves the objects it was given as they were. *)
Lemma store_simulationLoop_refines h drivers ds orders maxHours startTime now :
  Store.documents h drivers = Some ds ->
  exists h' refs st,
    Store.simulationLoop h drivers orders maxHours startTime now
    = Some (h', refs, results st) /\
    simulationLoop ds orders maxHours startTime now = Some st /\
    Store.represents h h' refs (driverStates st).
Proof.
  intros Hdocs. unfold Store.simulationLoop, simulationLoop.
  destruct (createDriverStates_represents h (simulationStart startTime now)
              drivers ds Hdocs) as (h1 & refs & -> & Hrep).
  destruct (store_assignOrders_refines maxHours (simulationStart startTime now)
              h refs (Array_sort compareOrders orders) h1
              (initialLoopState (simulationStart startTime now) ds) Hrep)
    as (h2 & st & Hstore & Hval & Hrep2).
  simpl in Hstore. rewrite Hstore.
  exists h2, refs, st. auto.
Qed.

Lemma documents_frame h h' drivers ds :
  (forall a obj, nth_error h a = Some obj -> nth_error h' a = Some obj) ->
  Store.documents h drivers = Some ds ->
  Store.documents h' drivers = Some ds.
Proof.
  intros Hframe. revert ds.
  induction drivers as [|ref drivers IH]; intros ds H; simpl in *; [exact H|].
  unfold Store.document in *.
  destruct (nth_error h ref) as [[d|s]|] eqn:Hnth; try discriminate.
  rewrite (Hframe _ _ Hnth).
  destruct (Store.documents h drivers) as [ds'|]; [|discriminate].
  now rewrite (IH ds' eq_refl).
Qed.

(** C9. Let the store hold a driver document behind every reference of
    the [drivers] array.  The run then reaches the end of its loop, and
    every object that was in the store before the run, every driver
    document in particular, is at its address with the same fields
    ([currentShiftHours] included): the documents read through [drivers]
    after the run are those read before it.  The objects the run writes to
    are the driver states it created itself, from which the values of the
    run on values are read back; the driver record seen through each of
    them is the input record. *)
Theorem C9_input_drivers_unchanged :
  forall h drivers orders maxHoursPerDriver startTime now ds,
    Store.documents h drivers = Some ds ->
    exists h' refs st,
      Store.simulationLoop h drivers orders maxHoursPerDriver startTime now
      = Some (h', refs, results st) /\
      simulationLoop ds orders maxHoursPerDriver startTime now = Some st /\
      (forall a obj, nth_error h a = Some obj -> nth_error h' a = Some obj) /\
      Store.documents h' drivers = Some ds /\
      Store.readAll h' refs = Some (driverStates st) /\
      map DriverState.driver (driverStates st) = ds /\
      map (fun s => Driver.currentShiftHours (DriverState.driver s)) (driverStates st)
      = map Driver.currentShiftHours ds.
Proof.
  intros h drivers orders maxHours startTime now ds Hdocs.
  destruct (store_simulationLoop_refines h drivers ds orders maxHours startTime now
              Hdocs) as (h' & refs & st & Hstore & Hval & Hrep).
  destruct (simulationLoop_drivers ds orders maxHours startTime now)
    as (st0 & Hval0 & Hd).
  rewrite Hval in Hval0. injection Hval0 as <-.
  exists h', refs, st.
  split; [exact Hstore|]. split; [exact Hval|].
  split; [exact (represents_frame _ _ _ _ Hrep)|].
  split; [exact (documents_frame _ _ _ _ (represents_frame _ _ _ _ Hrep) Hdocs)|].
  split; [exact (represents_readAll _ _ _ _ Hrep)|].
  split; [exact Hd|].
  rewrite <- Hd. now rewrite map_map.
Qed.

Lemma C9_input_drivers_unchanged_witness :
  exists h' refs st,
    Store.simulationLoop [Store.DriverDocument freshDriver] [0%nat]
      [hourOrder "ORD101"; hourOrder "ORD102"] 8 None 0
    = Some (h', refs, results st) /\
    nth_error h' 0 = Some (Store.DriverDocument freshDriver) /\
    Store.documents h' [0%nat] = Some [freshDriver].
Proof.
  destruct (C9_input_drivers_unchanged [Store.DriverDocument freshDriver] [0%nat]
              [hourOrder "ORD101"; hourOrder "ORD102"] 8 None 0 [freshDriver] eq_refl)
    as (h' & refs & st & Hstore & _ & Hframe & Hdocs & _).
  exists h', refs, st.
  split; [exact Hstore|]. split; [|exact Hdocs].
  apply Hframe. reflexivity.
Defined.

(** ** Fatigue *)

(** C2, refuted.  A driver 3.5 hours into the shift is given two one-hour
    orders.  After the first the driver state has 4.5 cumulative hours, for
    which the step function gives 1.1; the second delivery is nevertheless
    simulated with fatigue 1.0 and takes 60 minutes, not 66: in the run of
    both orders the two deliveries have the same fatigue factor. *)
Lemma C2_counterexample :
  exists st ds r,
    simulationLoop [freshDriver] [hourOrder "ORD101"] 8 None 0 = Some st /\
    driverStates st = [ds] /\
    DriverState.currentHours ds == 4.5 /\
    simulateDelivery ds (hourOrder "ORD102") 0 = Some r /\
    DeliveryResult.fatigueFactor r == 1.0 /\
    DeliveryResult.timeSpent r == 60 /\
    spec_fatigueFactor (DriverState.currentHours ds) == 1.1 /\
    ~ DeliveryResult.fatigueFactor r
      == round2 (spec_fatigueFactor (DriverState.currentHours ds)) /\
    exists res r1 r2,
      performDeliverySimulation [freshDriver] [hourOrder "ORD101"; hourOrder "ORD102"]
        8 None 0 = Some res /\
      Results.orderResults res = [r1; r2] /\
      r2 = r /\
      DeliveryResult.fatigueFactor r1 == 1.0 /\
      DeliveryResult.fatigueFactor r2 == 1.0.
Proof.
  eexists. eexists. eexists.
  split; [vm_compute; reflexivity|].
  split; [reflexivity|].
  split; [vm_compute; reflexivity|].
  split; [vm_compute; reflexivity|].
  split; [vm_compute; reflexivity|].
  split; [vm_compute; reflexivity|].
  split; [vm_compute; reflexivity|].
  split; [vm_compute; discriminate|].
  eexists. eexists. eexists.
  split; [vm_compute; reflexivity|].
  split; [reflexivity|].
  split; [reflexivity|].
  split; vm_compute; reflexivity.
Qed.

Lemma simulateDelivery_fatigue ds order start r :
  simulateDelivery ds order start = Some r ->
  exists route,
    Order.assignedRoute order = Some route /\
    DeliveryResult.timeSpent r
    = JS.Math_round (Route.baseTime route * Route.getTrafficMultiplier route
                     * Driver.getFatigueFactor (DriverState.driver ds)) /\
    DeliveryResult.fatigueFactor r
    = round2 (Driver.getFatigueFactor (DriverState.driver ds)).
Proof.
  unfold simulateDelivery. intros H.
  destruct (Order.assignedRoute order) as [route|]; [|discriminate].
  injection H as <-. exists route. repeat split.
Qed.

Lemma iteration_fatigue maxHours start st order st' :
  Forall (fun ds =>
            Forall (fun r => DeliveryResult.fatigueFactor r
                             = round2 (Driver.getFatigueFactor (DriverState.driver ds)))
              (DriverState.assignedOrders ds)) (driverStates st) ->
  iteration maxHours start st order st' ->
  Forall (fun ds =>
            Forall (fun r => DeliveryResult.fatigueFactor r
                             = round2 (Driver.getFatigueFactor (DriverState.driver ds)))
              (DriverState.assignedOrders ds)) (driverStates st').
Proof.
  intros Hinv [Hnone | i ds route r Hfind Hnth Hr Hb Hsim Ht]; [exact Hinv|].
  simpl. apply Array_set_Forall; [exact Hinv|].
  simpl. apply Forall_app. split.
  - exact (Forall_nth_error _ _ _ _ Hinv Hnth).
  - constructor; [|constructor].
    destruct (simulateDelivery_fatigue _ _ _ _ Hsim) as (route' & _ & _ & Hf).
    exact Hf.
Qed.

(** C2, as the code has it.  The fatigue factor of a simulated delivery is
    [driver.getFatigueFactor()], a function of the [currentShiftHours] of
    the driver record and not of the cumulative [currentHours] of the driver
    state: two driver states for the same driver record get the same
    delivery time whatever their [currentHours].  In a run, every delivery
    assigned to a driver carries the fatigue factor of the input driver
    record, so it is the same for all of that driver's deliveries. *)
Theorem C2_fatigue_from_driver_record :
  (forall ds order start r,
     simulateDelivery ds order start = Some r ->
     exists route,
       Order.assignedRoute order = Some route /\
       DeliveryResult.timeSpent r
       = JS.Math_round (Route.baseTime route * Route.getTrafficMultiplier route
                        * Driver.getFatigueFactor (DriverState.driver ds)) /\
       DeliveryResult.fatigueFactor r
       = round2 (Driver.getFatigueFactor (DriverState.driver ds))) /\
  (forall drivers orders maxHoursPerDriver startTime now,
   exists st,
     simulationLoop drivers orders maxHoursPerDriver startTime now = Some st /\
     map DriverState.driver (driverStates st) = drivers /\
     Forall (fun ds =>
               Forall (fun r =>
                         DeliveryResult.fatigueFactor r
                         = round2 (Driver.getFatigueFactor (DriverState.driver ds)))
                 (DriverState.assignedOrders ds))
       (driverStates st)).
Proof.
  split; [exact simulateDelivery_fatigue|].
  intros drivers orders maxHours startTime now.
  destruct (simulationLoop_invariant drivers orders maxHours startTime now
              (fun st =>
                 map DriverState.driver (driverStates st) = drivers /\
                 Forall (fun ds =>
                           Forall (fun r =>
                                     DeliveryResult.fatigueFactor r
                                     = round2 (Driver.getFatigueFactor
                                                 (DriverState.driver ds)))
                             (DriverState.assignedOrders ds))
                   (driverStates st)))
    as (st & Hst & Hd & Hf).
  - split; [apply initial_drivers|].
    simpl. apply Forall_forall. intros ds Hin.
    apply in_map_iff in Hin. destruct Hin as (d & <- & _). constructor.
  - intros st order st' [Hd Hf] Hit. split.
    + rewrite (iteration_drivers _ _ _ _ _ Hit). exact Hd.
    + eapply iteration_fatigue; eauto.
  - exists st. auto.
Qed.

Lemma C2_fatigue_from_driver_record_witness :
  exists r,
    simulateDelivery (DriverState.init 0 sampleDriver) sampleOrder 0 = Some r /\
    DeliveryResult.timeSpent r == 68 /\
    DeliveryResult.fatigueFactor r = round2 (Driver.getFatigueFactor sampleDriver).
Proof.
  destruct C2_fatigue_from_driver_record as [Hone _].
  eexists. split; [reflexivity|]. split; [reflexivity|].
  destruct (Hone (DriverState.init 0 sampleDriver) sampleOrder 0 _ eq_refl)
    as (route & _ & _ & Hf).
  exact Hf.
Defined.

(** ** Driver selection *)

(** What [findOptimalDriver] computes for an order with a route: nothing
    when no driver state within budget scores above -1, else the first of
    the highest scorers within budget. *)
Lemma findOptimalDriver_spec l order route maxHours :
  Order.assignedRoute order = Some route ->
  (findOptimalDriver l order maxHours = None /\
   forall j ds, nth_error l j = Some ds -> withinBudget ds route maxHours = true ->
                calculateDriverScore ds order route <= -1)
  \/
  (exists i ds,
     findOptimalDriver l order maxHours = Some (i, ds) /\
     nth_error l i = Some ds /\
     withinBudget ds route maxHours = true /\
     -1 < calculateDriverScore ds order route /\
     (forall j' ds', nth_error l j' = Some ds' ->
        withinBudget ds' route maxHours = true ->
        calculateDriverScore ds' order route <= calculateDriverScore ds order route) /\
     (forall j' ds', (j' < i)%nat -> nth_error l j' = Some ds' ->
        withinBudget ds' route maxHours = true ->
        calculateDriverScore ds' order route < calculateDriverScore ds order route)).
Proof.
  intros Hr. unfold findOptimalDriver.
  destruct (findOptimalDriver_from_spec l 0 order route maxHours None (-1) Hr)
    as [[Heq Hall]|(j & ds & Heq & H)].
  - left. split; assumption.
  - right. exists j, ds. split; [exact Heq|exact H].
Qed.

(** C3, at the failing input.  One driver (rating 1, 13 hours into the
    shift) and one order on a one-hour route, with 24 hours allowed.  The
    driver is within budget (13 + 90/60 <= 24), hence eligible, and is the
    only and therefore the highest scorer, with score -20.  Because the scan
    starts from a best score of -1, no driver is returned and the order is
    dropped from the simulation. *)
Theorem C3_eligible_driver_not_selected :
  Order.assignedRoute (hourOrder "ORD201") = Some hourRoute /\
  withinBudget (DriverState.init 0 tiredDriver) hourRoute 24 = true /\
  calculateDriverScore (DriverState.init 0 tiredDriver) (hourOrder "ORD201") hourRoute
  == -20 /\
  findOptimalDriver [DriverState.init 0 tiredDriver] (hourOrder "ORD201") 24 = None /\
  exists res,
    performDeliverySimulation [tiredDriver] [hourOrder "ORD201"] 24 None 0 = Some res /\
    Results.totalOrders res = 0%nat /\
    Results.orderResults res = [].
Proof.
  split; [reflexivity|].
  split; [vm_compute; reflexivity|].
  split; [vm_compute; reflexivity|].
  split; [vm_compute; reflexivity|].
  eexists. split; [vm_compute; reflexivity|].
  split; reflexivity.
Qed.

(** ** Earnings *)

(** The result object has no [earnings] key. *)
Lemma deliveryResult_earnings_undefined r :
  DeliveryResult.get r "earnings" = JS.Undefined.
Proof. reflexivity. Qed.

Lemma iteration_totalEarnings maxHours start st order st' :
  Forall (fun ds => DriverState.assignedOrders ds <> [] ->
                    DriverState.totalEarnings ds = JS.NaN) (driverStates st) ->
  Forall (fun ds => DriverState.totalEarnings ds = JS.NaN \/
                    exists q, DriverState.totalEarnings ds = JS.Num q) (driverStates st) ->
  iteration maxHours start st order st' ->
  Forall (fun ds => DriverState.assignedOrders ds <> [] ->
                    DriverState.totalEarnings ds = JS.NaN) (driverStates st') /\
  Forall (fun ds => DriverState.totalEarnings ds = JS.NaN \/
                    exists q, DriverState.totalEarnings ds = JS.Num q) (driverStates st').
Proof.
  intros Hnan Hnum [Hnone | i ds route r Hfind Hnth Hr Hb Hsim Ht]; [now split|].
  assert (He : DriverState.totalEarnings (assignDelivery ds r) = JS.NaN).
  { simpl. rewrite deliveryResult_earnings_undefined.
    destruct (Forall_nth_error _ _ _ _ Hnum Hnth) as [-> | [q ->]]; reflexivity. }
  split; simpl; apply Array_set_Forall; auto.
Qed.

(** In every run, a driver state that was given an order has
    [totalEarnings] NaN: [deliveryResult.earnings] is [undefined], and a
    number plus [undefined] is NaN. *)
Lemma totalEarnings_always_NaN drivers orders maxHours startTime now :
  exists st,
    simulationLoop drivers orders maxHours startTime now = Some st /\
    Forall (fun ds => hasAssignedOrders ds = true ->
                      Performance.totalEarnings (driverPerformanceOf ds) = JS.NaN)
      (driverStates st).
Proof.
  destruct (simulationLoop_invariant drivers orders maxHours startTime now
              (fun st =>
                 Forall (fun ds => DriverState.assignedOrders ds <> [] ->
                                   DriverState.totalEarnings ds = JS.NaN)
                   (driverStates st) /\
                 Forall (fun ds => DriverState.totalEarnings ds = JS.NaN \/
                                   exists q, DriverState.totalEarnings ds = JS.Num q)
                   (driverStates st)))
    as (st & Hst & Hnan & _).
  - split; simpl; apply Forall_forall; intros ds Hin;
      apply in_map_iff in Hin; destruct Hin as (d & <- & _); simpl.
    + intros H. now contradiction H.
    + right. now exists 0.
  - intros st order st' [H1 H2] Hit. eapply iteration_totalEarnings; eauto.
  - exists st. split; [exact Hst|].
    eapply Forall_impl; [|exact Hnan].
    intros ds H Hhas. simpl. rewrite H; [reflexivity|].
    unfold hasAssignedOrders in Hhas. intros Hnil. rewrite Hnil in Hhas. discriminate.
Qed.

(** C4, at the failing input.  One driver at 150 per hour and one order
    whose delivery takes 68 minutes: the delivery earns the driver
    (68/60) * 150 = 170, which is what [driverEarnings] of the delivery
    result says, but the performance entry of the driver has [totalEarnings]
    NaN, not the number 170. *)
Theorem C4_totalEarnings_is_NaN :
  exists res perf r,
    performDeliverySimulation [sampleDriver] [sampleOrder] 8 None 0 = Some res /\
    Results.driverPerformance res = [perf] /\
    Results.orderResults res = [r] /\
    Performance.ordersCompleted perf = 1%nat /\
    exactDriverEarnings sampleDriver sampleOrder == 170 /\
    DeliveryResult.driverEarnings r == 170 /\
    DeliveryResult.get r "earnings" = JS.Undefined /\
    Performance.totalEarnings perf = JS.NaN /\
    JS.is_number (Performance.totalEarnings perf) = false.
Proof.
  eexists. eexists. eexists.
  split; [vm_compute; reflexivity|].
  split; [reflexivity|].
  split; [reflexivity|].
  split; [reflexivity|].
  split; [vm_compute; reflexivity|].
  split; [vm_compute; reflexivity|].
  repeat split.
Qed.

(** ** Totals *)

Lemma sumOf_app field l r : sumOf field (l ++ [r]) == sumOf field l + field r.
Proof.
  induction l as [|x l IH]; simpl.
  - lra.
  - rewrite IH. lra.
Qed.

Lemma isInteger_round x : isInteger (JS.Math_round x).
Proof. eexists. unfold JS.Math_round. reflexivity. Qed.

Lemma isInteger_plus x y : isInteger x -> isInteger y -> isInteger (x + y).
Proof.
  intros [a Ha] [b Hb]. exists (a + b)%Z. rewrite inject_Z_plus, Ha, Hb. reflexivity.
Qed.

Lemma Math_round_of_integer x : isInteger x -> JS.Math_round x == x.
Proof.
  intros [z Hz]. rewrite (Math_round_comp _ _ Hz), Math_round_integer.
  symmetry. exact Hz.
Qed.

(** What the totals of a run are: the sums of the [profit] and [fuelCost]
    fields of the delivery results, each of which [simulateDelivery] has
    already rounded; the sums are whole numbers, which the final
    [Math.round] leaves as they are. *)
Lemma totals_sum_rounded_results drivers orders maxHours startTime now :
  exists st res,
    simulationLoop drivers orders maxHours startTime now = Some st /\
    performDeliverySimulation drivers orders maxHours startTime now = Some res /\
    Results.orderResults res = Results.orderResults (results st) /\
    Results.totalProfit res == sumOf DeliveryResult.profit (Results.orderResults res) /\
    Results.totalFuelCost res == sumOf DeliveryResult.fuelCost (Results.orderResults res) /\
    Forall (fun r => isInteger (DeliveryResult.profit r) /\
                     isInteger (DeliveryResult.fuelCost r))
      (Results.orderResults res).
Proof.
  destruct (simulationLoop_invariant drivers orders maxHours startTime now
              (fun st =>
                 let r := results st in
                 Results.totalProfit r
                 == sumOf DeliveryResult.profit (Results.orderResults r) /\
                 Results.totalFuelCost r
                 == sumOf DeliveryResult.fuelCost (Results.orderResults r) /\
                 isInteger (Results.totalProfit r) /\
                 isInteger (Results.totalFuelCost r) /\
                 Forall (fun r => isInteger (DeliveryResult.profit r) /\
                                  isInteger (DeliveryResult.fuelCost r))
                   (Results.orderResults r)))
    as (st & Hst & Hp & Hf & Hip & Hif & Hall).
  - simpl. repeat split; try reflexivity; try (exists 0%Z; reflexivity). constructor.
  - intros st order st' (Hp & Hf & Hip & Hif & Hall)
      [Hnone | i ds route r Hfind Hnth Hr Hb Hsim Ht]; [now repeat split|].
    destruct (simulateDelivery_amounts _ _ _ _ Hsim) as (_ & Hprofit & Hfuel).
    assert (Hir : isInteger (DeliveryResult.profit r) /\
                  isInteger (DeliveryResult.fuelCost r)).
    { rewrite Hprofit, Hfuel. split; apply isInteger_round. }
    simpl. rewrite !sumOf_app, <- Hp, <- Hf.
    split; [reflexivity|]. split; [reflexivity|].
    split; [now apply isInteger_plus|]. split; [now apply isInteger_plus|].
    apply Forall_app. split; [exact Hall|]. now constructor.
  - exists st, (finalizeResults orders maxHours st).
    split; [exact Hst|]. split.
    + unfold performDeliverySimulation. now rewrite Hst.
    + simpl. split; [reflexivity|].
      split; [rewrite Math_round_of_integer by exact Hip; exact Hp|].
      split; [rewrite Math_round_of_integer by exact Hif; exact Hf|].
      exact Hall.
Qed.

(** C5, at the failing input.  One driver and two orders, each with fuel
    cost 89.25 and profit 291.25.  The full-precision sums are 178.5 and
    582.5, which round to 179 and 583; the run reports [totalFuelCost] 178
    and [totalProfit] 582, the sums of the per-delivery values after each
    was rounded (89 and 291). *)
Theorem C5_totals_sum_rounded_deliveries :
  exists res,
    performDeliverySimulation [freshDriver] [oddOrder "ORD301"; oddOrder "ORD302"]
      8 None 0 = Some res /\
    Results.totalOrders res = 2%nat /\
    map DeliveryResult.orderId (Results.orderResults res) = ["ORD301"; "ORD302"]%string /\
    exactFuelCost (oddOrder "ORD301") + exactFuelCost (oddOrder "ORD302") == 178.5 /\
    JS.Math_round (exactFuelCost (oddOrder "ORD301") + exactFuelCost (oddOrder "ORD302"))
    == 179 /\
    Results.totalFuelCost res == 178 /\
    exactProfit freshDriver (oddOrder "ORD301") + exactProfit freshDriver (oddOrder "ORD302")
    == 582.5 /\
    JS.Math_round (exactProfit freshDriver (oddOrder "ORD301")
                   + exactProfit freshDriver (oddOrder "ORD302")) == 583 /\
    Results.totalProfit res == 582.
Proof.
  eexists.
  split; [vm_compute; reflexivity|].
  repeat split; vm_compute; reflexivity.
Qed.

(** ** The in-progress flag *)

Ltac run_cases :=
  unfold runSimulation, runSimulation_enter, runSimulation_resume, simulationFailed;
  repeat match goal with
         | |- context [match withinRange ?v ?lo ?hi with _ => _ end] =>
             destruct (withinRange v lo hi) eqn:?
         | |- context [if simulationInProgress ?s then _ else _] =>
             destruct (simulationInProgress s) eqn:?
         | |- context [match findActiveDrivers ?w ?n with _ => _ end] =>
             destruct (findActiveDrivers w n) eqn:?
         | |- context [match findPendingOrders ?w with _ => _ end] =>
             destruct (findPendingOrders w) eqn:?
         | |- context [if Nat.eqb ?a ?b then _ else _] =>
             destruct (Nat.eqb a b) eqn:?
         | |- context [match performDeliverySimulation ?a ?b ?c ?d ?e with _ => _ end] =>
             destruct (performDeliverySimulation a b c d e) eqn:?
         end.

(** Whatever happens, a call leaves the module state as it found it or
    leaves the flag clear. *)
Lemma runSimulation_flag st body w :
  snd (runSimulation st body w) = st \/
  simulationInProgress (snd (runSimulation st body w)) = false.
Proof.
  run_cases; simpl; auto.
Qed.

Lemma runSimulation_from_idle st body w :
  simulationInProgress st = false ->
  simulationInProgress (snd (runSimulation st body w)) = false.
Proof.
  intros Hidle. destruct (runSimulation_flag st body w) as [-> | H]; assumption.
Qed.

Lemma serve_idle requests : forall st,
  simulationInProgress st = false ->
  Forall (fun st' => simulationInProgress st' = false) (serve st requests).
Proof.
  induction requests as [|[body w] requests IH]; intros st Hidle; simpl.
  - constructor.
  - pose proof (runSimulation_from_idle st body w Hidle) as H.
    constructor; [exact H|]. apply IH. exact H.
Qed.

Lemma enter_answered st body response st' :
  runSimulation_enter st body = (inl response, st') -> st' = st.
Proof.
  unfold runSimulation_enter.
  destruct (withinRange (numberOfDrivers body) 1 50);
    [destruct (withinRange (maxHoursPerDriver body) 1 24);
     [destruct (simulationInProgress st)|]|];
    intros H; now inversion H.
Qed.

Lemma enter_suspended st body n m st' :
  runSimulation_enter st body = (inr (n, m), st') ->
  simulationInProgress st = false /\
  simulationInProgress st' = true /\
  simulationResults st' = simulationResults st.
Proof.
  unfold runSimulation_enter.
  destruct (withinRange (numberOfDrivers body) 1 50);
    [destruct (withinRange (maxHoursPerDriver body) 1 24);
     [destruct (simulationInProgress st) eqn:Hflag|]|];
    intros H; inversion H; subst; auto.
Qed.

Lemma resume_clears st body n m w :
  simulationInProgress (snd (runSimulation_resume st body n m w)) = false.
Proof.
  run_cases; reflexivity.
Qed.

(** However requests overlap, the flag is set exactly while one call that
    has passed the check is suspended, and there is never more than one
    such call. *)
Lemma flag_set_iff_run_suspended s :
  reachable s ->
  (simulationInProgress (moduleState s) = true /\ exists r, suspended s = [r]) \/
  (simulationInProgress (moduleState s) = false /\ suspended s = []).
Proof.
  induction 1 as [|s s' Hreach IH Hstep].
  - right. split; reflexivity.
  - destruct Hstep as [s body response st' Henter
                      | s body n m st' Henter
                      | s before r after w response st' Hsusp Hresume]; simpl.
    + apply enter_answered in Henter. now subst st'.
    + apply enter_suspended in Henter. destruct Henter as (Hidle & Hset & _).
      destruct IH as [[Hbusy _] | [_ Hnone]]; [congruence|].
      left. rewrite Hnone. eauto.
    + destruct IH as [[_ [r0 Hone]] | [_ Hnone]].
      * rewrite Hone in Hsusp.
        destruct before as [|x before].
        -- injection Hsusp as _ <-.
           right. split; [|reflexivity].
           pose proof (resume_clears (moduleState s) (suspendedBody r)
                         (suspendedDrivers r) (suspendedHours r) w) as Hclear.
           now rewrite Hresume in Hclear.
        -- destruct before; discriminate.
      * rewrite Hnone in Hsusp. destruct before; discriminate.
Qed.

(** The module state with the flag set is reached by a request that is
    suspended at its first [await]. *)
Lemma busyState_reachable :
  reachable
    {| moduleState := busyState;
       suspended :=
         [{| suspendedBody := goodBody; suspendedDrivers := 5; suspendedHours := 8 |}] |}.
Proof.
  eapply reachable_step; [apply reachable_initial|].
  apply (request_suspended initialServer goodBody 5 8 busyState). reflexivity.
Qed.

(** C6, refuted as stated.  While a run is in progress (flag set), a call
    with [numberOfDrivers = 0] ends in the parameter-validation rejection,
    and the flag is still set after it. *)
Lemma C6_counterexample :
  statusCode (fst (runSimulation busyState badBody sampleWorld)) = 400%nat /\
  message (fst (runSimulation busyState badBody sampleWorld))
  = "Number of drivers must be between 1 and 50"%string /\
  simulationInProgress (snd (runSimulation busyState badBody sampleWorld)) = true.
Proof.
  repeat split.
Qed.

(** C6, as the code has it.  After a call that ends in successful
    completion (200), in the no-drivers or no-orders rejection, or in the
    [catch] block (500), the flag is false, whatever the module state was
    on entry.  The parameter-validation rejection is issued before the flag
    is read or written and leaves the module state as it was, so the flag is
    false after it exactly when it was false before it.  Hence a call that
    starts with the flag clear always ends with the flag clear, and so does
    every call of a series of requests served one after the other from the
    initial module state.  When requests overlap, the flag is clear whenever
    no call that has passed the check is still suspended: no failed or
    rejected run leaves it set. *)
Theorem C6_flag_cleared_by_every_run_that_set_it :
  (forall st body w resp st',
     runSimulation st body w = (resp, st') ->
     ((statusCode resp = 200%nat \/ statusCode resp = 500%nat \/
       message resp = "No active drivers available for simulation"%string \/
       message resp = "No pending orders available for simulation"%string) ->
      simulationInProgress st' = false) /\
     ((message resp = "Number of drivers must be between 1 and 50"%string \/
       message resp = "Max hours per driver must be between 1 and 24"%string) ->
      st' = st) /\
     (simulationInProgress st = false -> simulationInProgress st' = false)) /\
  (forall requests,
     Forall (fun s => simulationInProgress s = false)
       (serve initialModuleState requests)) /\
  (forall s,
     reachable s -> suspended s = [] ->
     simulationInProgress (moduleState s) = false).
Proof.
  split; [|split].
  - intros st body w resp st' Hrun.
    split; [|split].
    + revert Hrun. run_cases; intros Hrun; injection Hrun as <- <-; simpl;
        intros [Hq | [Hq | [Hq | Hq]]]; try reflexivity; discriminate Hq.
    + revert Hrun. run_cases; intros Hrun; injection Hrun as <- <-; simpl;
        intros [Hq | Hq]; try reflexivity; discriminate Hq.
    + intros Hidle. pose proof (runSimulation_from_idle st body w Hidle) as H.
      now rewrite Hrun in H.
  - intros requests. now apply serve_idle.
  - intros s Hreach Hnone.
    destruct (flag_set_iff_run_suspended s Hreach) as [[_ [r Hr]] | [Hclear _]];
      [congruence | exact Hclear].
Qed.

Lemma C6_flag_cleared_by_every_run_that_set_it_witness :
  simulationInProgress (snd (runSimulation initialModuleState goodBody sampleWorld))
  = false /\
  snd (runSimulation busyState badBody sampleWorld) = busyState /\
  Forall (fun s => simulationInProgress s = false)
    (serve initialModuleState [(goodBody, sampleWorld); (badBody, sampleWorld)]).
Proof.
  destruct C6_flag_cleared_by_every_run_that_set_it as (Hcall & Hserve & _).
  split; [|split].
  - destruct (runSimulation initialModuleState goodBody sampleWorld)
      as [resp st'] eqn:Hrun.
    destruct (Hcall _ _ _ _ _ Hrun) as (_ & _ & Hidle).
    apply Hidle. reflexivity.
  - destruct (runSimulation busyState badBody sampleWorld) as [resp st'] eqn:Hrun.
    destruct (Hcall _ _ _ _ _ Hrun) as (_ & Hsame & _).
    apply Hsame. left.
    change resp with (fst (resp, st')). rewrite <- Hrun. reflexivity.
  - apply Hserve.
Defined.

(** ** Conflicting requests *)

(** C7, refuted as stated.  While a run is in progress, a call with
    [numberOfDrivers = 0] is answered with the 400 validation rejection, not
    with the 409 conflict. *)
Lemma C7_counterexample :
  simulationInProgress busyState = true /\
  statusCode (fst (runSimulation busyState badBody sampleWorld)) = 400%nat /\
  statusCode (fst (runSimulation busyState badBody sampleWorld)) <> 409%nat.
Proof.
  repeat split. simpl. discriminate.
Qed.

(** C7, as the code has it.  A call made while the flag is set changes
    neither the flag nor the cached results, so the status query answers as
    before, and it returns no data.  If its parameters pass both range
    guards the answer is the 409 conflict; otherwise it is the 400
    validation rejection, which comes first. *)
Theorem C7_rejected_while_in_progress :
  forall st body w resp st',
    simulationInProgress st = true ->
    runSimulation st body w = (resp, st') ->
    st' = st /\
    getSimulationStatus st' = getSimulationStatus st /\
    data resp = None /\
    (validParameters body = true ->
     statusCode resp = 409%nat /\
     message resp
     = "Simulation is already in progress. Please wait for it to complete."%string) /\
    (validParameters body = false -> statusCode resp = 400%nat).
Proof.
  intros st body w resp st' Hbusy Hrun.
  assert (Hst : st' = st /\ data resp = None /\
                (validParameters body = true ->
                 statusCode resp = 409%nat /\
                 message resp
                 = "Simulation is already in progress. Please wait for it to complete."%string) /\
                (validParameters body = false -> statusCode resp = 400%nat)).
  { revert Hrun. unfold runSimulation, runSimulation_enter, validParameters.
    destruct (withinRange (numberOfDrivers body) 1 50);
      [destruct (withinRange (maxHoursPerDriver body) 1 24)|];
      rewrite ?Hbusy; intros Hrun; injection Hrun as <- <-; simpl;
      repeat match goal with |- _ /\ _ => split end;
      try reflexivity; intros Hq; try discriminate Hq; split; reflexivity. }
  destruct Hst as (-> & Hdata & Hv & Hnv).
  repeat split; auto; apply Hv; assumption.
Qed.

Lemma C7_rejected_while_in_progress_witness :
  snd (runSimulation busyState goodBody sampleWorld) = busyState /\
  statusCode (fst (runSimulation busyState goodBody sampleWorld)) = 409%nat.
Proof.
  destruct (runSimulation busyState goodBody sampleWorld) as [resp st'] eqn:Hrun.
  destruct (C7_rejected_while_in_progress busyState goodBody sampleWorld resp st'
              eq_refl Hrun) as (Hst & _ & _ & Hv & _).
  split; [exact Hst|]. apply Hv. reflexivity.
Defined.

(** ** Sorting *)

Section ArraySortFacts.

Context {A : Type}.
Variable compareFn : A -> A -> Q.

Lemma sort_insert_perm a l : Permutation (a :: l) (sort_insert compareFn a l).
Proof.
  induction l as [|b l IH]; simpl.
  - apply Permutation_refl.
  - destruct (JS.gtb (compareFn a b) 0).
    + eapply perm_trans; [apply perm_swap|]. now apply perm_skip.
    + apply Permutation_refl.
Qed.

Lemma Array_sort_perm l : Permutation l (Array_sort compareFn l).
Proof.
  induction l as [|a l IH]; simpl.
  - constructor.
  - eapply perm_trans; [|apply sort_insert_perm]. now apply perm_skip.
Qed.

(** A consistent comparator: its sign is antisymmetric and transitive. *)
Hypothesis compare_antisym : forall a b, 0 < compareFn a b -> compareFn b a <= 0.
Hypothesis compare_trans :
  forall a b c, compareFn a b <= 0 -> compareFn b c <= 0 -> compareFn a c <= 0.

Lemma sort_insert_sorted a l :
  StronglySorted (fun x y => compareFn x y <= 0) l ->
  StronglySorted (fun x y => compareFn x y <= 0) (sort_insert compareFn a l).
Proof.
  induction 1 as [|b l Hsorted IH Hb]; simpl.
  - repeat constructor.
  - destruct (JS.gtb (compareFn a b) 0) eqn:Hcmp.
    + apply gtb_true_iff in Hcmp.
      constructor; [exact IH|].
      eapply Permutation_Forall; [apply sort_insert_perm|].
      constructor; [now apply compare_antisym | exact Hb].
    + apply gtb_false_iff in Hcmp.
      constructor; [now constructor|].
      constructor; [exact Hcmp|].
      eapply Forall_impl; [|exact Hb]. intros c Hc. eapply compare_trans; eauto.
Qed.

Lemma Array_sort_sorted l :
  StronglySorted (fun x y => compareFn x y <= 0) (Array_sort compareFn l).
Proof.
  induction l as [|a l IH]; simpl.
  - constructor.
  - now apply sort_insert_sorted.
Qed.

(** Stability: a class of elements that the comparator does not separate
    keeps its input order. *)
Variable sameClass : A -> bool.
Hypothesis class_tied :
  forall a b, sameClass a = true -> sameClass b = true -> compareFn a b <= 0.

Lemma sort_insert_stable a l :
  filter sameClass (sort_insert compareFn a l) = filter sameClass (a :: l).
Proof.
  induction l as [|b l IH]; [reflexivity|].
  simpl sort_insert.
  destruct (JS.gtb (compareFn a b) 0) eqn:Hcmp; [|reflexivity].
  apply gtb_true_iff in Hcmp.
  simpl filter in *. rewrite IH.
  destruct (sameClass a) eqn:Ha, (sameClass b) eqn:Hb; try reflexivity.
  pose proof (class_tied a b Ha Hb). lra.
Qed.

Lemma Array_sort_stable l :
  filter sameClass (Array_sort compareFn l) = filter sameClass l.
Proof.
  induction l as [|a l IH]; [reflexivity|].
  simpl Array_sort. rewrite sort_insert_stable. simpl. now rewrite IH.
Qed.

End ArraySortFacts.

(** The outcome of a stable sort does not depend on the algorithm: a list
    that is sorted for a consistent comparator and keeps every class of tied
    elements in input order is the result of [Array_sort]. *)
Section ArraySortUnique.

Context {A : Type}.
Variable compareFn : A -> A -> Q.
Hypothesis compare_refl : forall a, compareFn a a <= 0.
Hypothesis compare_antisym : forall a b, 0 < compareFn a b -> compareFn b a <= 0.
Hypothesis compare_trans :
  forall a b c, compareFn a b <= 0 -> compareFn b c <= 0 -> compareFn a c <= 0.

Lemma tiedWith_refl a : tiedWith compareFn a a = true.
Proof.
  unfold tiedWith. rewrite andb_true_iff, !leb_true_iff. split; apply compare_refl.
Qed.

Lemma tiedWith_sym a b : tiedWith compareFn a b = tiedWith compareFn b a.
Proof. unfold tiedWith. apply andb_comm. Qed.

Lemma head_in_filter (p : A -> bool) a l l' :
  a :: l' = filter p l -> In a l.
Proof.
  intros H. assert (Hin : In a (filter p l)) by (rewrite <- H; now left).
  apply filter_In in Hin. tauto.
Qed.

Lemma sorted_stable_unique s1 : forall s2,
  StronglySorted (fun x y => compareFn x y <= 0) s1 ->
  StronglySorted (fun x y => compareFn x y <= 0) s2 ->
  (forall a, filter (tiedWith compareFn a) s1 = filter (tiedWith compareFn a) s2) ->
  s1 = s2.
Proof.
  induction s1 as [|a s1 IH]; intros [|b s2] Hs1 Hs2 Hstable.
  - reflexivity.
  - specialize (Hstable b). simpl in Hstable.
    rewrite tiedWith_refl in Hstable. discriminate.
  - specialize (Hstable a). simpl in Hstable.
    rewrite tiedWith_refl in Hstable. discriminate.
  - apply StronglySorted_inv in Hs1. destruct Hs1 as [Hs1 Ha].
    apply StronglySorted_inv in Hs2. destruct Hs2 as [Hs2 Hb].
    assert (Hab : a = b).
    { pose proof (Hstable a) as Hfa. simpl in Hfa. rewrite tiedWith_refl in Hfa.
      destruct (tiedWith compareFn a b) eqn:Htie.
      - now injection Hfa.
      - exfalso.
        apply head_in_filter in Hfa.
        pose proof (Hstable b) as Hfb. simpl in Hfb.
        rewrite tiedWith_refl, (tiedWith_sym b a), Htie in Hfb.
        symmetry in Hfb. apply head_in_filter in Hfb.
        rewrite Forall_forall in Ha, Hb.
        pose proof (Ha b Hfb) as Hle1. pose proof (Hb a Hfa) as Hle2.
        unfold tiedWith in Htie.
        apply leb_true_iff in Hle1. apply leb_true_iff in Hle2.
        rewrite Hle1, Hle2 in Htie. discriminate. }
    subst b. f_equal. apply IH; try assumption.
    intros c. specialize (Hstable c). simpl in Hstable.
    destruct (tiedWith compareFn c a); [now injection Hstable | exact Hstable].
Qed.

Lemma Array_sort_unique l s :
  StronglySorted (fun x y => compareFn x y <= 0) s ->
  (forall a, filter (tiedWith compareFn a) s = filter (tiedWith compareFn a) l) ->
  s = Array_sort compareFn l.
Proof.
  intros Hsorted Hstable. apply sorted_stable_unique.
  - exact Hsorted.
  - now apply Array_sort_sorted.
  - intros a. rewrite Hstable. symmetry. apply Array_sort_stable.
    intros x y Hx Hy. unfold tiedWith in Hx, Hy.
    apply andb_true_iff in Hx. apply andb_true_iff in Hy.
    destruct Hx as [_ Hx]. destruct Hy as [Hy _].
    apply leb_true_iff in Hx. apply leb_true_iff in Hy.
    eapply compare_trans; eauto.
Qed.

End ArraySortUnique.

Lemma Qeq_bool_false_iff (x y : Q) : Qeq_bool x y = false <-> ~ x == y.
Proof.
  split.
  - intros H Heq. apply Qeq_bool_iff in Heq. congruence.
  - intros H. destruct (Qeq_bool x y) eqn:E; [|reflexivity].
    apply Qeq_bool_iff in E. contradiction.
Qed.

(** The sign of the comparator, in terms of weight and value. *)
Lemma compareByWeight_le a b :
  compareByWeight a b <= 0 <-> processedBefore a b.
Proof.
  unfold compareByWeight, processedBefore.
  destruct (Qeq_bool (weightOf a) (weightOf b)) eqn:E; simpl.
  - apply Qeq_bool_iff in E. split.
    + intros H. right. split; [exact E|lra].
    + intros [H|[_ H]]; lra.
  - apply Qeq_bool_false_iff in E. split.
    + intros H. left.
      destruct (Qlt_le_dec (weightOf b) (weightOf a)) as [Hlt|Hle]; [exact Hlt|].
      exfalso. apply E. lra.
    + intros [H|[H _]]; [lra|contradiction].
Qed.

Lemma compareByWeight_antisym a b :
  0 < compareByWeight a b -> compareByWeight b a <= 0.
Proof.
  intros H. apply compareByWeight_le.
  assert (Hn : ~ processedBefore a b) by (rewrite <- compareByWeight_le; lra).
  unfold processedBefore in *.
  destruct (Qlt_le_dec (weightOf a) (weightOf b)) as [Hlt|Hle]; [now left|].
  destruct (Qlt_le_dec (weightOf b) (weightOf a)) as [Hlt'|Hle'].
  - exfalso. apply Hn. now left.
  - right. split; [lra|].
    destruct (Qlt_le_dec (Order.valueRs b) (Order.valueRs a)) as [Hv|Hv]; [|exact Hv].
    exfalso. apply Hn. right. split; lra.
Qed.

Lemma compareByWeight_trans a b c :
  compareByWeight a b <= 0 -> compareByWeight b c <= 0 -> compareByWeight a c <= 0.
Proof.
  rewrite !compareByWeight_le. unfold processedBefore.
  intros [H1|[H1 V1]] [H2|[H2 V2]].
  - left. lra.
  - left. lra.
  - left. lra.
  - right. split; lra.
Qed.

Lemma sameKey_tied o a b :
  sameKey o a = true -> sameKey o b = true -> compareByWeight a b <= 0.
Proof.
  unfold sameKey. rewrite !andb_true_iff, !Qeq_bool_iff.
  intros [Ha Ha'] [Hb Hb']. apply compareByWeight_le. right. split; lra.
Qed.

Lemma StronglySorted_impl {A : Type} (R S : A -> A -> Prop) (l : list A) :
  (forall x y, R x y -> S x y) -> StronglySorted R l -> StronglySorted S l.
Proof.
  intros HRS. induction 1 as [|a l Hsorted IH Ha]; constructor; auto.
  eapply Forall_impl; [|exact Ha]. auto.
Qed.

Lemma compareByWeight_refl a : compareByWeight a a <= 0.
Proof.
  apply compareByWeight_le. right. split; lra.
Qed.

Lemma tiedWith_sameKey o x : tiedWith compareByWeight o x = sameKey o x.
Proof.
  apply eq_true_iff_eq. unfold tiedWith, sameKey.
  rewrite !andb_true_iff, !leb_true_iff, !compareByWeight_le, !Qeq_bool_iff.
  unfold processedBefore. split.
  - intros [[H1 | [H1 H1']] [H2 | [H2 H2']]]; split; lra.
  - intros [H1 H2]. split; right; split; lra.
Qed.

(** The sort calls the comparator on elements of the array only. *)
Lemma sort_insert_ext_in {A : Type} (f g : A -> A -> Q) (a : A) (l : list A) :
  (forall b, In b l -> f a b = g a b) ->
  sort_insert f a l = sort_insert g a l.
Proof.
  induction l as [|b l IH]; intros Hfg; simpl; [reflexivity|].
  rewrite (Hfg b) by now left.
  destruct (JS.gtb (g a b) 0); [|reflexivity].
  f_equal. apply IH. intros c Hc. apply Hfg. now right.
Qed.

Lemma Array_sort_ext_in {A : Type} (f g : A -> A -> Q) (l : list A) :
  (forall a b, In a l -> In b l -> f a b = g a b) ->
  Array_sort f l = Array_sort g l.
Proof.
  induction l as [|a l IH]; intros Hfg; simpl; [reflexivity|].
  rewrite IH by (intros x y Hx Hy; apply Hfg; now right).
  apply sort_insert_ext_in. intros b Hb. apply Hfg; [now left|].
  right. eapply Permutation_in; [|exact Hb].
  apply Permutation_sym, Array_sort_perm.
Qed.

(** For a priority that names no inherited member the table gives the
    weight of the specification. *)
Lemma orderPriority_plain o :
  plainPriority o -> orderPriority o = Weight (weightOf o).
Proof.
  unfold plainPriority, orderPriority, priorityWeight, weightOf. intros H.
  destruct (String.eqb (Order.priority o) "urgent"); [reflexivity|].
  destruct (String.eqb (Order.priority o) "high"); [reflexivity|].
  destruct (String.eqb (Order.priority o) "medium"); [reflexivity|].
  destruct (String.eqb (Order.priority o) "low"); [reflexivity|].
  rewrite H. reflexivity.
Qed.

Lemma compareOrders_plain a b :
  plainPriority a -> plainPriority b -> compareOrders a b = compareByWeight a b.
Proof.
  intros Ha Hb. unfold compareOrders, orderComparator, compareByWeight.
  rewrite (orderPriority_plain a Ha), (orderPriority_plain b Hb). simpl.
  destruct (negb (Qeq_bool (weightOf a) (weightOf b))); reflexivity.
Qed.

Lemma Array_sort_plain orders :
  Forall plainPriority orders ->
  Array_sort compareOrders orders = Array_sort compareByWeight orders.
Proof.
  intros Hall. apply Array_sort_ext_in. intros a b Ha Hb.
  rewrite Forall_forall in Hall. apply compareOrders_plain; auto.
Qed.

(** The processed queue is the only arrangement of the input that is sorted
    and stable. *)
Lemma processed_queue_unique orders queue :
  Forall plainPriority orders ->
  StronglySorted processedBefore queue ->
  (forall o, filter (sameKey o) queue = filter (sameKey o) orders) ->
  queue = Array_sort compareOrders orders.
Proof.
  intros Hplain Hsorted Hstable. rewrite (Array_sort_plain orders Hplain).
  apply Array_sort_unique.
  - exact compareByWeight_refl.
  - exact compareByWeight_antisym.
  - exact compareByWeight_trans.
  - eapply StronglySorted_impl; [|exact Hsorted].
    intros x y H. now apply compareByWeight_le.
  - intros a.
    rewrite (filter_ext _ _ (tiedWith_sameKey a) queue).
    rewrite (filter_ext _ _ (tiedWith_sameKey a) orders).
    apply Hstable.
Qed.

Example sort_sample :
  map Order.orderId
    (Array_sort compareOrders
       [orderWith "a" "low" 10; orderWith "b" "medium" 500; orderWith "c" "express" 500;
        orderWith "d" "urgent" 1; orderWith "e" "medium" 500; orderWith "f" "high" 3;
        orderWith "g" "medium" 900])
  = ["d"; "f"; "g"; "b"; "c"; "e"; "a"]%string.
Proof. vm_compute. reflexivity. Qed.

(** C8, refuted as stated.  The priority string "constructor" is not one of
    the four of the table, so the claim gives an order that carries it the
    default weight 2, below the weight 4 of an urgent order.  The table is
    an object literal, though, and under that key it yields the member it
    inherits: a function, which is truthy, so the default does not apply,
    and for which the difference of the weights is NaN.  The comparator
    then orders the two in neither direction, the stable sort leaves them
    as they came, and the order of weight 2 is processed before the urgent
    one. *)
Lemma C8_counterexample :
  priorityWeight "constructor" = Some (Inherited "constructor") /\
  orderComparator (orderWith "x" "constructor" 100) (orderWith "u" "urgent" 100) = None /\
  orderComparator (orderWith "u" "urgent" 100) (orderWith "x" "constructor" 100) = None /\
  Array_sort compareOrders [orderWith "x" "constructor" 100; orderWith "u" "urgent" 100]
  = [orderWith "x" "constructor" 100; orderWith "u" "urgent" 100] /\
  weightOf (orderWith "x" "constructor" 100) = 2 /\
  weightOf (orderWith "u" "urgent" 100) = 4 /\
  ~ processedBefore (orderWith "x" "constructor" 100) (orderWith "u" "urgent" 100) /\
  ~ StronglySorted processedBefore
      (Array_sort compareOrders
         [orderWith "x" "constructor" 100; orderWith "u" "urgent" 100]).
Proof.
  assert (Hnot : ~ processedBefore (orderWith "x" "constructor" 100)
                     (orderWith "u" "urgent" 100)).
  { unfold processedBefore. simpl. intros [H | [H _]].
    - revert H. vm_compute. discriminate.
    - revert H. vm_compute. discriminate. }
  split; [reflexivity|]. split; [reflexivity|]. split; [reflexivity|].
  split; [reflexivity|]. split; [reflexivity|]. split; [reflexivity|].
  split; [exact Hnot|].
  intros Hs. apply Hnot.
  change (Array_sort compareOrders
            [orderWith "x" "constructor" 100; orderWith "u" "urgent" 100])
    with [orderWith "x" "constructor" 100; orderWith "u" "urgent" 100] in Hs.
  apply StronglySorted_inv in Hs. destruct Hs as (_ & Hall).
  now apply Forall_inv in Hall.
Qed.

(** C8, as the code has it.  When no order has a priority that names a
    member inherited by the table (the four priorities of the schema and
    every string unknown to the table qualify), the queue that the
    assignment loop processes is the input array sorted: it is a
    permutation of the input; each order in it comes before all orders of
    lower priority weight and, among orders of the same weight, before all
    orders of lower value; the weights are urgent 4, high 3, medium 2, low 1
    and 2 for any other such priority string; and the sort is stable: for
    any weight and value, the orders having exactly that weight and value
    appear in the queue in their input order. *)
Theorem C8_queue_sorted_by_priority_then_value_stably :
  forall orders,
    Forall plainPriority orders ->
    (forall drivers maxHoursPerDriver startTime now,
       simulationLoop drivers orders maxHoursPerDriver startTime now
       = assignOrders maxHoursPerDriver (simulationStart startTime now)
           (Array_sort compareOrders orders)
           (initialLoopState (simulationStart startTime now) drivers)) /\
    Permutation orders (Array_sort compareOrders orders) /\
    StronglySorted processedBefore (Array_sort compareOrders orders) /\
    (forall o,
       filter (sameKey o) (Array_sort compareOrders orders)
       = filter (sameKey o) orders) /\
    (forall o,
       plainPriority o ->
       orderPriority o
       = Weight (if String.eqb (Order.priority o) "urgent" then 4
                 else if String.eqb (Order.priority o) "high" then 3
                 else if String.eqb (Order.priority o) "medium" then 2
                 else if String.eqb (Order.priority o) "low" then 1
                 else 2)).
Proof.
  intros orders Hplain. split; [reflexivity|]. split; [apply Array_sort_perm|].
  rewrite (Array_sort_plain orders Hplain). split; [|split].
  - eapply StronglySorted_impl.
    + intros x y H. apply compareByWeight_le. exact H.
    + apply Array_sort_sorted.
      * exact compareByWeight_antisym.
      * exact compareByWeight_trans.
  - intros o. apply Array_sort_stable. apply sameKey_tied.
  - exact orderPriority_plain.
Qed.

Lemma C8_queue_sorted_by_priority_then_value_stably_witness :
  StronglySorted processedBefore
    (Array_sort compareOrders
       [orderWith "a" "low" 10; orderWith "b" "medium" 500; orderWith "c" "express" 500;
        orderWith "d" "urgent" 1; orderWith "e" "medium" 500]) /\
  orderPriority (orderWith "c" "express" 500) = Weight 2.
Proof.
  destruct (C8_queue_sorted_by_priority_then_value_stably
              [orderWith "a" "low" 10; orderWith "b" "medium" 500;
               orderWith "c" "express" 500; orderWith "d" "urgent" 1;
               orderWith "e" "medium" 500])
    as (_ & _ & Hsorted & _ & Hweight).
  - repeat constructor.
  - split; [exact Hsorted|]. apply (Hweight (orderWith "c" "express" 500)). reflexivity.
Defined.

(** ** The delivery bonus in a simulation *)

Lemma calculateDeliveryBonus_not_delivered o :
  String.eqb (Order.status o) "delivered" = false ->
  Order.calculateDeliveryBonus o
  = JS.Math_max (if Order.isHighValue o then 0 + Order.valueRs o * 0.02 else 0) (-500).
Proof.
  intros Hs. unfold Order.calculateDeliveryBonus. rewrite Hs. reflexivity.
Qed.


(** The loop with an invariant that may rely on where the orders come
    from. *)
Lemma assignOrders_invariant_In maxHours start (P : LoopState -> Prop)
  (source : list Order.t) :
  (forall st order st',
     In order source -> P st -> iteration maxHours start st order st' -> P st') ->
  forall orders st,
    incl orders source -> P st ->
    exists st', assignOrders maxHours start orders st = Some st' /\ P st'.
Proof.
  intros Hstep. induction orders as [|order orders IH]; intros st Hincl HP; simpl.
  - eauto.
  - destruct (assignOrder_iteration maxHours start st order) as (st1 & -> & Hit).
    apply IH.
    + intros o Ho. apply Hincl. now right.
    + eapply Hstep; eauto. apply Hincl. now left.
Qed.

(** Every delivery result of a run is the simulation of one of the input
    orders for one of the driver states. *)
Lemma simulationLoop_results drivers orders maxHours startTime now :
  exists st,
    simulationLoop drivers orders maxHours startTime now = Some st /\
    Forall (fun r => exists o ds,
                       In o orders /\
                       simulateDelivery ds o (simulationStart startTime now) = Some r)
      (Results.orderResults (results st)).
Proof.
  unfold simulationLoop.
  apply (assignOrders_invariant_In maxHours (simulationStart startTime now)
           (fun st => Forall (fun r => exists o ds,
                                 In o orders /\
                                 simulateDelivery ds o (simulationStart startTime now)
                                 = Some r)
                        (Results.orderResults (results st)))
           orders).
  - intros st order st' Hin Hinv [Hnone | i ds route r Hfind Hnth Hr Hb Hsim Ht];
      [exact Hinv|].
    simpl. apply Forall_app. split; [exact Hinv|].
    constructor; [|constructor]. exists order, ds. split; assumption.
  - intros o Ho. eapply Permutation_in; [|exact Ho].
    apply Permutation_sym, Array_sort_perm.
  - constructor.
Qed.

Lemma findPendingOrders_pending w orders o :
  findPendingOrders w = Some orders ->
  In o orders ->
  In o (orderCollection (db w)) /\ Order.status o = "pending"%string.
Proof.
  unfold findPendingOrders. destruct (orderQueryFails w); [discriminate|].
  intros H Hin. injection H as <-.
  apply filter_In in Hin. destruct Hin as [Hin Hs].
  split; [exact Hin|]. now apply String.eqb_eq.
Qed.




(** * Further properties of the code *)

(** ** The model methods *)

Lemma Math_round_monotone x y : x <= y -> JS.Math_round x <= JS.Math_round y.
Proof.
  intros H. unfold JS.Math_round. rewrite <- Zle_Qle.
  apply Qfloor_resp_le. lra.
Qed.

Lemma Math_round_near x : x - (1#2) < JS.Math_round x /\ JS.Math_round x <= x + (1#2).
Proof.
  unfold JS.Math_round. split.
  - pose proof (Qlt_floor (x + (1#2))) as H.
    rewrite inject_Z_plus in H. change (inject_Z 1) with 1 in H. lra.
  - apply Qfloor_le.
Qed.

Lemma Qmult_ge_l b t : 0 <= b -> 1 <= t -> b <= b * t.
Proof.
  intros Hb Ht.
  assert (H : 0 <= b * (t - 1)) by (apply Qmult_le_0_compat; lra).
  lra.
Qed.

Lemma Qmult_le_l b s t : 0 <= b -> s <= t -> b * s <= b * t.
Proof.
  intros Hb Hst.
  assert (H : 0 <= b * (t - s)) by (apply Qmult_le_0_compat; lra).
  lra.
Qed.

Lemma getFatigueFactor_range d :
  1 <= Driver.getFatigueFactor d /\ Driver.getFatigueFactor d <= 1.5.
Proof.
  unfold Driver.getFatigueFactor.
  destruct (JS.leb (Driver.currentShiftHours d) 4);
    [|destruct (JS.leb (Driver.currentShiftHours d) 8);
      [|destruct (JS.leb (Driver.currentShiftHours d) 12)]];
    split; lra.
Qed.

(** X1. The fatigue factor never decreases as the shift hours of a driver
    record grow, and it always lies between 1 and 1.5. *)
Theorem X1_fatigue_factor_monotone :
  forall a b,
    Driver.currentShiftHours a <= Driver.currentShiftHours b ->
    1 <= Driver.getFatigueFactor a /\
    Driver.getFatigueFactor a <= Driver.getFatigueFactor b /\
    Driver.getFatigueFactor b <= 1.5.
Proof.
  intros a b Hab.
  split; [apply getFatigueFactor_range|]. split; [|apply getFatigueFactor_range].
  unfold Driver.getFatigueFactor.
  destruct (JS.leb (Driver.currentShiftHours a) 4) eqn:Ha4;
  destruct (JS.leb (Driver.currentShiftHours a) 8) eqn:Ha8;
  destruct (JS.leb (Driver.currentShiftHours a) 12) eqn:Ha12;
  destruct (JS.leb (Driver.currentShiftHours b) 4) eqn:Hb4;
  destruct (JS.leb (Driver.currentShiftHours b) 8) eqn:Hb8;
  destruct (JS.leb (Driver.currentShiftHours b) 12) eqn:Hb12;
  try lra;
  repeat match goal with
         | H : JS.leb _ _ = true |- _ => apply leb_true_iff in H
         | H : JS.leb _ _ = false |- _ => apply leb_false_iff in H
         end;
  lra.
Qed.

Lemma X1_fatigue_factor_monotone_witness :
  Driver.getFatigueFactor sampleDriver <= Driver.getFatigueFactor tiredDriver.
Proof.
  apply (X1_fatigue_factor_monotone sampleDriver tiredDriver).
  simpl. lra.
Defined.

Lemma getTrafficMultiplier_range r :
  1 <= Route.getTrafficMultiplier r /\ Route.getTrafficMultiplier r <= 1.5.
Proof.
  unfold Route.getTrafficMultiplier, Route.multipliers.
  destruct (String.eqb (Route.trafficLevel r) "Low");
    [|destruct (String.eqb (Route.trafficLevel r) "Medium");
      [|destruct (String.eqb (Route.trafficLevel r) "High")]];
    simpl; split; lra.
Qed.

Lemma getEstimatedTime_nonneg r f :
  0 <= Route.baseTime r -> 0 <= f -> 0 <= Route.getEstimatedTime r f.
Proof.
  intros Hb Hf. unfold Route.getEstimatedTime. apply Math_round_nonneg.
  destruct (getTrafficMultiplier_range r) as [Ht _].
  apply Qmult_le_0_compat; [|exact Hf].
  apply Qmult_le_0_compat; lra.
Qed.

(** X2. For a route with a base time that is not negative, the estimated
    time is a whole number of minutes, it is never below the rounded base
    time when the fatigue factor is at least 1 (traffic and fatigue only
    lengthen a trip), and it never decreases when the fatigue factor
    grows. *)
Theorem X2_estimated_time_grows_with_fatigue :
  forall r f1 f2,
    0 <= Route.baseTime r -> 1 <= f1 -> f1 <= f2 ->
    isInteger (Route.getEstimatedTime r f1) /\
    JS.Math_round (Route.baseTime r) <= Route.getEstimatedTime r f1 /\
    Route.getEstimatedTime r f1 <= Route.getEstimatedTime r f2.
Proof.
  intros r f1 f2 Hb Hf1 Hf12.
  destruct (getTrafficMultiplier_range r) as [Ht _].
  assert (Hbt : 0 <= Route.baseTime r * Route.getTrafficMultiplier r)
    by (apply Qmult_le_0_compat; lra).
  unfold Route.getEstimatedTime.
  split; [apply isInteger_round|]. split; apply Math_round_monotone.
  - apply Qle_trans with (Route.baseTime r * Route.getTrafficMultiplier r).
    + now apply Qmult_ge_l.
    + now apply Qmult_ge_l.
  - now apply Qmult_le_l.
Qed.

Lemma X2_estimated_time_grows_with_fatigue_witness :
  JS.Math_round (Route.baseTime sampleRoute) <= Route.getEstimatedTime sampleRoute 1.1 /\
  Route.getEstimatedTime sampleRoute 1.1 <= Route.getEstimatedTime sampleRoute 1.5.
Proof.
  apply (X2_estimated_time_grows_with_fatigue sampleRoute 1.1 1.5); simpl; lra.
Defined.

Lemma mean_between lo hi avg n a :
  0 <= n -> lo <= avg -> avg <= hi -> lo <= a -> a <= hi ->
  lo <= (avg * n + a) / (n + 1) /\ (avg * n + a) / (n + 1) <= hi.
Proof.
  intros Hn Hlo Hhi Hlo' Hhi'.
  pose proof (Qmult_le_compat_r _ _ n Hlo Hn) as H1.
  pose proof (Qmult_le_compat_r _ _ n Hhi Hn) as H2.
  split.
  - apply Qle_shift_div_l; lra.
  - apply Qle_shift_div_r; lra.
Qed.

(** X3. Updating the average completion time of a route that has been
    completed [n >= 0] times counts one more completion and stores a whole
    number; if the old average and the new actual time both lie between two
    whole numbers, so does the new average.  On the first completion
    ([n = 0]) the stored average is the rounded actual time alone: the
    initial average plays no role. *)
Theorem X3_running_average_stays_in_range :
  forall (this : RouteDoc.t) (actualTime : Q) (lo hi : Z),
    0 <= Route.totalCompletions (RouteDoc.fields this) ->
    inject_Z lo <= RouteDoc.averageCompletionTime this ->
    RouteDoc.averageCompletionTime this <= inject_Z hi ->
    inject_Z lo <= actualTime ->
    actualTime <= inject_Z hi ->
    Route.totalCompletions (RouteDoc.fields (RouteDoc.updateAverageTime this actualTime))
    = Route.totalCompletions (RouteDoc.fields this) + 1 /\
    isInteger (RouteDoc.averageCompletionTime (RouteDoc.updateAverageTime this actualTime)) /\
    inject_Z lo
    <= RouteDoc.averageCompletionTime (RouteDoc.updateAverageTime this actualTime) /\
    RouteDoc.averageCompletionTime (RouteDoc.updateAverageTime this actualTime)
    <= inject_Z hi /\
    (Route.totalCompletions (RouteDoc.fields this) == 0 ->
     RouteDoc.averageCompletionTime (RouteDoc.updateAverageTime this actualTime)
     = JS.Math_round actualTime).
Proof.
  intros this actualTime lo hi Hn Hlo Hhi Hlo' Hhi'.
  destruct (mean_between _ _ _ _ _ Hn Hlo Hhi Hlo' Hhi') as [Hmlo Hmhi].
  simpl. split; [reflexivity|]. split; [apply isInteger_round|].
  split; [|split].
  - rewrite <- (Math_round_integer lo). now apply Math_round_monotone.
  - rewrite <- (Math_round_integer hi). now apply Math_round_monotone.
  - intros H0. apply Math_round_comp. rewrite H0. field.
Qed.

Lemma X3_running_average_stays_in_range_witness :
  RouteDoc.averageCompletionTime
    (RouteDoc.updateAverageTime
       {| RouteDoc.fields := sampleRoute; RouteDoc.averageCompletionTime := 45 |} 70)
  = JS.Math_round 70 /\
  inject_Z 60
  <= RouteDoc.averageCompletionTime
       (RouteDoc.updateAverageTime
          {| RouteDoc.fields := hourRoute; RouteDoc.averageCompletionTime := 60 |} 75).
Proof.
  assert (H4570 : inject_Z 45 <= 45 /\ 45 <= inject_Z 70 /\
                  inject_Z 45 <= 70 /\ 70 <= inject_Z 70)
    by (repeat split; vm_compute; discriminate).
  assert (H6075 : inject_Z 60 <= 60 /\ 60 <= inject_Z 75 /\
                  inject_Z 60 <= 75 /\ 75 <= inject_Z 75)
    by (repeat split; vm_compute; discriminate).
  assert (H0 : 0 <= 0) by (vm_compute; discriminate).
  destruct H4570 as (A1 & A2 & A3 & A4). destruct H6075 as (B1 & B2 & B3 & B4).
  split.
  - destruct (X3_running_average_stays_in_range
                {| RouteDoc.fields := sampleRoute; RouteDoc.averageCompletionTime := 45 |}
                70 45 70 H0 A1 A2 A3 A4) as (_ & _ & _ & _ & Hfirst).
    apply Hfirst. reflexivity.
  - destruct (X3_running_average_stays_in_range
                {| RouteDoc.fields := hourRoute; RouteDoc.averageCompletionTime := 60 |}
                75 60 75 H0 B1 B2 B3 B4) as (_ & _ & Hlo & _).
    exact Hlo.
Defined.

(** ** The delivery bonus *)

Lemma Math_ceil_positive x : 0 < x -> 1 <= JS.Math_ceil x.
Proof.
  intros Hx. unfold JS.Math_ceil.
  assert (H : (0 < Qceiling x)%Z).
  { rewrite Zlt_Qlt. eapply Qlt_le_trans; [exact Hx|apply Qle_ceiling]. }
  change 1 with (inject_Z 1). rewrite <- Zle_Qle. lia.
Qed.

Lemma Math_ceil_monotone x y : x <= y -> JS.Math_ceil x <= JS.Math_ceil y.
Proof.
  intros H. unfold JS.Math_ceil. rewrite <- Zle_Qle. now apply Qceiling_resp_le.
Qed.

Lemma isLate_true_iff o :
  Order.isLate o = true <->
  exists delivered scheduled,
    Order.deliveryTimestamp o = Some delivered /\
    Order.scheduledDeliveryTime o = Some scheduled /\
    scheduled < delivered.
Proof.
  unfold Order.isLate.
  destruct (Order.deliveryTimestamp o) as [d|], (Order.scheduledDeliveryTime o) as [s|];
    split; try discriminate.
  - intros H. apply gtb_true_iff in H. eauto.
  - intros (d' & s' & Hd & Hs & Hlt). injection Hd as <-. injection Hs as <-.
    now apply gtb_true_iff.
  - intros (d' & s' & Hd & Hs & _). discriminate.
  - intros (d' & s' & Hd & Hs & _). discriminate.
  - intros (d' & s' & Hd & Hs & _). discriminate.
Qed.

Lemma hoursLate_positive delivered scheduled :
  scheduled < delivered -> 1 <= hoursLate delivered scheduled.
Proof.
  intros H. apply Math_ceil_positive.
  apply Qlt_shift_div_l; lra.
Qed.

(** The three cases of [calculateDeliveryBonus]. *)
Lemma calculateDeliveryBonus_on_time o :
  Order.status o = "delivered"%string -> Order.isLate o = false ->
  Order.calculateDeliveryBonus o == JS.Math_max (highValueShare o + 100) (-500).
Proof.
  intros Hs Hl. unfold Order.calculateDeliveryBonus, highValueShare, JS.Math_max.
  rewrite Hs, Hl. simpl.
  destruct (Order.isHighValue o); apply Q.max_compat; lra.
Qed.

Lemma calculateDeliveryBonus_late o delivered scheduled :
  Order.status o = "delivered"%string ->
  Order.deliveryTimestamp o = Some delivered ->
  Order.scheduledDeliveryTime o = Some scheduled ->
  scheduled < delivered ->
  Order.calculateDeliveryBonus o
  == JS.Math_max (highValueShare o - hoursLate delivered scheduled * 50) (-500).
Proof.
  intros Hs Hd Hsch Hlt.
  assert (Hl : Order.isLate o = true) by (apply isLate_true_iff; eauto).
  unfold Order.calculateDeliveryBonus, highValueShare, JS.Math_max, hoursLate.
  rewrite Hs, Hl, Hd, Hsch. simpl.
  destruct (Order.isHighValue o); apply Q.max_compat; lra.
Qed.

Lemma calculateDeliveryBonus_other o :
  String.eqb (Order.status o) "delivered" = false ->
  Order.calculateDeliveryBonus o == JS.Math_max (highValueShare o) (-500).
Proof.
  intros Hs. rewrite calculateDeliveryBonus_not_delivered by exact Hs.
  unfold highValueShare, JS.Math_max.
  destruct (Order.isHighValue o); apply Q.max_compat; lra.
Qed.

Lemma highValueShare_nonneg o : 0 <= Order.valueRs o -> 0 <= highValueShare o.
Proof.
  intros H. unfold highValueShare. destruct (Order.isHighValue o); lra.
Qed.

(** X4. The delivery bonus of an order is never below -500, whatever its
    status and however late it was delivered; for an order whose value is
    not negative it is never above the high-value share (2% of the value of
    a high-value order, else 0) plus the flat 100. *)
Theorem X4_delivery_bonus_bounds :
  forall o,
    -500 <= Order.calculateDeliveryBonus o /\
    (0 <= Order.valueRs o ->
     Order.calculateDeliveryBonus o <= highValueShare o + 100).
Proof.
  intros o. split.
  - unfold Order.calculateDeliveryBonus, JS.Math_max. apply Q.le_max_r.
  - intros Hv. pose proof (highValueShare_nonneg o Hv) as Hshare.
    destruct (String.eqb (Order.status o) "delivered") eqn:Hs.
    + apply String.eqb_eq in Hs.
      destruct (Order.isLate o) eqn:Hl.
      * destruct (proj1 (isLate_true_iff o) Hl) as (d & s & Hd & Hsch & Hlt).
        rewrite (calculateDeliveryBonus_late o d s Hs Hd Hsch Hlt).
        pose proof (hoursLate_positive d s Hlt).
        apply Q.max_lub; lra.
      * rewrite (calculateDeliveryBonus_on_time o Hs Hl).
        apply Q.max_lub; lra.
    + rewrite (calculateDeliveryBonus_other o Hs). apply Q.max_lub; lra.
Qed.

Lemma X4_delivery_bonus_bounds_witness :
  -500 <= Order.calculateDeliveryBonus sampleOrder /\
  Order.calculateDeliveryBonus sampleOrder <= highValueShare sampleOrder + 100.
Proof.
  destruct (X4_delivery_bonus_bounds sampleOrder) as [Hlo Hhi].
  split; [exact Hlo|]. apply Hhi. vm_compute. discriminate.
Defined.

Lemma hoursLate_monotone d1 d2 s : d1 <= d2 -> hoursLate d1 s <= hoursLate d2 s.
Proof.
  intros H. apply Math_ceil_monotone. unfold Qdiv.
  apply Qmult_le_compat_r; [lra|]. vm_compute. discriminate.
Qed.

Lemma hoursLate_beyond_nine d s : s + 9 * 3600000 < d -> 10 <= hoursLate d s.
Proof.
  intros H. unfold hoursLate, JS.Math_ceil.
  assert (H9 : 9 < (d - s) / (1000 * 60 * 60)) by (apply Qlt_shift_div_l; lra).
  assert (Hz : (9 < Qceiling ((d - s) / (1000 * 60 * 60)))%Z).
  { rewrite Zlt_Qlt. eapply Qlt_le_trans; [exact H9|apply Qle_ceiling]. }
  change 10 with (inject_Z 10). rewrite <- Zle_Qle. lia.
Qed.

(** X5. For a delivered order whose value is not negative: delivered on
    time, its bonus is exactly the high-value share plus 100; delivered
    late, it is at most the high-value share minus 50, so lateness costs at
    least 150; and an order that is not high-value and more than nine hours
    late gets exactly -500, the cap. *)
Theorem X5_late_delivery_costs_at_least_150 :
  forall o,
    Order.status o = "delivered"%string ->
    0 <= Order.valueRs o ->
    (Order.isLate o = false ->
     Order.calculateDeliveryBonus o == highValueShare o + 100) /\
    (Order.isLate o = true ->
     Order.calculateDeliveryBonus o <= highValueShare o - 50) /\
    (forall delivered scheduled,
       Order.deliveryTimestamp o = Some delivered ->
       Order.scheduledDeliveryTime o = Some scheduled ->
       scheduled + 9 * 3600000 < delivered ->
       Order.isHighValue o = false ->
       Order.calculateDeliveryBonus o == -500).
Proof.
  intros o Hs Hv. pose proof (highValueShare_nonneg o Hv) as Hshare.
  split; [|split].
  - intros Hl. rewrite (calculateDeliveryBonus_on_time o Hs Hl).
    unfold JS.Math_max. apply Q.max_l. lra.
  - intros Hl.
    destruct (proj1 (isLate_true_iff o) Hl) as (d & s & Hd & Hsch & Hlt).
    rewrite (calculateDeliveryBonus_late o d s Hs Hd Hsch Hlt).
    pose proof (hoursLate_positive d s Hlt).
    apply Q.max_lub; lra.
  - intros d s Hd Hsch Hlt Hhv.
    assert (Hlt' : s < d) by lra.
    rewrite (calculateDeliveryBonus_late o d s Hs Hd Hsch Hlt').
    pose proof (hoursLate_beyond_nine d s Hlt) as H10.
    unfold JS.Math_max. apply Q.max_r.
    unfold highValueShare. rewrite Hhv. lra.
Qed.

Lemma X5_late_delivery_costs_at_least_150_witness :
  Order.calculateDeliveryBonus
    (OrderDoc.fields (OrderDoc.markAsDelivered movingOrder (Some 70) 7200001))
  <= highValueShare (OrderDoc.fields movingOrder) - 50.
Proof.
  destruct (X5_late_delivery_costs_at_least_150
              (OrderDoc.fields (OrderDoc.markAsDelivered movingOrder (Some 70) 7200001))
              eq_refl) as (_ & Hlate & _).
  - vm_compute. discriminate.
  - apply Hlate. reflexivity.
Defined.

(** X6. Marking an order as delivered at clock reading [now] stores status
    "delivered", [now] as delivery timestamp and the minutes given, and
    leaves the id, value, route, schedule, priority and high-value flag of
    the order as they were; the stored order is late exactly
    when it has a scheduled time earlier than [now]; and of two clock
    readings, the later one never gives the higher bonus. *)
Theorem X6_later_delivery_never_pays_more :
  forall this minutes1 minutes2 t1 t2,
    t1 <= t2 ->
    let o1 := OrderDoc.fields (OrderDoc.markAsDelivered this minutes1 t1) in
    let o2 := OrderDoc.fields (OrderDoc.markAsDelivered this minutes2 t2) in
    Order.status o1 = "delivered"%string /\
    Order.deliveryTimestamp o1 = Some t1 /\
    OrderDoc.actualDeliveryTime (OrderDoc.markAsDelivered this minutes1 t1) = minutes1 /\
    Order.orderId o1 = Order.orderId (OrderDoc.fields this) /\
    Order.valueRs o1 = Order.valueRs (OrderDoc.fields this) /\
    Order.assignedRoute o1 = Order.assignedRoute (OrderDoc.fields this) /\
    Order.scheduledDeliveryTime o1 = Order.scheduledDeliveryTime (OrderDoc.fields this) /\
    Order.priority o1 = Order.priority (OrderDoc.fields this) /\
    Order.isHighValue o1 = Order.isHighValue (OrderDoc.fields this) /\
    (Order.isLate o1 = true <->
     exists scheduled,
       Order.scheduledDeliveryTime (OrderDoc.fields this) = Some scheduled /\
       scheduled < t1) /\
    Order.calculateDeliveryBonus o2 <= Order.calculateDeliveryBonus o1.
Proof.
  intros this minutes1 minutes2 t1 t2 Ht o1 o2.
  split; [reflexivity|]. split; [reflexivity|]. split; [reflexivity|].
  split; [reflexivity|]. split; [reflexivity|]. split; [reflexivity|].
  split; [reflexivity|]. split; [reflexivity|]. split; [reflexivity|]. split.
  - rewrite isLate_true_iff. subst o1. simpl. split.
    + intros (d & s & Hd & Hs & Hlt). injection Hd as <-. eauto.
    + intros (s & Hs & Hlt). eauto.
  - assert (Hshare : highValueShare o2 = highValueShare o1) by reflexivity.
    destruct (Order.scheduledDeliveryTime (OrderDoc.fields this)) as [s|] eqn:Hsch.
    + destruct (Qlt_le_dec s t1) as [Hl1|Hl1].
      * (* both late *)
        rewrite (calculateDeliveryBonus_late o1 t1 s eq_refl eq_refl Hsch Hl1).
        assert (Hl2 : s < t2) by lra.
        rewrite (calculateDeliveryBonus_late o2 t2 s eq_refl eq_refl Hsch Hl2).
        pose proof (hoursLate_monotone t1 t2 s Ht).
        apply Q.max_le_compat_r. rewrite Hshare. lra.
      * assert (Hon1 : Order.isLate o1 = false).
        { subst o1. unfold Order.isLate. simpl. rewrite Hsch.
          now apply gtb_false_iff. }
        rewrite (calculateDeliveryBonus_on_time o1 eq_refl Hon1).
        destruct (Qlt_le_dec s t2) as [Hl2|Hl2].
        -- rewrite (calculateDeliveryBonus_late o2 t2 s eq_refl eq_refl Hsch Hl2).
           pose proof (hoursLate_positive t2 s Hl2).
           apply Q.max_le_compat_r. rewrite Hshare. lra.
        -- assert (Hon2 : Order.isLate o2 = false).
           { subst o2. unfold Order.isLate. simpl. rewrite Hsch.
             now apply gtb_false_iff. }
           rewrite (calculateDeliveryBonus_on_time o2 eq_refl Hon2).
           rewrite Hshare. lra.
    + assert (Hon1 : Order.isLate o1 = false)
        by (subst o1; unfold Order.isLate; simpl; now rewrite Hsch).
      assert (Hon2 : Order.isLate o2 = false)
        by (subst o2; unfold Order.isLate; simpl; now rewrite Hsch).
      rewrite (calculateDeliveryBonus_on_time o1 eq_refl Hon1).
      rewrite (calculateDeliveryBonus_on_time o2 eq_refl Hon2).
      rewrite Hshare. lra.
Qed.

Lemma X6_later_delivery_never_pays_more_witness :
  Order.calculateDeliveryBonus
    (OrderDoc.fields (OrderDoc.markAsDelivered movingOrder (Some 70) 7200001))
  <= Order.calculateDeliveryBonus
       (OrderDoc.fields (OrderDoc.markAsDelivered movingOrder (Some 60) 7200000)).
Proof.
  apply (X6_later_delivery_never_pays_more movingOrder (Some 60) (Some 70)
           7200000 7200001).
  vm_compute. discriminate.
Defined.

(** X7. After the daily reset of the shift hours the fatigue factor of the
    driver is 1, and the driver can work [h] more hours exactly when [h] is
    within [maxHoursPerDay]; and a driver who can work [h] more hours can
    work any smaller number of hours more. *)
Theorem X7_reset_shift_restores_capacity :
  forall (this : DriverDoc.t) (h h' : Q),
    Driver.getFatigueFactor (DriverDoc.fields (DriverDoc.resetShiftHours this)) == 1 /\
    (DriverDoc.canWorkMoreHours (DriverDoc.resetShiftHours this) (Some h) = true <->
     h <= DriverDoc.maxHoursPerDay this) /\
    (DriverDoc.canWorkMoreHours this (Some h) = true -> h' <= h ->
     DriverDoc.canWorkMoreHours this (Some h') = true).
Proof.
  intros this h h'. split; [reflexivity|]. split.
  - unfold DriverDoc.canWorkMoreHours. simpl. rewrite leb_true_iff. split; intros; lra.
  - unfold DriverDoc.canWorkMoreHours. rewrite !leb_true_iff. intros; lra.
Qed.

Lemma X7_reset_shift_restores_capacity_witness :
  DriverDoc.canWorkMoreHours
    {| DriverDoc.fields := tiredDriver; DriverDoc.maxHoursPerDay := 14 |} (Some (1#2))
  = true.
Proof.
  destruct (X7_reset_shift_restores_capacity
              {| DriverDoc.fields := tiredDriver; DriverDoc.maxHoursPerDay := 14 |}
              1 (1#2)) as (_ & _ & Hless).
  apply Hless; [reflexivity | vm_compute; discriminate].
Defined.

(** ** Marking an order as delivered *)

(** An order that is not in progress is left alone, and so is its route. *)
Lemma handler_ignores_other_orders order minutes feedback routeFound now fault :
  String.eqb (Order.status (OrderDoc.fields order)) "in-progress" = false ->
  let out := markAsDeliveredHandler (Some order) minutes feedback routeFound now fault in
  replyCode (reply out) <> 200%nat /\
  orderAfter out = Some order /\
  routeAfter out = routeFound.
Proof.
  intros Hs. unfold markAsDeliveredHandler, deliveryFailed. rewrite Hs.
  destruct (isFault fault OrderLookupFails); simpl; repeat split; discriminate.
Qed.

Lemma handler_order_after found minutes feedback routeFound now fault :
  let out := markAsDeliveredHandler found minutes feedback routeFound now fault in
  orderAfter out = found \/
  exists order,
    found = Some order /\
    Order.status (OrderDoc.fields order) = "in-progress"%string /\
    orderAfter out = Some (OrderDoc.markAsDelivered order minutes now).
Proof.
  unfold markAsDeliveredHandler, deliveryFailed.
  destruct (isFault fault OrderLookupFails); [now left|].
  destruct found as [order|]; [|now left].
  destruct (String.eqb (Order.status (OrderDoc.fields order)) "in-progress") eqn:Hs;
    [|now left].
  apply String.eqb_eq in Hs. simpl.
  destruct (isFault fault OrderSaveFails); [now left|].
  right. exists order. split; [reflexivity|]. split; [exact Hs|].
  repeat match goal with
         | |- context [if ?b then _ else _] => destruct b
         | |- context [match ?x with Some _ => _ | None => _ end] => destruct x
         end; reflexivity.
Qed.

(** X8. The handler answers 200 only for an order that its lookup found
    in status "in-progress"; the order is then stored as delivered at the
    clock reading of the call, and the bonus in the answer is the bonus of
    the stored order.  With the answers 404 and 400 neither the order nor
    the route is changed.  A later call whose lookup finds the order as the
    first call stored it is not answered with 200 and changes nothing.  The
    guard looks at what the lookup returned and at nothing else: when
    nothing fails, every call whose lookup returned the order while it was
    in progress is answered with 200 and stores its own delivery, whatever
    another call has stored since that lookup, so requests that overlap can
    record a delivery twice. *)
Theorem X8_delivery_guarded_by_the_lookup :
  forall found minutes feedback routeFound now fault,
    let out := markAsDeliveredHandler found minutes feedback routeFound now fault in
    (replyCode (reply out) = 200%nat ->
     exists order,
       found = Some order /\
       Order.status (OrderDoc.fields order) = "in-progress"%string /\
       orderAfter out = Some (OrderDoc.markAsDelivered order minutes now) /\
       replyBonus (reply out)
       = Some (Order.calculateDeliveryBonus
                 (OrderDoc.fields (OrderDoc.markAsDelivered order minutes now)))) /\
    ((replyCode (reply out) = 404%nat \/ replyCode (reply out) = 400%nat) ->
     orderAfter out = found /\ routeAfter out = routeFound) /\
    (orderAfter out <> found ->
     forall minutes' feedback' routeFound' now' fault',
       let again :=
         markAsDeliveredHandler (orderAfter out) minutes' feedback' routeFound'
           now' fault' in
       replyCode (reply again) <> 200%nat /\
       orderAfter again = orderAfter out /\
       routeAfter again = routeFound') /\
    (forall order,
       found = Some order ->
       Order.status (OrderDoc.fields order) = "in-progress"%string ->
       fault = NoFault ->
       replyCode (reply out) = 200%nat /\
       forall minutes' feedback' routeFound' now',
         let overlapping :=
           markAsDeliveredHandler found minutes' feedback' routeFound' now' NoFault in
         replyCode (reply overlapping) = 200%nat /\
         orderAfter overlapping = Some (OrderDoc.markAsDelivered order minutes' now')).
Proof.
  intros found minutes feedback routeFound now fault out.
  split; [|split; [|split]].
  - subst out. unfold markAsDeliveredHandler, deliveryFailed.
    destruct (isFault fault OrderLookupFails); [discriminate|].
    destruct found as [order|]; [|discriminate].
    destruct (String.eqb (Order.status (OrderDoc.fields order)) "in-progress") eqn:Hs;
      [|discriminate].
    apply String.eqb_eq in Hs. simpl.
    destruct (isFault fault OrderSaveFails); [discriminate|].
    repeat match goal with
           | |- context [if ?b then _ else _] => destruct b
           | |- context [match ?x with Some _ => _ | None => _ end] => destruct x
           end; simpl; try discriminate; intros _; exists order; auto.
  - subst out. unfold markAsDeliveredHandler, deliveryFailed.
    repeat match goal with
           | |- context [if ?b then _ else _] => destruct b
           | |- context [match ?x with Some _ => _ | None => _ end] => destruct x
           end; simpl; intros [H | H]; try discriminate H; auto.
  - intros Hchanged minutes' feedback' routeFound' now' fault' again.
    destruct (handler_order_after found minutes feedback routeFound now fault)
      as [Hsame | (order & _ & _ & Hafter)]; [contradiction|].
    subst again. fold out in Hafter. rewrite Hafter.
    apply handler_ignores_other_orders. reflexivity.
  - intros order Hfound Hs Hfault.
    assert (Hall : forall m f r t,
              replyCode (reply (markAsDeliveredHandler (Some order) m f r t NoFault))
              = 200%nat /\
              orderAfter (markAsDeliveredHandler (Some order) m f r t NoFault)
              = Some (OrderDoc.markAsDelivered order m t)).
    { intros m f r t. unfold markAsDeliveredHandler. simpl.
      rewrite Hs. simpl. rewrite andb_false_r.
      destruct (hasRoute (OrderDoc.markAsDelivered order m t) && truthy m);
        [destruct r; [destruct m|]|]; split; reflexivity. }
    subst out. rewrite Hfound, Hfault. split; [apply Hall|].
    intros minutes' feedback' routeFound' now'. apply Hall.
Qed.

Lemma X8_delivery_guarded_by_the_lookup_witness :
  replyCode
    (reply (markAsDeliveredHandler (Some movingOrder) (Some 70) false None 7200000 NoFault))
  = 200%nat /\
  replyCode
    (reply
       (markAsDeliveredHandler
          (orderAfter
             (markAsDeliveredHandler (Some movingOrder) (Some 70) false None 7200000
                NoFault))
          (Some 70) false None 7300000 NoFault))
  <> 200%nat /\
  replyCode
    (reply (markAsDeliveredHandler (Some movingOrder) (Some 80) false None 7300000 NoFault))
  = 200%nat.
Proof.
  destruct (X8_delivery_guarded_by_the_lookup (Some movingOrder) (Some 70) false None
              7200000 NoFault) as (_ & _ & Honce & Hoverlap).
  destruct (Hoverlap movingOrder eq_refl eq_refl eq_refl) as (Hfirst & Hother).
  split; [exact Hfirst|]. split.
  - apply Honce. simpl. discriminate.
  - apply (Hother (Some 80) false None 7300000).
Defined.

Lemma truthy_true_iff v : truthy v = true <-> exists q, v = Some q /\ ~ q == 0.
Proof.
  unfold truthy. destruct v as [q|]; split.
  - rewrite negb_true_iff, Qeq_bool_false_iff. eauto.
  - intros (q' & Hq & Hne). injection Hq as <-.
    now rewrite negb_true_iff, Qeq_bool_false_iff.
  - discriminate.
  - intros (q' & Hq & _). discriminate.
Qed.

(** X9. The handler changes the route document only together with the
    delivery of an order in progress that has a route, and only when the
    request carries a number of minutes other than zero: the change is then
    one [updateAverageTime] with those minutes, which counts one more
    completion.  With absent or zero minutes the route is never touched.
    When the answer is 200 for such a request and the route was found, the
    route has been updated. *)
Theorem X9_route_average_follows_delivery :
  forall found minutes feedback routeFound now fault,
    let out := markAsDeliveredHandler found minutes feedback routeFound now fault in
    (routeAfter out = routeFound \/
     exists order route m,
       found = Some order /\
       Order.status (OrderDoc.fields order) = "in-progress"%string /\
       hasRoute order = true /\
       minutes = Some m /\ ~ m == 0 /\
       routeFound = Some route /\
       routeAfter out = Some (RouteDoc.updateAverageTime route m) /\
       orderAfter out = Some (OrderDoc.markAsDelivered order minutes now) /\
       Route.totalCompletions (RouteDoc.fields (RouteDoc.updateAverageTime route m))
       = Route.totalCompletions (RouteDoc.fields route) + 1) /\
    (truthy minutes = false -> routeAfter out = routeFound) /\
    (forall order route m,
       replyCode (reply out) = 200%nat ->
       found = Some order -> hasRoute order = true ->
       minutes = Some m -> ~ m == 0 -> routeFound = Some route ->
       routeAfter out = Some (RouteDoc.updateAverageTime route m)).
Proof.
  intros found minutes feedback routeFound now fault out.
  split; [|split].
  - subst out. unfold markAsDeliveredHandler, deliveryFailed.
    destruct (isFault fault OrderLookupFails); [now left|].
    destruct found as [order|]; [|now left].
    destruct (String.eqb (Order.status (OrderDoc.fields order)) "in-progress") eqn:Hs;
      [|now left].
    apply String.eqb_eq in Hs. simpl.
    destruct (isFault fault OrderSaveFails); [now left|].
    destruct (feedback && isFault fault FeedbackSaveFails); [now left|].
    change (hasRoute (OrderDoc.markAsDelivered order minutes now))
      with (hasRoute order).
    destruct (hasRoute order) eqn:Hroute; simpl;
      [|destruct (isFault fault PopulateFails); now left].
    destruct (truthy minutes) eqn:Hm;
      [|destruct (isFault fault PopulateFails); now left].
    apply truthy_true_iff in Hm. destruct Hm as (m & -> & Hne).
    destruct (isFault fault RouteLookupFails); [now left|].
    destruct routeFound as [route|];
      [|destruct (isFault fault PopulateFails); now left].
    destruct (isFault fault RouteSaveFails); [now left|].
    right. exists order, route, m.
    destruct (isFault fault PopulateFails); simpl; repeat split; auto.
  - intros Hm. subst out. unfold markAsDeliveredHandler, deliveryFailed.
    rewrite Hm.
    destruct found as [order|]; [|destruct (isFault fault OrderLookupFails); reflexivity].
    rewrite andb_false_r.
    repeat match goal with
           | |- context [if ?b then _ else _] => destruct b
           | |- context [match ?x with Some _ => _ | None => _ end] => destruct x
           end; reflexivity.
  - intros order route m H200 -> Hroute -> Hne ->. revert H200.
    subst out. unfold markAsDeliveredHandler, deliveryFailed.
    change (hasRoute (OrderDoc.markAsDelivered order (Some m) now))
      with (hasRoute order).
    assert (Hm : truthy (Some m) = true) by (apply truthy_true_iff; eauto).
    rewrite Hroute, Hm. simpl.
    repeat match goal with
           | |- context [if ?b then _ else _] => destruct b
           end; simpl; try discriminate; reflexivity.
Qed.

Lemma X9_route_average_follows_delivery_witness :
  routeAfter
    (markAsDeliveredHandler (Some movingOrder) (Some 70) false
       (Some {| RouteDoc.fields := sampleRoute; RouteDoc.averageCompletionTime := 45 |})
       7200000 NoFault)
  = Some (RouteDoc.updateAverageTime
            {| RouteDoc.fields := sampleRoute; RouteDoc.averageCompletionTime := 45 |} 70).
Proof.
  destruct (X9_route_average_follows_delivery (Some movingOrder) (Some 70) false
              (Some {| RouteDoc.fields := sampleRoute;
                       RouteDoc.averageCompletionTime := 45 |})
              7200000 NoFault) as (_ & _ & Hupdated).
  apply (Hupdated movingOrder); try reflexivity.
  vm_compute. discriminate.
Defined.

(** ** The results of a run *)

Lemma simulationLoop_invariant_In drivers orders maxHours startTime now
  (P : LoopState -> Prop) :
  P (initialLoopState (simulationStart startTime now) drivers) ->
  (forall st order st',
     In order orders -> P st ->
     iteration maxHours (simulationStart startTime now) st order st' -> P st') ->
  exists st, simulationLoop drivers orders maxHours startTime now = Some st /\ P st.
Proof.
  intros Hinit Hstep. unfold simulationLoop.
  apply (assignOrders_invariant_In maxHours (simulationStart startTime now) P orders).
  - exact Hstep.
  - intros o Ho. eapply Permutation_in; [|exact Ho].
    apply Permutation_sym, Array_sort_perm.
  - exact Hinit.
Qed.

Lemma assignOrders_simulatedFrom maxHours start orders : forall st st',
  assignOrders maxHours start orders st = Some st' ->
  exists new,
    Results.orderResults (results st') = Results.orderResults (results st) ++ new /\
    simulatedFrom start orders new.
Proof.
  induction orders as [|order orders IH]; intros st st' Hrun; simpl in Hrun.
  - injection Hrun as <-. exists []. rewrite app_nil_r. split; constructor.
  - destruct (assignOrder_iteration maxHours start st order) as (st1 & Hstep & Hit).
    rewrite Hstep in Hrun.
    destruct (IH st1 st' Hrun) as (new & Hres & Hsim).
    destruct Hit as [Hnone | i ds route r Hfind Hnth Hr Hb Hsimd Ht].
    + exists new. split; [exact Hres|]. now constructor.
    + exists (r :: new). simpl in Hres. split.
      * rewrite Hres, <- app_assoc. reflexivity.
      * apply (simulated_assigned start order orders r new ds route Hr Hsimd Hsim).
Qed.

Lemma simulatedFrom_length start os rs :
  simulatedFrom start os rs -> (List.length rs <= List.length os)%nat.
Proof.
  induction 1; simpl; lia.
Qed.

Lemma simulatedFrom_no_route start os rs :
  simulatedFrom start os rs ->
  Forall (fun o => Order.assignedRoute o = None) os -> rs = [].
Proof.
  induction 1 as [|o os rs H IH|o os r rs ds route Hr Hsim H IH]; intros Hall.
  - reflexivity.
  - apply IH. now inversion Hall.
  - inversion Hall as [|? ? Ho _]. congruence.
Qed.

Lemma iteration_counters maxHours start st order st' :
  (let r := results st in
   Results.totalOrders r = List.length (Results.orderResults r) /\
   Results.onTimeDeliveries r
   = List.length (filter DeliveryResult.isOnTime (Results.orderResults r)) /\
   Results.lateDeliveries r
   = List.length (filter (fun x => negb (DeliveryResult.isOnTime x))
                    (Results.orderResults r))) ->
  iteration maxHours start st order st' ->
  (let r := results st' in
   Results.totalOrders r = List.length (Results.orderResults r) /\
   Results.onTimeDeliveries r
   = List.length (filter DeliveryResult.isOnTime (Results.orderResults r)) /\
   Results.lateDeliveries r
   = List.length (filter (fun x => negb (DeliveryResult.isOnTime x))
                    (Results.orderResults r))).
Proof.
  intros (Ht & Hon & Hlate) [Hnone | i ds route r Hfind Hnth Hr Hb Hsim Htime];
    [now repeat split|].
  simpl. rewrite !filter_app, !length_app. simpl.
  destruct (DeliveryResult.isOnTime r); simpl; rewrite Ht, Hon, Hlate;
    repeat split; lia.
Qed.

Lemma filter_partition_length {A : Type} (p : A -> bool) (l : list A) :
  (List.length (filter p l) + List.length (filter (fun x => negb (p x)) l)
   = List.length l)%nat.
Proof.
  induction l as [|x l IH]; simpl; [reflexivity|].
  destruct (p x); simpl; lia.
Qed.

Lemma performDeliverySimulation_orders :
  forall drivers orders maxHoursPerDriver startTime now,
  exists res,
    performDeliverySimulation drivers orders maxHoursPerDriver startTime now = Some res /\
    simulatedFrom (simulationStart startTime now) (Array_sort compareOrders orders)
      (Results.orderResults res) /\
    (List.length (Results.orderResults res) <= List.length orders)%nat /\
    (Forall (fun o => Order.assignedRoute o = None) orders ->
     Results.orderResults res = []).
Proof.
  intros drivers orders maxHours startTime now.
  destruct (performDeliverySimulation_total drivers orders maxHours startTime now)
    as (st & Hloop & Hperf).
  exists (finalizeResults orders maxHours st). split; [exact Hperf|].
  unfold simulationLoop in Hloop.
  destruct (assignOrders_simulatedFrom _ _ _ _ _ Hloop) as (new & Hres & Hsim).
  simpl in Hres. simpl. rewrite Hres.
  split; [exact Hsim|]. split.
  - rewrite (Permutation_length (Array_sort_perm compareOrders orders)).
    now apply simulatedFrom_length with (start := simulationStart startTime now).
  - intros Hall. eapply simulatedFrom_no_route; [exact Hsim|].
    eapply Permutation_Forall; [apply Array_sort_perm|exact Hall].
Qed.

(** X10. A run never fails, whatever the orders.  Its delivery results are
    simulations of orders of the sorted queue, in queue order: every order
    gives one result at most, and an order without a route gives none, so
    no more orders are reported than were given, and when no order has a
    route nothing is simulated. *)
Theorem X10_each_order_simulated_at_most_once :
  forall drivers orders maxHoursPerDriver startTime now,
  exists res,
    performDeliverySimulation drivers orders maxHoursPerDriver startTime now = Some res /\
    simulatedFrom (simulationStart startTime now) (Array_sort compareOrders orders)
      (Results.orderResults res) /\
    (List.length (Results.orderResults res) <= List.length orders)%nat /\
    (Forall (fun o => Order.assignedRoute o = None) orders ->
     Results.orderResults res = []).
Proof.
  exact performDeliverySimulation_orders.
Qed.

Lemma X10_each_order_simulated_at_most_once_witness :
  exists res,
    performDeliverySimulation [sampleDriver]
      [{| Order.orderId := "ORD601"; Order.valueRs := 100;
          Order.assignedRoute := None; Order.deliveryTimestamp := None;
          Order.scheduledDeliveryTime := Some 86400000;
          Order.status := "pending"; Order.priority := "urgent";
          Order.isHighValue := false |}] 8 None 0 = Some res /\
    Results.orderResults res = [].
Proof.
  destruct (X10_each_order_simulated_at_most_once [sampleDriver]
              [{| Order.orderId := "ORD601"; Order.valueRs := 100;
                  Order.assignedRoute := None; Order.deliveryTimestamp := None;
                  Order.scheduledDeliveryTime := Some 86400000;
                  Order.status := "pending"; Order.priority := "urgent";
                  Order.isHighValue := false |}] 8 None 0)
    as (res & Hrun & _ & _ & Hnone).
  exists res. split; [exact Hrun|]. apply Hnone. repeat constructor.
Defined.

Lemma performDeliverySimulation_counters :
  forall drivers orders maxHoursPerDriver startTime now,
  exists res,
    performDeliverySimulation drivers orders maxHoursPerDriver startTime now = Some res /\
    Results.totalOrders res = List.length (Results.orderResults res) /\
    Results.onTimeDeliveries res
    = List.length (filter DeliveryResult.isOnTime (Results.orderResults res)) /\
    Results.lateDeliveries res
    = List.length (filter (fun r => negb (DeliveryResult.isOnTime r))
                     (Results.orderResults res)) /\
    (Results.onTimeDeliveries res + Results.lateDeliveries res
     = Results.totalOrders res)%nat.
Proof.
  intros drivers orders maxHours startTime now.
  destruct (simulationLoop_invariant drivers orders maxHours startTime now
              (fun st =>
                 let r := results st in
                 Results.totalOrders r = List.length (Results.orderResults r) /\
                 Results.onTimeDeliveries r
                 = List.length (filter DeliveryResult.isOnTime (Results.orderResults r)) /\
                 Results.lateDeliveries r
                 = List.length (filter (fun x => negb (DeliveryResult.isOnTime x))
                                  (Results.orderResults r))))
    as (st & Hloop & Ht & Hon & Hlate).
  - simpl. auto.
  - intros st order st' H Hit. eapply iteration_counters; eauto.
  - exists (finalizeResults orders maxHours st). split.
    + unfold performDeliverySimulation. now rewrite Hloop.
    + simpl. repeat split; try assumption.
      rewrite Hon, Hlate, Ht. apply filter_partition_length.
Qed.

(** X11. In the results of every run the counters agree with the list of
    delivery results: [totalOrders] is its length, [onTimeDeliveries] the
    number of results that are on time, [lateDeliveries] the number of the
    others, so the two add up to [totalOrders]. *)
Theorem X11_counters_agree_with_results :
  forall drivers orders maxHoursPerDriver startTime now,
  exists res,
    performDeliverySimulation drivers orders maxHoursPerDriver startTime now = Some res /\
    Results.totalOrders res = List.length (Results.orderResults res) /\
    Results.onTimeDeliveries res
    = List.length (filter DeliveryResult.isOnTime (Results.orderResults res)) /\
    Results.lateDeliveries res
    = List.length (filter (fun r => negb (DeliveryResult.isOnTime r))
                     (Results.orderResults res)) /\
    (Results.onTimeDeliveries res + Results.lateDeliveries res
     = Results.totalOrders res)%nat.
Proof.
  exact performDeliverySimulation_counters.
Qed.

Lemma list_sum_Array_set {A : Type} (f : A -> nat) (l : list A) (i : nat) (x y : A) :
  nth_error l i = Some y -> f x = S (f y) ->
  list_sum (map f (Array_set l i x)) = S (list_sum (map f l)).
Proof.
  revert i. induction l as [|z l IH]; intros [|i] Hnth Hf; simpl in *; try discriminate.
  - injection Hnth as ->. lia.
  - rewrite (IH i Hnth Hf). lia.
Qed.

Lemma assignedCount_used dss :
  list_sum (map (fun ds => List.length (DriverState.assignedOrders ds))
              (filter hasAssignedOrders dss))
  = assignedCount dss.
Proof.
  unfold assignedCount, hasAssignedOrders.
  induction dss as [|ds dss IH]; simpl; [reflexivity|].
  destruct (DriverState.assignedOrders ds) as [|r l] eqn:E; simpl;
    rewrite ?E; simpl; lia.
Qed.

Lemma used_le_assignedCount dss :
  (List.length (filter hasAssignedOrders dss) <= assignedCount dss)%nat.
Proof.
  unfold assignedCount, hasAssignedOrders.
  induction dss as [|ds dss IH]; simpl; [lia|].
  destruct (DriverState.assignedOrders ds) as [|r l] eqn:E; simpl;
    rewrite ?E; simpl; lia.
Qed.

Lemma iteration_assignedCount maxHours start st order st' :
  Results.totalOrders (results st) = assignedCount (driverStates st) ->
  iteration maxHours start st order st' ->
  Results.totalOrders (results st') = assignedCount (driverStates st').
Proof.
  intros Hc [Hnone | i ds route r Hfind Hnth Hr Hb Hsim Htime]; [exact Hc|].
  simpl. unfold assignedCount.
  rewrite (list_sum_Array_set _ _ i _ ds Hnth).
  - now rewrite Hc.
  - simpl. rewrite length_app. simpl. lia.
Qed.

Lemma iteration_driverPerformance maxHours start st order st' :
  Results.driverPerformance (results st) = [] ->
  iteration maxHours start st order st' ->
  Results.driverPerformance (results st') = [].
Proof.
  intros Hc [Hnone | i ds route r Hfind Hnth Hr Hb Hsim Htime]; [exact Hc|].
  exact Hc.
Qed.

Lemma number_of_nat_le n m : (n <= m)%nat -> number_of_nat n <= number_of_nat m.
Proof.
  intros H. unfold number_of_nat. rewrite <- Zle_Qle. lia.
Qed.

Lemma number_of_nat_pos n : (0 < n)%nat -> 0 < number_of_nat n.
Proof.
  intros H. unfold number_of_nat. change 0 with (inject_Z 0).
  rewrite <- Zlt_Qlt. lia.
Qed.

Lemma number_of_nat_S n : number_of_nat (S n) == number_of_nat n + 1.
Proof.
  unfold number_of_nat. rewrite Nat2Z.inj_succ. unfold Z.succ.
  rewrite inject_Z_plus. reflexivity.
Qed.

Lemma percentage_range a b :
  0 <= a -> a <= b -> 0 < b -> 0 <= a / b * 100 /\ a / b * 100 <= 100.
Proof.
  intros Ha Hab Hb.
  assert (H0 : 0 <= a / b) by (apply Qle_shift_div_l; [exact Hb|lra]).
  assert (H1 : a / b <= 1) by (apply Qle_shift_div_r; [exact Hb|lra]).
  split.
  - setoid_replace 0 with (0 * 100) by reflexivity.
    apply Qmult_le_compat_r; [exact H0|discriminate].
  - setoid_replace 100 with (1 * 100) at 2 by reflexivity.
    apply Qmult_le_compat_r; [exact H1|discriminate].
Qed.

Lemma performDeliverySimulation_drivers :
  forall drivers orders maxHoursPerDriver startTime now,
  exists res,
    performDeliverySimulation drivers orders maxHoursPerDriver startTime now = Some res /\
    Results.driversUsed res = List.length (Results.driverPerformance res) /\
    (Results.driversUsed res <= List.length drivers)%nat /\
    (Results.driversUsed res <= Results.totalOrders res)%nat /\
    Forall (fun p =>
              (1 <= Performance.ordersCompleted p)%nat /\
              0 <= Performance.onTimeRate p /\ Performance.onTimeRate p <= 100 /\
              exists d, In d drivers /\
                        Performance.driverId p = Driver._id d /\
                        Performance.driverName p = Driver.name d)
      (Results.driverPerformance res) /\
    list_sum (map Performance.ordersCompleted (Results.driverPerformance res))
    = Results.totalOrders res.
Proof.
  intros drivers orders maxHours startTime now.
  destruct (simulationLoop_invariant drivers orders maxHours startTime now
              (fun st =>
                 Results.totalOrders (results st) = assignedCount (driverStates st) /\
                 Results.driverPerformance (results st) = [] /\
                 map DriverState.driver (driverStates st) = drivers))
    as (st & Hloop & Hcount & Hperf & Hdrivers).
  - repeat split.
    + unfold assignedCount. simpl. induction drivers; simpl; auto.
    + apply initial_drivers.
  - intros st order st' (Hc & Hp & Hd) Hit. repeat split.
    + eapply iteration_assignedCount; eauto.
    + eapply iteration_driverPerformance; eauto.
    + rewrite (iteration_drivers _ _ _ _ _ Hit). exact Hd.
  - exists (finalizeResults orders maxHours st). split.
    { unfold performDeliverySimulation. now rewrite Hloop. }
    simpl. rewrite Hperf. simpl. rewrite length_map.
    split; [reflexivity|]. split.
    { rewrite <- Hdrivers, length_map. apply filter_length_le. }
    split.
    { rewrite Hcount. apply used_le_assignedCount. }
    split.
    + apply Forall_map, Forall_forall. intros ds Hin.
      apply filter_In in Hin. destruct Hin as (Hin & Hused).
      unfold hasAssignedOrders in Hused. apply Nat.ltb_lt in Hused.
      simpl. split; [lia|].
      destruct (percentage_range
                  (number_of_nat (List.length
                     (filter DeliveryResult.isOnTime (DriverState.assignedOrders ds))))
                  (number_of_nat (List.length (DriverState.assignedOrders ds))))
        as (Hlo & Hhi).
      * change 0 with (number_of_nat 0). apply number_of_nat_le. lia.
      * apply number_of_nat_le, filter_length_le.
      * now apply number_of_nat_pos.
      * split; [exact Hlo|]. split; [exact Hhi|].
        exists (DriverState.driver ds). split; [|split; reflexivity].
        rewrite <- Hdrivers. now apply in_map.
    + rewrite map_map. simpl. rewrite Hcount. apply assignedCount_used.
Qed.

(** X12. The driver-performance list of a run has one entry for each driver
    that received a delivery: [driversUsed] is its length, it exceeds
    neither the number of drivers given nor the number of deliveries, every
    entry carries the id and name of a given driver, at least one completed
    order and an on-time rate between 0 and 100, and the completed orders of
    the entries add up to [totalOrders]. *)
Theorem X12_driver_performance_partitions_deliveries :
  forall drivers orders maxHoursPerDriver startTime now,
  exists res,
    performDeliverySimulation drivers orders maxHoursPerDriver startTime now = Some res /\
    Results.driversUsed res = List.length (Results.driverPerformance res) /\
    (Results.driversUsed res <= List.length drivers)%nat /\
    (Results.driversUsed res <= Results.totalOrders res)%nat /\
    Forall (fun p =>
              (1 <= Performance.ordersCompleted p)%nat /\
              0 <= Performance.onTimeRate p /\ Performance.onTimeRate p <= 100 /\
              exists d, In d drivers /\
                        Performance.driverId p = Driver._id d /\
                        Performance.driverName p = Driver.name d)
      (Results.driverPerformance res) /\
    list_sum (map Performance.ordersCompleted (Results.driverPerformance res))
    = Results.totalOrders res.
Proof.
  exact performDeliverySimulation_drivers.
Qed.

Lemma assignedMinutes_Array_set dss i ds r :
  nth_error dss i = Some ds ->
  assignedMinutes (Array_set dss i (assignDelivery ds r))
  == assignedMinutes dss + DeliveryResult.timeSpent r.
Proof.
  revert i. induction dss as [|z dss IH]; intros [|i] Hnth; simpl in *; try discriminate.
  - injection Hnth as ->. rewrite sumOf_app. lra.
  - rewrite (IH i Hnth). lra.
Qed.

Lemma hoursOf_minutes l : hoursOf l == sumOf DeliveryResult.timeSpent l / 60.
Proof.
  induction l as [|r l IH]; simpl.
  - reflexivity.
  - rewrite IH. field.
Qed.

Lemma assignedMinutes_bound maxHours dss :
  Forall (fun ds =>
            DriverState.assignedOrders ds <> [] ->
            sumOf DeliveryResult.timeSpent (DriverState.assignedOrders ds)
            <= maxHours * 60) dss ->
  assignedMinutes dss
  <= number_of_nat (List.length (filter hasAssignedOrders dss)) * maxHours * 60.
Proof.
  unfold hasAssignedOrders.
  induction 1 as [|ds dss Hds Hall IH]; simpl.
  - unfold number_of_nat. simpl. change (inject_Z 0) with 0. lra.
  - destruct (DriverState.assignedOrders ds) as [|r l] eqn:E.
    + simpl. lra.
    + assert (Hne : r :: l <> []) by discriminate.
      specialize (Hds Hne).
      change (0 <? List.length (r :: l))%nat with true. cbv iota.
      cbn [List.length]. rewrite number_of_nat_S. lra.
Qed.

Lemma round2_percentage x :
  0 <= x -> x <= 100 ->
  0 <= JS.Math_round (x * 100) / 100 /\ JS.Math_round (x * 100) / 100 <= 100.
Proof.
  intros H0 H1.
  assert (Hlo : 0 <= JS.Math_round (x * 100)) by (apply Math_round_nonneg; lra).
  assert (Hhi : JS.Math_round (x * 100) <= JS.Math_round 10000)
    by (apply Math_round_monotone; lra).
  assert (Hr : JS.Math_round 10000 == 10000) by (vm_compute; reflexivity).
  rewrite Hr in Hhi.
  split.
  - apply Qle_shift_div_l; [reflexivity|lra].
  - apply Qle_shift_div_r; [reflexivity|lra].
Qed.

Lemma iteration_totalTime maxHours start st order st' :
  OptimizationDetails.totalTime (Results.optimizationDetails (results st))
  == assignedMinutes (driverStates st) ->
  iteration maxHours start st order st' ->
  OptimizationDetails.totalTime (Results.optimizationDetails (results st'))
  == assignedMinutes (driverStates st').
Proof.
  intros Hc [Hnone | i ds route r Hfind Hnth Hr Hb Hsim Htime]; [exact Hc|].
  simpl. rewrite (assignedMinutes_Array_set _ _ _ r Hnth), Hc. reflexivity.
Qed.

Lemma iteration_totalTime_nonneg maxHours start st order st' :
  (forall route, Order.assignedRoute order = Some route -> 0 <= Route.baseTime route) ->
  0 <= OptimizationDetails.totalTime (Results.optimizationDetails (results st)) ->
  iteration maxHours start st order st' ->
  0 <= OptimizationDetails.totalTime (Results.optimizationDetails (results st')).
Proof.
  intros Hbase Hc [Hnone | i ds route r Hfind Hnth Hr Hb Hsim Htime]; [exact Hc|].
  simpl. rewrite Htime.
  assert (0 <= Route.getEstimatedTime route (Driver.getFatigueFactor (DriverState.driver ds))).
  { apply getEstimatedTime_nonneg; [now apply Hbase|].
    destruct (getFatigueFactor_range (DriverState.driver ds)). lra. }
  lra.
Qed.

Lemma iteration_totalOrders maxHours start st order st' :
  (Results.onTimeDeliveries (results st) <= Results.totalOrders (results st))%nat ->
  iteration maxHours start st order st' ->
  (Results.onTimeDeliveries (results st') <= Results.totalOrders (results st'))%nat.
Proof.
  intros Hc [Hnone | i ds route r Hfind Hnth Hr Hb Hsim Htime]; [exact Hc|].
  simpl. destruct (DeliveryResult.isOnTime r); lia.
Qed.

(** The state at the end of the assignment loop, for drivers whose shift
    hours are not negative and routes whose base time is not negative. *)
Lemma simulationLoop_minutes drivers orders maxHours startTime now :
  Forall (fun d => 0 <= Driver.currentShiftHours d) drivers ->
  Forall (fun o => forall route,
            Order.assignedRoute o = Some route -> 0 <= Route.baseTime route) orders ->
  exists st,
    simulationLoop drivers orders maxHours startTime now = Some st /\
    let totalTime :=
      OptimizationDetails.totalTime (Results.optimizationDetails (results st)) in
    0 <= totalTime /\
    totalTime
    <= number_of_nat (List.length (filter hasAssignedOrders (driverStates st)))
       * maxHours * 60 /\
    (Results.onTimeDeliveries (results st) <= Results.totalOrders (results st))%nat /\
    (Results.totalOrders (results st) <= List.length orders)%nat.
Proof.
  intros Hshift Hbase.
  destruct (simulationLoop_invariant_In drivers orders maxHours startTime now
              (fun st =>
                 Forall (fun ds => hoursAccounted ds /\ withinMaxHours maxHours ds)
                   (driverStates st) /\
                 map DriverState.driver (driverStates st) = drivers /\
                 OptimizationDetails.totalTime (Results.optimizationDetails (results st))
                 == assignedMinutes (driverStates st) /\
                 0 <= OptimizationDetails.totalTime
                        (Results.optimizationDetails (results st)) /\
                 (Results.onTimeDeliveries (results st)
                  <= Results.totalOrders (results st))%nat /\
                 Results.totalOrders (results st)
                 = List.length (Results.orderResults (results st))))
    as (st & Hloop & Hhours & Hdrivers & Htime & Hpos & Hon & Hlen).
  - split; [apply initial_hours|]. split; [apply initial_drivers|].
    simpl. split.
    + induction drivers as [|d drivers IH]; simpl; [reflexivity|].
      rewrite <- IH; [reflexivity|now inversion Hshift].
    + repeat split; try lra; lia.
  - intros st order st' Hin (Hh & Hd & Ht & Hp & Ho & Hl) Hit.
    split; [eapply iteration_hours; eauto|].
    split; [rewrite (iteration_drivers _ _ _ _ _ Hit); exact Hd|].
    split; [eapply iteration_totalTime; eauto|].
    split.
    { eapply iteration_totalTime_nonneg; eauto.
      rewrite Forall_forall in Hbase. now apply Hbase. }
    split; [eapply iteration_totalOrders; eauto|].
    destruct Hit as [Hnone | i ds route r Hfind Hnth Hr Hb Hsim Htime]; [exact Hl|].
    simpl. rewrite length_app, Hl. simpl. lia.
  - exists st. split; [exact Hloop|]. cbv zeta.
    split; [exact Hpos|]. split.
    + rewrite Htime. apply assignedMinutes_bound.
      rewrite Forall_forall in *. intros ds Hin Hne.
      destruct (Hhours ds Hin) as (Hacc & Hmax).
      specialize (Hmax Hne). unfold hoursAccounted in Hacc.
      assert (Hd : 0 <= Driver.currentShiftHours (DriverState.driver ds)).
      { apply Hshift. rewrite <- Hdrivers. now apply in_map. }
      rewrite hoursOf_minutes in Hacc.
      assert (Hdiv : sumOf DeliveryResult.timeSpent (DriverState.assignedOrders ds) / 60
                     <= maxHours) by lra.
      assert (Hmul : sumOf DeliveryResult.timeSpent (DriverState.assignedOrders ds)
                     == sumOf DeliveryResult.timeSpent (DriverState.assignedOrders ds)
                        / 60 * 60) by field.
      lra.
    + split; [exact Hon|].
      unfold simulationLoop in Hloop.
      destruct (assignOrders_simulatedFrom _ _ _ _ _ Hloop) as (new & Hres & Hsim).
      simpl in Hres. rewrite Hlen, Hres.
      rewrite (Permutation_length (Array_sort_perm compareOrders orders)).
      now apply simulatedFrom_length with (start := simulationStart startTime now).
Qed.

(** X13. For a non-empty list of orders, a positive hour budget, drivers
    whose shift hours are not negative and routes whose base time is not
    negative, the run reports a total time that is not negative and at most
    [driversUsed * maxHoursPerDriver * 60] minutes, and both the average
    utilization and the efficiency score lie between 0 and 100. *)
Theorem X13_efficiency_score_is_a_percentage
  drivers orders maxHoursPerDriver startTime now :
  orders <> [] ->
  0 < maxHoursPerDriver ->
  Forall (fun d => 0 <= Driver.currentShiftHours d) drivers ->
  Forall (fun o => forall route,
            Order.assignedRoute o = Some route -> 0 <= Route.baseTime route) orders ->
  exists res,
    performDeliverySimulation drivers orders maxHoursPerDriver startTime now = Some res /\
    let od := Results.optimizationDetails res in
    0 <= OptimizationDetails.totalTime od /\
    OptimizationDetails.totalTime od
    <= number_of_nat (Results.driversUsed res) * maxHoursPerDriver * 60 /\
    0 <= OptimizationDetails.averageUtilization od /\
    OptimizationDetails.averageUtilization od <= 100 /\
    0 <= Results.efficiencyScore res /\
    Results.efficiencyScore res <= 100.
Proof.
  intros Hne Hmax Hshift Hbase.
  destruct (simulationLoop_minutes drivers orders maxHoursPerDriver startTime now
              Hshift Hbase) as (st & Hloop & Hpos & Hbound & Hon & Hle).
  exists (finalizeResults orders maxHoursPerDriver st). split.
  { unfold performDeliverySimulation. now rewrite Hloop. }
  cbv zeta in Hpos, Hbound.
  set (used := List.length (filter hasAssignedOrders (driverStates st))) in *.
  set (totalTime :=
         OptimizationDetails.totalTime (Results.optimizationDetails (results st))) in *.
  assert (Hc : 0 <= number_of_nat (Results.totalOrders (results st))
                    / number_of_nat (List.length orders) * 100 /\
               number_of_nat (Results.totalOrders (results st))
               / number_of_nat (List.length orders) * 100 <= 100).
  { apply percentage_range.
    - change 0 with (number_of_nat 0). apply number_of_nat_le. lia.
    - now apply number_of_nat_le.
    - apply number_of_nat_pos. destruct orders; [congruence|simpl; lia]. }
  assert (Ho : 0 <= (if (0 <? Results.totalOrders (results st))%nat
                     then number_of_nat (Results.onTimeDeliveries (results st))
                          / number_of_nat (Results.totalOrders (results st)) * 100
                     else 0) /\
               (if (0 <? Results.totalOrders (results st))%nat
                then number_of_nat (Results.onTimeDeliveries (results st))
                     / number_of_nat (Results.totalOrders (results st)) * 100
                else 0) <= 100).
  { destruct (0 <? Results.totalOrders (results st))%nat eqn:E; [|split; lra].
    apply Nat.ltb_lt in E. apply percentage_range.
    - change 0 with (number_of_nat 0). apply number_of_nat_le. lia.
    - now apply number_of_nat_le.
    - now apply number_of_nat_pos. }
  assert (Hu : 0 <= (if (0 <? used)%nat
                     then totalTime / (number_of_nat used * maxHoursPerDriver * 60) * 100
                     else 0) /\
               (if (0 <? used)%nat
                then totalTime / (number_of_nat used * maxHoursPerDriver * 60) * 100
                else 0) <= 100).
  { destruct (0 <? used)%nat eqn:E; [|split; lra].
    apply Nat.ltb_lt in E. apply percentage_range; [exact Hpos|exact Hbound|].
    apply number_of_nat_pos in E.
    assert (0 < number_of_nat used * maxHoursPerDriver)
      by (apply Qmult_lt_0_compat; assumption).
    lra. }
  simpl. fold used. fold totalTime.
  destruct Hc as (Hc0 & Hc1), Ho as (Ho0 & Ho1), Hu as (Hu0 & Hu1).
  split; [exact Hpos|]. split; [exact Hbound|].
  destruct (round2_percentage _ Hu0 Hu1) as (Ha0 & Ha1).
  split; [exact Ha0|]. split; [exact Ha1|].
  apply round2_percentage; lra.
Qed.

Lemma X13_efficiency_score_is_a_percentage_witness :
  exists res,
    performDeliverySimulation [sampleDriver] [sampleOrder] 8 None 0 = Some res /\
    0 <= Results.efficiencyScore res /\ Results.efficiencyScore res <= 100.
Proof.
  destruct (X13_efficiency_score_is_a_percentage [sampleDriver] [sampleOrder] 8 None 0)
    as (res & Hrun & _ & _ & _ & _ & Hlo & Hhi).
  - discriminate.
  - reflexivity.
  - repeat constructor. vm_compute. discriminate.
  - repeat constructor. intros route H. injection H as <-. vm_compute. discriminate.
  - exists res. repeat split; assumption.
Defined.

(** ** The timeline of a driver *)

Lemma backToBack_app t l r :
  backToBack t l ->
  DeliveryResult.actualDeliveryTime r
  == t + sumOf DeliveryResult.timeSpent l * 60 * 1000
     + DeliveryResult.timeSpent r * 60 * 1000 ->
  backToBack t (l ++ [r]).
Proof.
  revert t. induction l as [|x l IH]; intros t Hl Hr; simpl in *.
  - split; [lra|exact I].
  - destruct Hl as (Hx & Hl). split; [exact Hx|].
    apply IH; [exact Hl|]. lra.
Qed.

Lemma simulateDelivery_times ds order start r :
  simulateDelivery ds order start = Some r ->
  DeliveryResult.actualDeliveryTime r
  = DriverState.currentTime ds + DeliveryResult.timeSpent r * 60 * 1000 /\
  DeliveryResult.scheduledTime r = Order.scheduledDeliveryTime order /\
  DeliveryResult.isOnTime r
  = match DeliveryResult.scheduledTime r with
    | Some scheduled => JS.leb (DeliveryResult.actualDeliveryTime r) scheduled
    | None => false
    end.
Proof.
  unfold simulateDelivery.
  destruct (Order.assignedRoute order) as [route|]; [|discriminate].
  intros H. injection H as <-. simpl. repeat split.
Qed.

Lemma iteration_timeline maxHours start st order st' :
  Forall (fun ds =>
            backToBack start (DriverState.assignedOrders ds) /\
            DriverState.currentTime ds
            == start + sumOf DeliveryResult.timeSpent (DriverState.assignedOrders ds)
                       * 60 * 1000) (driverStates st) ->
  iteration maxHours start st order st' ->
  Forall (fun ds =>
            backToBack start (DriverState.assignedOrders ds) /\
            DriverState.currentTime ds
            == start + sumOf DeliveryResult.timeSpent (DriverState.assignedOrders ds)
                       * 60 * 1000) (driverStates st').
Proof.
  intros Hall [Hnone | i ds route r Hfind Hnth Hr Hb Hsim Htime]; [exact Hall|].
  simpl. apply Array_set_Forall; [exact Hall|].
  destruct (Forall_nth_error _ _ _ _ Hall Hnth) as (Hbb & Hcur).
  destruct (simulateDelivery_times _ _ _ _ Hsim) as (Hadt & _).
  simpl. split.
  - apply backToBack_app; [exact Hbb|]. rewrite Hadt, Hcur. reflexivity.
  - rewrite sumOf_app, Hcur. ring.
Qed.

Lemma iteration_onTime maxHours start st order st' :
  Forall (fun r =>
            DeliveryResult.isOnTime r = true <->
            exists scheduled,
              DeliveryResult.scheduledTime r = Some scheduled /\
              DeliveryResult.actualDeliveryTime r <= scheduled)
    (Results.orderResults (results st)) ->
  iteration maxHours start st order st' ->
  Forall (fun r =>
            DeliveryResult.isOnTime r = true <->
            exists scheduled,
              DeliveryResult.scheduledTime r = Some scheduled /\
              DeliveryResult.actualDeliveryTime r <= scheduled)
    (Results.orderResults (results st')).
Proof.
  intros Hall [Hnone | i ds route r Hfind Hnth Hr Hb Hsim Htime]; [exact Hall|].
  simpl. apply Forall_app. split; [exact Hall|]. constructor; [|constructor].
  destruct (simulateDelivery_times _ _ _ _ Hsim) as (_ & _ & Hon).
  rewrite Hon. destruct (DeliveryResult.scheduledTime r) as [s|].
  - rewrite leb_true_iff. split.
    + intros H. exists s. split; [reflexivity|exact H].
    + intros (s' & Hs & H). injection Hs as <-. exact H.
  - split; [discriminate|]. intros (s' & Hs & _). discriminate.
Qed.

(** X14. At the end of the assignment loop of every run, the deliveries of
    each driver follow one another from the simulation start on: every
    delivery ends [timeSpent] minutes after the end of the driver's previous
    one (the first after the simulation start), and the driver's clock
    stands at the simulation start plus the minutes of all the driver's
    deliveries.  A delivery is on time exactly when the order has a valid
    scheduled time and the delivery does not end after it. *)
Theorem X14_deliveries_of_a_driver_are_back_to_back :
  forall drivers orders maxHoursPerDriver startTime now,
  exists st,
    simulationLoop drivers orders maxHoursPerDriver startTime now = Some st /\
    Forall (fun ds =>
              backToBack (simulationStart startTime now)
                (DriverState.assignedOrders ds) /\
              DriverState.currentTime ds
              == simulationStart startTime now
                 + sumOf DeliveryResult.timeSpent (DriverState.assignedOrders ds)
                   * 60 * 1000)
      (driverStates st) /\
    Forall (fun r =>
              DeliveryResult.isOnTime r = true <->
              exists scheduled,
                DeliveryResult.scheduledTime r = Some scheduled /\
                DeliveryResult.actualDeliveryTime r <= scheduled)
      (Results.orderResults (results st)).
Proof.
  intros drivers orders maxHours startTime now.
  apply (simulationLoop_invariant drivers orders maxHours startTime now
           (fun st =>
              Forall (fun ds =>
                        backToBack (simulationStart startTime now)
                          (DriverState.assignedOrders ds) /\
                        DriverState.currentTime ds
                        == simulationStart startTime now
                           + sumOf DeliveryResult.timeSpent
                               (DriverState.assignedOrders ds) * 60 * 1000)
                (driverStates st) /\
              Forall (fun r =>
                        DeliveryResult.isOnTime r = true <->
                        exists scheduled,
                          DeliveryResult.scheduledTime r = Some scheduled /\
                          DeliveryResult.actualDeliveryTime r <= scheduled)
                (Results.orderResults (results st)))).
  - split; [|constructor]. simpl.
    apply Forall_map, Forall_forall. intros d _. simpl. split; [exact I|lra].
  - intros st order st' (Ht & Ho) Hit. split.
    + eapply iteration_timeline; eauto.
    + eapply iteration_onTime; eauto.
Qed.

(** ** The driver score and the choice of a driver *)

Lemma Math_min_range x : 0 <= x -> 0 <= JS.Math_min x 10 /\ JS.Math_min x 10 <= 10.
Proof.
  intros H. unfold JS.Math_min. split.
  - apply Q.min_glb; [exact H|discriminate].
  - apply Q.le_min_r.
Qed.

Lemma calculateDriverScore_bounds ds order route :
  0 <= Route.totalCompletions route ->
  baseScore ds - 35 <= calculateDriverScore ds order route /\
  calculateDriverScore ds order route <= baseScore ds + 10 /\
  (Order.isHighValue order = false ->
   baseScore ds - 15 <= calculateDriverScore ds order route).
Proof.
  intros Hc. unfold calculateDriverScore, baseScore.
  destruct (getFatigueFactor_range (DriverState.driver ds)) as (Hf1 & Hf2).
  destruct (Math_min_range (Route.totalCompletions route * 0.1)) as (Hm0 & Hm1); [lra|].
  destruct (Order.isHighValue order); cbn [andb].
  - destruct (JS.ltb (Driver.rating (DriverState.driver ds)) 4.5);
      repeat split; intros; try discriminate; lra.
  - repeat split; intros; lra.
Qed.

(** X15. The score of a driver for an order is the base score
    [rating * 20 + (8 - currentHours) * 5] changed by at most 35 points
    down (15 when the order is not high-value) and 10 points up, for a route
    with a non-negative number of completions; and between two states of
    the same driver the score differs by exactly 5 points per hour of
    workload, so work assigned to a driver lowers the driver's score for
    every later order. *)
Theorem X15_driver_score_falls_with_workload ds order route :
  0 <= Route.totalCompletions route ->
  baseScore ds - 35 <= calculateDriverScore ds order route /\
  calculateDriverScore ds order route <= baseScore ds + 10 /\
  (Order.isHighValue order = false ->
   baseScore ds - 15 <= calculateDriverScore ds order route) /\
  forall ds',
    DriverState.driver ds' = DriverState.driver ds ->
    calculateDriverScore ds order route - calculateDriverScore ds' order route
    == 5 * (DriverState.currentHours ds' - DriverState.currentHours ds).
Proof.
  intros Hc.
  destruct (calculateDriverScore_bounds ds order route Hc) as (Hlo & Hhi & Hlow).
  split; [exact Hlo|]. split; [exact Hhi|]. split; [exact Hlow|].
  intros ds' Hd. unfold calculateDriverScore. rewrite Hd.
  destruct (Order.isHighValue order && JS.ltb (Driver.rating (DriverState.driver ds)) 4.5);
    ring.
Qed.

Lemma X15_driver_score_falls_with_workload_witness :
  calculateDriverScore (DriverState.init 0 sampleDriver) sampleOrder sampleRoute
  <= baseScore (DriverState.init 0 sampleDriver) + 10.
Proof.
  destruct (X15_driver_score_falls_with_workload
              (DriverState.init 0 sampleDriver) sampleOrder sampleRoute)
    as (_ & Hhi & _).
  - vm_compute. discriminate.
  - exact Hhi.
Defined.

(** X16. For an order with a route that is not high-value, a route with a
    non-negative number of completions and driver states with a rating of
    at least 1 and at most 8 cumulative hours, [findOptimalDriver] returns
    nothing exactly when no driver state is within the hour budget;
    otherwise it returns a driver state of the array that is within budget,
    whose score no driver state within budget exceeds and no earlier one
    equals. *)
Theorem X16_order_dropped_only_when_no_driver_within_budget
  dss order route maxHoursPerDriver :
  Order.assignedRoute order = Some route ->
  Order.isHighValue order = false ->
  0 <= Route.totalCompletions route ->
  Forall (fun ds => 1 <= Driver.rating (DriverState.driver ds) /\
                    DriverState.currentHours ds <= 8) dss ->
  (findOptimalDriver dss order maxHoursPerDriver = None <->
   Forall (fun ds => withinBudget ds route maxHoursPerDriver = false) dss) /\
  forall i ds,
    findOptimalDriver dss order maxHoursPerDriver = Some (i, ds) ->
    nth_error dss i = Some ds /\
    withinBudget ds route maxHoursPerDriver = true /\
    forall j ds',
      nth_error dss j = Some ds' ->
      withinBudget ds' route maxHoursPerDriver = true ->
      calculateDriverScore ds' order route <= calculateDriverScore ds order route /\
      ((j < i)%nat ->
       calculateDriverScore ds' order route < calculateDriverScore ds order route).
Proof.
  intros Hr Hv Hc Hall.
  assert (Hscore : forall ds, In ds dss -> -1 < calculateDriverScore ds order route).
  { intros ds Hin. rewrite Forall_forall in Hall.
    destruct (Hall ds Hin) as (Hrating & Hhours).
    destruct (calculateDriverScore_bounds ds order route Hc) as (_ & _ & Hlow).
    specialize (Hlow Hv). unfold baseScore in Hlow. lra. }
  destruct (findOptimalDriver_spec dss order route maxHoursPerDriver Hr)
    as [(Hnone & Hlow) | (i & ds & Hsome & Hnth & Hb & Hs & Hmax & Hfirst)].
  - split.
    + split; [|intros _; exact Hnone].
      intros _. apply Forall_forall. intros ds Hin.
      destruct (withinBudget ds route maxHoursPerDriver) eqn:E; [|reflexivity].
      destruct (In_nth_error _ _ Hin) as (j & Hj).
      specialize (Hlow j ds Hj E). specialize (Hscore ds Hin). lra.
    + intros i ds H. congruence.
  - split.
    + split; [intros H; congruence|].
      intros Hno. rewrite Forall_forall in Hno.
      apply nth_error_In in Hnth. specialize (Hno ds Hnth). congruence.
    + intros i' ds' H. rewrite Hsome in H. injection H as <- <-.
      split; [exact Hnth|]. split; [exact Hb|].
      intros j ds' Hj Hbj. split; [now apply (Hmax j)|].
      intros Hlt. now apply (Hfirst j).
Qed.

Lemma X16_order_dropped_only_when_no_driver_within_budget_witness :
  findOptimalDriver [DriverState.init 0 freshDriver] (hourOrder "ORD101") 8 <> None.
Proof.
  destruct (X16_order_dropped_only_when_no_driver_within_budget
              [DriverState.init 0 freshDriver] (hourOrder "ORD101") hourRoute 8) as ((Hnone & _) & _).
  - reflexivity.
  - reflexivity.
  - vm_compute. discriminate.
  - repeat constructor; vm_compute; discriminate.
  - intros H. apply Hnone in H. inversion H as [|? ? Hb _]. vm_compute in Hb. discriminate.
Defined.

(** ** The cache of the last results *)

(** X17. A call of [runSimulation] answers 200, 400, 409 or 500.  It
    answers 200 only to a request with valid parameters that found the
    flag clear; the answer then carries what [performDeliverySimulation]
    returns for the drivers and the orders that the two queries found
    (neither list empty) with the validated hour budget and the start time
    of the request, together with the time of the run and the parameters of
    the request; the same value is stored as the last results, and
    [getSimulationStatus] reports no run in progress and these results.
    Any other answer carries no data and leaves the last results as they
    were. *)
Theorem X17_results_cached_only_on_success st body w resp st' :
  runSimulation st body w = (resp, st') ->
  (statusCode resp = 200 \/ statusCode resp = 400 \/
   statusCode resp = 409 \/ statusCode resp = 500)%nat /\
  (statusCode resp = 200%nat ->
   validParameters body = true /\
   simulationInProgress st = false /\
   (exists n m drivers orders res,
      withinRange (numberOfDrivers body) 1 50 = Some n /\
      withinRange (maxHoursPerDriver body) 1 24 = Some m /\
      findActiveDrivers w n = Some drivers /\ drivers <> [] /\
      findPendingOrders w = Some orders /\ orders <> [] /\
      performDeliverySimulation drivers orders m (startTime body) (now w) = Some res /\
      data resp
      = Some {| cachedResults := res; timestamp := now w; parameters := body |}) /\
   simulationResults st' = data resp /\
   getSimulationStatus st' = (false, data resp)) /\
  (statusCode resp <> 200%nat ->
   data resp = None /\ simulationResults st' = simulationResults st).
Proof.
  unfold validParameters. revert resp st'. run_cases;
    intros resp st' Hrun; injection Hrun as <- <-; simpl;
    (split; [auto|]); (split; [intros Hq; try discriminate Hq | intros Hq]);
    try (split; reflexivity); try (exfalso; apply Hq; reflexivity).
  split; [reflexivity|]. split; [reflexivity|]. split.
  - do 5 eexists. split; [reflexivity|]. split; [reflexivity|].
    split; [eassumption|]. split.
    + intros ->. discriminate.
    + split; [reflexivity|]. split.
      * intros ->. discriminate.
      * split; [eassumption|reflexivity].
  - split; reflexivity.
Qed.

Lemma X17_results_cached_only_on_success_witness :
  exists cached,
    getSimulationStatus (snd (runSimulation initialModuleState goodBody sampleWorld))
    = (false, Some cached) /\
    performDeliverySimulation [sampleDriver] [sampleOrder] 8 None 0
    = Some (cachedResults cached).
Proof.
  destruct (runSimulation initialModuleState goodBody sampleWorld) as [resp st'] eqn:Hrun.
  destruct (X17_results_cached_only_on_success initialModuleState goodBody sampleWorld
              resp st' Hrun) as (_ & Hok & _).
  assert (Hcode : statusCode resp = 200%nat).
  { vm_compute in Hrun. injection Hrun as <- _. reflexivity. }
  destruct (Hok Hcode)
    as (_ & _ & (n & m & drivers & orders & res & Hn & Hm & Hd & _ & Ho & _ & Hp & Hdata)
        & _ & Hstatus).
  simpl. rewrite Hstatus, Hdata. eexists. split; [reflexivity|].
  simpl. injection Hn as <-. injection Hm as <-.
  injection Hd as <-. injection Ho as <-. exact Hp.
Defined.

(** ** The drivers and orders of a run *)

Lemma compareDrivers_le a b :
  compareDrivers a b <= 0 <->
  Driver.currentShiftHours a < Driver.currentShiftHours b \/
  (Driver.currentShiftHours a == Driver.currentShiftHours b /\
   Driver.rating b <= Driver.rating a).
Proof.
  unfold compareDrivers.
  destruct (Qeq_bool (Driver.currentShiftHours a) (Driver.currentShiftHours b)) eqn:E;
    simpl.
  - apply Qeq_bool_iff in E. split.
    + intros H. right. split; [exact E|lra].
    + intros [H|(_ & H)]; lra.
  - apply Qeq_bool_false_iff in E. split.
    + intros H. left. destruct (Qlt_le_dec (Driver.currentShiftHours a)
                                  (Driver.currentShiftHours b)) as [Hlt|Hge];
        [exact Hlt|].
      exfalso. apply E. lra.
    + intros [H|(H & _)]; [lra|contradiction].
Qed.

Lemma compareDrivers_antisym a b : 0 < compareDrivers a b -> compareDrivers b a <= 0.
Proof.
  intros H. apply compareDrivers_le.
  destruct (Qlt_le_dec (Driver.currentShiftHours b) (Driver.currentShiftHours a))
    as [Hlt|Hge]; [now left|].
  destruct (Qlt_le_dec (Driver.currentShiftHours a) (Driver.currentShiftHours b))
    as [Hlt'|Hge'].
  - assert (Hle : compareDrivers a b <= 0) by (apply compareDrivers_le; now left).
    lra.
  - right. split; [lra|].
    destruct (Qlt_le_dec (Driver.rating b) (Driver.rating a)) as [Hr|Hr]; [|exact Hr].
    assert (Hle : compareDrivers a b <= 0).
    { apply compareDrivers_le. right. split; lra. }
    lra.
Qed.

Lemma compareDrivers_trans a b c :
  compareDrivers a b <= 0 -> compareDrivers b c <= 0 -> compareDrivers a c <= 0.
Proof.
  rewrite !compareDrivers_le.
  intros [H1|(H1 & R1)] [H2|(H2 & R2)].
  - left. lra.
  - left. lra.
  - left. lra.
  - right. split; lra.
Qed.

Lemma StronglySorted_app_inv_le {A : Type} (R : A -> A -> Prop) (l1 l2 : list A) :
  StronglySorted R (l1 ++ l2) ->
  forall x y, In x l1 -> In y l2 -> R x y.
Proof.
  induction l1 as [|a l1 IH]; simpl; intros Hs x y Hx Hy; [contradiction|].
  apply StronglySorted_inv in Hs. destruct Hs as (Hs & Hall).
  destruct Hx as [<-|Hx].
  - rewrite Forall_forall in Hall. apply Hall. apply in_or_app. now right.
  - now apply IH.
Qed.

Lemma firstn_In {A : Type} (n : nat) (l : list A) (x : A) :
  In x (firstn n l) -> In x l.
Proof.
  intros H. rewrite <- (firstn_skipn n l). apply in_or_app. now left.
Qed.

Lemma StronglySorted_firstn {A : Type} (R : A -> A -> Prop) (n : nat) (l : list A) :
  StronglySorted R l -> StronglySorted R (firstn n l).
Proof.
  intros Hs. revert n. induction Hs as [|a l Hs IH Hall]; intros [|n]; simpl;
    try constructor.
  - apply IH.
  - rewrite Forall_forall in *. intros x Hx. apply Hall.
    eapply firstn_In. exact Hx.
Qed.

Lemma findActiveDrivers_selection w limit selected :
  findActiveDrivers w limit = Some selected ->
  (List.length selected <= Z.to_nat (Qfloor limit))%nat /\
  Forall (fun d => In d (driverCollection (db w)) /\
                   Driver.status d = "active"%string) selected /\
  StronglySorted (fun a b => compareDrivers a b <= 0) selected /\
  exists rest,
    Permutation (selected ++ rest)
      (filter (fun d => String.eqb (Driver.status d) "active")
         (driverCollection (db w))) /\
    forall d d', In d selected -> In d' rest -> compareDrivers d d' <= 0.
Proof.
  unfold findActiveDrivers. destruct (driverQueryFails w); [discriminate|].
  intros H. injection H as <-.
  set (active := filter (fun d => String.eqb (Driver.status d) "active")
                   (driverCollection (db w))).
  set (sorted := Array_sort compareDrivers active).
  assert (Hsorted : StronglySorted (fun a b => compareDrivers a b <= 0) sorted).
  { apply Array_sort_sorted; [apply compareDrivers_antisym|apply compareDrivers_trans]. }
  split; [apply firstn_le_length|]. split.
  - apply Forall_forall. intros d Hd.
    apply firstn_In in Hd.
    apply (Permutation_in d (Permutation_sym (Array_sort_perm compareDrivers active)))
      in Hd.
    apply filter_In in Hd. destruct Hd as (Hin & Hs).
    split; [exact Hin|]. now apply String.eqb_eq.
  - split; [now apply StronglySorted_firstn|].
    exists (skipn (Z.to_nat (Qfloor limit)) sorted). split.
    + rewrite firstn_skipn. apply Permutation_sym, Array_sort_perm.
    + apply StronglySorted_app_inv_le. rewrite firstn_skipn. exact Hsorted.
Qed.

(** X18. The driver query of [runSimulation] returns at most
    [numberOfDrivers] documents, all of them active drivers of the
    collection, ordered by shift hours ascending and, among equal shift
    hours, by rating descending; the active drivers left out come after all
    the selected ones in that order, so none of them has fewer shift hours
    than a selected driver. *)
Theorem X18_least_worked_active_drivers_selected w limit selected :
  findActiveDrivers w limit = Some selected ->
  (List.length selected <= Z.to_nat (Qfloor limit))%nat /\
  Forall (fun d => In d (driverCollection (db w)) /\
                   Driver.status d = "active"%string) selected /\
  StronglySorted
    (fun a b =>
       Driver.currentShiftHours a < Driver.currentShiftHours b \/
       (Driver.currentShiftHours a == Driver.currentShiftHours b /\
        Driver.rating b <= Driver.rating a)) selected /\
  exists rest,
    Permutation (selected ++ rest)
      (filter (fun d => String.eqb (Driver.status d) "active")
         (driverCollection (db w))) /\
    forall d d', In d selected -> In d' rest ->
                 Driver.currentShiftHours d <= Driver.currentShiftHours d'.
Proof.
  intros H.
  destruct (findActiveDrivers_selection w limit selected H)
    as (Hlen & Hall & Hsorted & rest & Hperm & Hrest).
  split; [exact Hlen|]. split; [exact Hall|]. split.
  - eapply StronglySorted_impl; [|exact Hsorted].
    intros x y Hxy. now apply compareDrivers_le.
  - exists rest. split; [exact Hperm|].
    intros d d' Hd Hd'. specialize (Hrest d d' Hd Hd').
    apply compareDrivers_le in Hrest. destruct Hrest as [Hlt|(Heq & _)]; lra.
Qed.

Lemma X18_least_worked_active_drivers_selected_witness :
  (List.length [freshDriver]
   <= Z.to_nat (Qfloor 1))%nat.
Proof.
  apply (X18_least_worked_active_drivers_selected
           {| db := {| driverCollection := [tiredDriver; freshDriver];
                       orderCollection := [] |};
              now := 0; driverQueryFails := false; orderQueryFails := false |}
           1 [freshDriver]).
  vm_compute. reflexivity.
Defined.

Lemma simulateDelivery_orderId ds order start r :
  simulateDelivery ds order start = Some r ->
  DeliveryResult.orderId r = Order.orderId order.
Proof.
  unfold simulateDelivery.
  destruct (Order.assignedRoute order) as [route|]; [|discriminate].
  intros H. injection H as <-. reflexivity.
Qed.

(** X19. When [runSimulation] answers with results, the run used at most
    [numberOfDrivers] drivers; every entry of the driver performance is for
    an active driver of the collection, every delivery result for a pending
    order of the collection, and no more orders are reported than the
    collection has pending orders. *)
Theorem X19_run_uses_active_drivers_and_pending_orders st body w resp st' cached :
  runSimulation st body w = (resp, st') ->
  data resp = Some cached ->
  let res := cachedResults cached in
  (exists n, numberOfDrivers body = Some n /\
             number_of_nat (Results.driversUsed res) <= n) /\
  Forall (fun p => exists d,
            In d (driverCollection (db w)) /\
            Driver.status d = "active"%string /\
            Performance.driverId p = Driver._id d /\
            Performance.driverName p = Driver.name d)
    (Results.driverPerformance res) /\
  Forall (fun r => exists o,
            In o (orderCollection (db w)) /\
            Order.status o = "pending"%string /\
            DeliveryResult.orderId r = Order.orderId o)
    (Results.orderResults res) /\
  (Results.totalOrders res
   <= List.length (filter (fun o => String.eqb (Order.status o) "pending")
                     (orderCollection (db w))))%nat.
Proof.
  revert resp st'. run_cases; intros resp st' Hrun; injection Hrun as <- <-;
    simpl; intros Hdata; try discriminate Hdata.
  injection Hdata as <-. simpl.
  match goal with
  | Hd : findActiveDrivers w ?n = Some ?ds,
    Ho : findPendingOrders w = Some ?os,
    Hp : performDeliverySimulation ?ds ?os ?m _ _ = Some ?res,
    Hn : withinRange (numberOfDrivers body) 1 50 = Some ?n |- _ =>
      rename Hd into Hdrivers; rename Ho into Horders; rename Hp into Hperf;
      rename Hn into Hrange; rename ds into drivers; rename os into orders;
      rename n into limit; rename m into maxHours; rename res into results0
  end.
  destruct (findActiveDrivers_selection w limit drivers Hdrivers)
    as (Hlen & Hactive & _ & _).
  destruct (performDeliverySimulation_drivers drivers orders maxHours
              (startTime body) (now w))
    as (res1 & Hrun1 & _ & Hused & _ & Hentries & _).
  destruct (performDeliverySimulation_orders drivers orders maxHours
              (startTime body) (now w))
    as (res2 & Hrun2 & _ & Hcount & _).
  destruct (performDeliverySimulation_counters drivers orders maxHours
              (startTime body) (now w))
    as (res3 & Hrun3 & Htotal & _).
  rewrite Hperf in Hrun1, Hrun2, Hrun3.
  injection Hrun1 as <-. injection Hrun2 as <-. injection Hrun3 as <-.
  assert (Hlimit : numberOfDrivers body = Some limit /\ 1 <= limit).
  { unfold withinRange in Hrange.
    destruct (numberOfDrivers body) as [q|]; [|discriminate].
    destruct (Qeq_bool q 0 || JS.ltb q 1 || JS.gtb q 50) eqn:E; [discriminate|].
    injection Hrange as <-. split; [reflexivity|].
    apply orb_false_iff in E. destruct E as (E & _).
    apply orb_false_iff in E. destruct E as (_ & E).
    unfold JS.ltb in E. apply negb_false_iff in E. now apply Qle_bool_iff in E. }
  destruct Hlimit as (Hbody & Hone).
  split.
  { exists limit. split; [exact Hbody|].
    apply Qle_trans with (number_of_nat (Z.to_nat (Qfloor limit))).
    - apply number_of_nat_le. lia.
    - unfold number_of_nat. rewrite Z2Nat.id.
      + apply Qfloor_le.
      + change 0%Z with (Qfloor 0). apply Qfloor_resp_le. lra. }
  split.
  { eapply Forall_impl; [|exact Hentries].
    intros p (_ & _ & _ & d & Hin & Hid & Hname).
    rewrite Forall_forall in Hactive. destruct (Hactive d Hin) as (Hdb & Hs).
    exists d. auto. }
  assert (Hpending : orders
                     = filter (fun o => String.eqb (Order.status o) "pending")
                         (orderCollection (db w))).
  { unfold findPendingOrders in Horders.
    destruct (orderQueryFails w); [discriminate|]. now injection Horders as <-. }
  split.
  - destruct (simulationLoop_results drivers orders maxHours (startTime body) (now w))
      as (stl & Hloop & Hres).
    unfold performDeliverySimulation in Hperf. rewrite Hloop in Hperf.
    injection Hperf as <-. simpl.
    eapply Forall_impl; [|exact Hres].
    intros r (o & ds & Hin & Hsim).
    destruct (findPendingOrders_pending w orders o Horders Hin) as (Hdb & Hs).
    exists o. split; [exact Hdb|]. split; [exact Hs|].
    eapply simulateDelivery_orderId; eauto.
  - rewrite Htotal, <- Hpending. exact Hcount.
Qed.

Lemma X19_run_uses_active_drivers_and_pending_orders_witness :
  exists cached,
    data (fst (runSimulation initialModuleState goodBody sampleWorld)) = Some cached /\
    (Results.totalOrders (cachedResults cached) <= 1)%nat.
Proof.
  destruct (runSimulation initialModuleState goodBody sampleWorld) as [resp st'] eqn:Hrun.
  assert (Hdata : exists cached, data resp = Some cached).
  { vm_compute in Hrun. injection Hrun as <- _. eexists. reflexivity. }
  destruct Hdata as (cached & Hdata).
  destruct (X19_run_uses_active_drivers_and_pending_orders
              initialModuleState goodBody sampleWorld resp st' cached Hrun Hdata)
    as (_ & _ & _ & Hle).
  exists cached. split; [exact Hdata|exact Hle].
Defined.

(** ** The dashboard *)

Lemma filter_disjoint_length {A : Type} (p q : A -> bool) (l : list A) :
  (forall x, p x = true -> q x = false) ->
  (List.length (filter p l) + List.length (filter q l) <= List.length l)%nat.
Proof.
  intros Hpq. induction l as [|x l IH]; simpl; [lia|].
  destruct (p x) eqn:Hp; [rewrite (Hpq x Hp)|destruct (q x)]; simpl; lia.
Qed.

Lemma filter_implies_length {A : Type} (p q : A -> bool) (l : list A) :
  (forall x, p x = true -> q x = true) ->
  (List.length (filter p l) <= List.length (filter q l))%nat.
Proof.
  intros Hpq. induction l as [|x l IH]; simpl; [lia|].
  destruct (p x) eqn:Hp; [rewrite (Hpq x Hp)|destruct (q x)]; simpl; lia.
Qed.

Lemma filter_filter {A : Type} (p q : A -> bool) (l : list A) :
  filter q (filter p l) = filter (fun x => p x && q x) l.
Proof.
  induction l as [|x l IH]; simpl; [reflexivity|].
  destruct (p x); simpl; [destruct (q x)|]; now rewrite IH.
Qed.

Lemma number_of_nat_plus n m :
  number_of_nat (n + m) == number_of_nat n + number_of_nat m.
Proof.
  unfold number_of_nat. rewrite Nat2Z.inj_add, inject_Z_plus. reflexivity.
Qed.

(** X20. The figures of the dashboard are consistent for every set of
    orders: the on-time orders are among the delivered ones and, with the
    late ones, are no more than all orders; the on-time rate and the
    efficiency score lie between 0 and 100; a period without orders gives
    score, profit and fuel cost 0; and when the period before holds the same
    orders the on-time trend is never positive and the late trend never
    negative, since for the period before every order that is not late
    counts as on time, delivered or not. *)
Theorem X20_dashboard_figures_are_consistent :
  forall orders prevOrders,
    let d := getDashboardKPIs orders prevOrders in
    let k := Dashboard.kpis d in
    let s := Dashboard.summary d in
    Dashboard.totalOrders s = List.length orders /\
    (Dashboard.deliveredOrders s <= Dashboard.totalOrders s)%nat /\
    Dashboard.value (Dashboard.onTimeDeliveries k)
    <= number_of_nat (Dashboard.deliveredOrders s) /\
    Dashboard.value (Dashboard.onTimeDeliveries k)
    + Dashboard.value (Dashboard.lateDeliveries k)
    <= number_of_nat (Dashboard.totalOrders s) /\
    0 <= Dashboard.onTimeRate s /\ Dashboard.onTimeRate s <= 100 /\
    0 <= Dashboard.value (Dashboard.efficiencyScore k) /\
    Dashboard.value (Dashboard.efficiencyScore k) <= 100 /\
    (orders = [] ->
     Dashboard.value (Dashboard.efficiencyScore k) == 0 /\
     Dashboard.value (Dashboard.totalProfit k) == 0 /\
     Dashboard.totalFuelCost s == 0) /\
    (prevOrders = orders ->
     Dashboard.trend (Dashboard.onTimeDeliveries k) <= 0 /\
     0 <= Dashboard.trend (Dashboard.lateDeliveries k)).
Proof.
  intros orders prevOrders. cbv zeta.
  set (delivered := filter isDelivered orders).
  set (onTime := filter (fun order => negb (docIsLate order)) delivered).
  set (late := filter (fun order =>
                         String.eqb (Order.status (OrderDoc.fields order)) "late"
                         || docIsLate order) orders).
  assert (Hd : (List.length delivered <= List.length orders)%nat)
    by apply filter_length_le.
  assert (Ho : (List.length onTime <= List.length delivered)%nat)
    by apply filter_length_le.
  assert (Hol : (List.length onTime + List.length late <= List.length orders)%nat).
  { unfold onTime, delivered. rewrite filter_filter.
    apply filter_disjoint_length. intros x Hx.
    apply andb_true_iff in Hx. destruct Hx as (Hdel & Hnl).
    apply negb_true_iff in Hnl. rewrite Hnl, orb_false_r.
    unfold isDelivered in Hdel. apply String.eqb_eq in Hdel. rewrite Hdel.
    reflexivity. }
  assert (Hrate : forall n, (n <= List.length orders)%nat ->
            0 <= (if (0 <? List.length orders)%nat
                  then number_of_nat n / number_of_nat (List.length orders) * 100
                  else 0) /\
            (if (0 <? List.length orders)%nat
             then number_of_nat n / number_of_nat (List.length orders) * 100
             else 0) <= 100).
  { intros n Hn. destruct (0 <? List.length orders)%nat eqn:E; [|split; lra].
    apply Nat.ltb_lt in E. apply percentage_range.
    - change 0 with (number_of_nat 0). apply number_of_nat_le. lia.
    - now apply number_of_nat_le.
    - now apply number_of_nat_pos. }
  destruct (Hrate (List.length onTime)) as (Hr0 & Hr1); [lia|].
  destruct (Hrate (List.length delivered)) as (Hc0 & Hc1); [lia|].
  unfold getDashboardKPIs. cbn [Dashboard.kpis Dashboard.summary Dashboard.totalOrders
    Dashboard.deliveredOrders Dashboard.onTimeRate Dashboard.totalFuelCost
    Dashboard.value Dashboard.trend Dashboard.onTimeDeliveries Dashboard.lateDeliveries
    Dashboard.efficiencyScore Dashboard.totalProfit].
  fold delivered. fold onTime. fold late.
  split; [reflexivity|]. split; [exact Hd|].
  split; [now apply number_of_nat_le|].
  split.
  { rewrite <- number_of_nat_plus. now apply number_of_nat_le. }
  destruct (round2_percentage _ Hr0 Hr1) as (Ha0 & Ha1).
  split; [exact Ha0|]. split; [exact Ha1|].
  split; [apply round2_percentage; lra|].
  split; [apply round2_percentage; lra|].
  split.
  - intros Hempty. unfold onTime, late, delivered. rewrite Hempty. simpl.
    repeat split; vm_compute; reflexivity.
  - intros Hsame. rewrite Hsame. split.
    + assert (H : (List.length onTime
                   <= List.length (filter (fun o => negb (docIsLate o)) orders))%nat).
      { unfold onTime, delivered. rewrite filter_filter.
        apply filter_implies_length. intros x Hx.
        apply andb_true_iff in Hx. now destruct Hx. }
      apply number_of_nat_le in H. lra.
    + assert (H : (List.length (filter docIsLate orders) <= List.length late)%nat).
      { unfold late. apply filter_implies_length. intros x Hx.
        rewrite Hx. apply orb_true_r. }
      apply number_of_nat_le in H. lra.
Qed.

(** ** The cost of fatigue *)

Lemma getFatigueFactor_monotone a b :
  Driver.currentShiftHours a <= Driver.currentShiftHours b ->
  Driver.getFatigueFactor a <= Driver.getFatigueFactor b.
Proof.
  intros Hab. unfold Driver.getFatigueFactor.
  destruct (JS.leb (Driver.currentShiftHours a) 4) eqn:Ha4;
  destruct (JS.leb (Driver.currentShiftHours a) 8) eqn:Ha8;
  destruct (JS.leb (Driver.currentShiftHours a) 12) eqn:Ha12;
  destruct (JS.leb (Driver.currentShiftHours b) 4) eqn:Hb4;
  destruct (JS.leb (Driver.currentShiftHours b) 8) eqn:Hb8;
  destruct (JS.leb (Driver.currentShiftHours b) 12) eqn:Hb12;
  try lra;
  repeat match goal with
         | H : JS.leb _ _ = true |- _ => apply leb_true_iff in H
         | H : JS.leb _ _ = false |- _ => apply leb_false_iff in H
         end;
  lra.
Qed.

Lemma getEstimatedTime_monotone r f1 f2 :
  0 <= Route.baseTime r -> f1 <= f2 ->
  Route.getEstimatedTime r f1 <= Route.getEstimatedTime r f2.
Proof.
  intros Hb Hf. unfold Route.getEstimatedTime. apply Math_round_monotone.
  destruct (getTrafficMultiplier_range r) as [Ht _].
  apply Qmult_le_l; [|exact Hf]. apply Qmult_le_0_compat; lra.
Qed.

Lemma reported_fatigueFactor d :
  JS.Math_round (Driver.getFatigueFactor d * 100) / 100 == Driver.getFatigueFactor d.
Proof.
  unfold Driver.getFatigueFactor.
  destruct (JS.leb (Driver.currentShiftHours d) 4);
    [|destruct (JS.leb (Driver.currentShiftHours d) 8);
      [|destruct (JS.leb (Driver.currentShiftHours d) 12)]];
    vm_compute; reflexivity.
Qed.

Lemma reported_trafficMultiplier r :
  JS.Math_round (Route.getTrafficMultiplier r * 100) / 100 == Route.getTrafficMultiplier r.
Proof.
  unfold Route.getTrafficMultiplier, Route.multipliers.
  destruct (String.eqb (Route.trafficLevel r) "Low");
    [|destruct (String.eqb (Route.trafficLevel r) "Medium");
      [|destruct (String.eqb (Route.trafficLevel r) "High")]];
    vm_compute; reflexivity.
Qed.

(** X21. Of two drivers paid the same non-negative hourly rate, the one
    with more shift hours never delivers an order faster, never earns less
    for it and never leaves the higher profit; fuel cost and delivery bonus
    do not depend on the driver.  The fatigue factor and the traffic
    multiplier reported with a delivery are the ones applied: rounding them
    to two decimals changes nothing. *)
Theorem X21_fatigue_never_raises_profit ds1 ds2 order start r1 r2 :
  simulateDelivery ds1 order start = Some r1 ->
  simulateDelivery ds2 order start = Some r2 ->
  (forall route, Order.assignedRoute order = Some route -> 0 <= Route.baseTime route) ->
  Driver.hourlyRate (DriverState.driver ds1) = Driver.hourlyRate (DriverState.driver ds2) ->
  0 <= Driver.hourlyRate (DriverState.driver ds1) ->
  Driver.currentShiftHours (DriverState.driver ds1)
  <= Driver.currentShiftHours (DriverState.driver ds2) ->
  0 <= DeliveryResult.timeSpent r1 /\
  DeliveryResult.timeSpent r1 <= DeliveryResult.timeSpent r2 /\
  DeliveryResult.driverEarnings r1 <= DeliveryResult.driverEarnings r2 /\
  DeliveryResult.profit r2 <= DeliveryResult.profit r1 /\
  DeliveryResult.fuelCost r1 = DeliveryResult.fuelCost r2 /\
  DeliveryResult.deliveryBonus r1 = DeliveryResult.deliveryBonus r2 /\
  DeliveryResult.fatigueFactor r1 == Driver.getFatigueFactor (DriverState.driver ds1) /\
  (forall route, Order.assignedRoute order = Some route ->
                 DeliveryResult.trafficMultiplier r1 == Route.getTrafficMultiplier route).
Proof.
  unfold simulateDelivery. intros H1 H2 Hbase Hrate Hpos Hshift.
  destruct (Order.assignedRoute order) as [route|] eqn:Hr; [|discriminate].
  injection H1 as <-. injection H2 as <-. simpl.
  specialize (Hbase route eq_refl).
  pose proof (getFatigueFactor_monotone _ _ Hshift) as Hf.
  destruct (getFatigueFactor_range (DriverState.driver ds1)) as (Hf1 & _).
  pose proof (getEstimatedTime_monotone route _ _ Hbase Hf) as Ht.
  assert (Ht0 : 0 <= Route.getEstimatedTime route
                       (Driver.getFatigueFactor (DriverState.driver ds1)))
    by (apply getEstimatedTime_nonneg; [exact Hbase|lra]).
  unfold Route.getEstimatedTime in Ht, Ht0.
  set (t1 := JS.Math_round (Route.baseTime route * Route.getTrafficMultiplier route
                             * Driver.getFatigueFactor (DriverState.driver ds1))) in *.
  set (t2 := JS.Math_round (Route.baseTime route * Route.getTrafficMultiplier route
                             * Driver.getFatigueFactor (DriverState.driver ds2))) in *.
  rewrite <- Hrate.
  assert (He : t1 / 60 * Driver.hourlyRate (DriverState.driver ds1)
               <= t2 / 60 * Driver.hourlyRate (DriverState.driver ds1)).
  { apply Qmult_le_compat_r; [|exact Hpos].
    apply Qle_shift_div_l; [reflexivity|].
    assert (Heq : t1 / 60 * 60 == t1) by field. lra. }
  split; [exact Ht0|]. split; [exact Ht|].
  split; [now apply Math_round_monotone|].
  split; [apply Math_round_monotone; lra|].
  split; [reflexivity|]. split; [reflexivity|].
  split; [apply reported_fatigueFactor|].
  intros route' Hroute. injection Hroute as <-. apply reported_trafficMultiplier.
Qed.

Lemma X21_fatigue_never_raises_profit_witness :
  exists r1 r2,
    simulateDelivery (DriverState.init 0 sampleDriver) sampleOrder 0 = Some r1 /\
    simulateDelivery
      (DriverState.init 0
         {| Driver._id := 4; Driver.name := "Dev"; Driver.currentShiftHours := 9;
            Driver.hourlyRate := 150; Driver.status := "active";
            Driver.rating := 4.8 |}) sampleOrder 0 = Some r2 /\
    DeliveryResult.profit r2 <= DeliveryResult.profit r1.
Proof.
  eexists. eexists. split; [reflexivity|]. split; [reflexivity|].
  eapply (X21_fatigue_never_raises_profit
            (DriverState.init 0 sampleDriver)
            (DriverState.init 0
               {| Driver._id := 4; Driver.name := "Dev"; Driver.currentShiftHours := 9;
                  Driver.hourlyRate := 150; Driver.status := "active";
                  Driver.rating := 4.8 |}) sampleOrder 0).
  - reflexivity.
  - reflexivity.
  - intros route H. injection H as <-. vm_compute. discriminate.
  - reflexivity.
  - vm_compute. discriminate.
  - vm_compute. discriminate.
Defined.
